(** * cloudscraper-ts: the challenge-handling state machine

    A shallow embedding of the challenge detector, extractor, resolver and
    request orchestrator of the TypeScript port of cloudscraper, together
    with the properties its specification states about them.

    Strings are Rocq [string]s (sequences of 8-bit code units).  JavaScript
    objects used as maps are [gmap]s; an object whose key order is observed
    ([Object.entries]) is an association list in insertion order. *)

From Stdlib Require Import ZArith Ascii String List Bool Lia DecimalString.
From Stdlib Require Import Floats.
From stdpp Require Import base option strings gmap list.

Open Scope string_scope.
Open Scope Z_scope.

(** ** String primitives of the JavaScript runtime *)

Module Str.

(** The double quote, the single quote and the line feed. *)
Definition dq : string := String (ascii_of_nat 34) EmptyString.
Definition sq : string := String (ascii_of_nat 39) EmptyString.
Definition lf : string := String (ascii_of_nat 10) EmptyString.

(** [String.prototype.startsWith]. *)
Fixpoint startsWith (pre s : string) : bool :=
  match pre with
  | EmptyString => true
  | String a pre' =>
      match s with
      | EmptyString => false
      | String b s' => if Ascii.eqb a b then startsWith pre' s' else false
      end
  end.

(** [String.prototype.endsWith]. *)
Definition endsWith (suf s : string) : bool :=
  startsWith (String.rev suf) (String.rev s).

(** [s.substring(n)]. *)
Fixpoint drop (n : nat) (s : string) : string :=
  match n, s with
  | O, _ => s
  | S n', String _ s' => drop n' s'
  | S _, EmptyString => EmptyString
  end.

(** [s.replace(/pat/g, rep)] for a literal, non-empty pattern: matches are
    found left to right and do not overlap.  [skip] counts the code units
    of the current match that are still to be passed over. *)
Fixpoint replace_from (pat rep : string) (skip : nat) (s : string) : string :=
  match s with
  | EmptyString => EmptyString
  | String a s' =>
      match skip with
      | S k => replace_from pat rep k s'
      | O =>
          if startsWith pat s
          then rep +:+ replace_from pat rep (String.length pat - 1) s'
          else String a (replace_from pat rep O s')
      end
  end.

Definition replaceAll (pat rep s : string) : string :=
  replace_from pat rep O s.

(** [s.split(sep)] for a non-empty separator.  [cur] is the piece being
    read, reversed; [skip] as in [replace_from]. *)
Fixpoint split_from (sep : string) (skip : nat) (cur : string) (s : string)
  : list string :=
  match s with
  | EmptyString => [String.rev cur]
  | String a s' =>
      match skip with
      | S k => split_from sep k cur s'
      | O =>
          if startsWith sep s
          then String.rev cur :: split_from sep (String.length sep - 1) EmptyString s'
          else split_from sep O (String a cur) s'
      end
  end.

Definition split (sep s : string) : list string :=
  split_from sep O EmptyString s.

(** [pieces.join(sep)]. *)
Fixpoint join (sep : string) (pieces : list string) : string :=
  match pieces with
  | [] => EmptyString
  | [p] => p
  | p :: rest => p +:+ sep +:+ join sep rest
  end.

(** [s.toLowerCase()] on the ASCII letters. *)
Definition lower_ascii (a : ascii) : ascii :=
  let n := nat_of_ascii a in
  if (Nat.leb 65 n && Nat.leb n 90)%bool then ascii_of_nat (n + 32) else a.

Fixpoint toLowerCase (s : string) : string :=
  match s with
  | EmptyString => EmptyString
  | String a s' => String (lower_ascii a) (toLowerCase s')
  end.

(** Whether the code unit [a] occurs in [s]. *)
Fixpoint has_char (a : ascii) (s : string) : bool :=
  match s with
  | EmptyString => false
  | String b s' => if Ascii.eqb a b then true else has_char a s'
  end.

(** Whether [pat] occurs in [s] ([s.includes(pat)]). *)
Fixpoint includes (pat s : string) : bool :=
  if startsWith pat s then true
  else match s with
       | EmptyString => false
       | String _ s' => includes pat s'
       end.

(** [s.replace(pat, rep)] for a literal pattern: the first occurrence. *)
Fixpoint replace (pat rep : string) (s : string) : string :=
  if startsWith pat s then rep +:+ drop (String.length pat) s
  else match s with
       | EmptyString => EmptyString
       | String a s' => String a (replace pat rep s')
       end.

End Str.

(** ** A backtracking matcher for the regular expressions of the source

    The subset of ECMAScript regular expressions the repository uses:
    literals, character classes, concatenation, alternation, greedy and lazy
    repetition, and capture groups.  Matching follows the ECMAScript
    backtracking order: a greedy repetition tries one more iteration first, a
    lazy one tries to stop first, and an iteration that consumes nothing is
    rejected. *)

Module Regex.

Inductive regex : Type :=
| Eps
| Chr (p : ascii -> bool)
| Cat (r1 r2 : regex)
| Alt (r1 r2 : regex)
| Star (greedy : bool) (r : regex)
| Group (n : nat) (r : regex).

(** Captures: group number and captured text, most recent first. *)
Definition caps : Type := list (nat * string).

Fixpoint cap_get (n : nat) (c : caps) : option string :=
  match c with
  | [] => None
  | (m, t) :: c' => if Nat.eqb n m then Some t else cap_get n c'
  end.

(** The text consumed between input [s] and its suffix [s']. *)
Definition consumed (s s' : string) : string :=
  String.substring 0 (String.length s - String.length s') s.

(** A repetition of [step], the matcher of the repeated pattern, before
    the continuation [k]: at most [fuel] iterations, each of which has to
    consume input. *)
Fixpoint star_loop (g : bool)
    (step : string -> caps -> (string -> caps -> option (string * caps))
            -> option (string * caps))
    (k : string -> caps -> option (string * caps))
    (fuel : nat) (s : string) (c : caps) {struct fuel} : option (string * caps) :=
  match fuel with
  | O => k s c
  | S f =>
      if g
      then match step s c (fun s' c' =>
                   if Nat.ltb (String.length s') (String.length s)
                   then star_loop g step k f s' c' else None)
           with
           | Some x => Some x
           | None => k s c
           end
      else match k s c with
           | Some x => Some x
           | None =>
               step s c (fun s' c' =>
                 if Nat.ltb (String.length s') (String.length s)
                 then star_loop g step k f s' c' else None)
           end
  end.

Fixpoint run (r : regex) (s : string) (c : caps)
    (k : string -> caps -> option (string * caps)) {struct r}
  : option (string * caps) :=
  match r with
  | Eps => k s c
  | Chr p =>
      match s with
      | String a s' => if p a then k s' c else None
      | EmptyString => None
      end
  | Cat r1 r2 => run r1 s c (fun s' c' => run r2 s' c' k)
  | Alt r1 r2 =>
      match run r1 s c k with
      | Some x => Some x
      | None => run r2 s c k
      end
  | Group n r1 => run r1 s c (fun s' c' => k s' ((n, consumed s s') :: c'))
  | Star g r1 => star_loop g (run r1) k (String.length s) s c
  end.

Record Match : Type := {
  m_index : nat;          (* where the match starts *)
  m_text : string;        (* the matched text, group 0 *)
  m_rest : string;        (* the input after the match *)
  m_caps : caps
}.

(** [regex.exec(s)] without the sticky flag: the leftmost match. *)
Fixpoint search (r : regex) (s : string) (i : nat) : option Match :=
  match run r s [] (fun s' c => Some (s', c)) with
  | Some (rest, c) =>
      Some {| m_index := i; m_text := consumed s rest; m_rest := rest; m_caps := c |}
  | None =>
      match s with
      | EmptyString => None
      | String _ s' => search r s' (S i)
      end
  end.

Definition exec (r : regex) (s : string) : option Match := search r s O.

(** [!!s.match(r)]. *)
Definition test (r : regex) (s : string) : bool :=
  match exec r s with Some _ => true | None => false end.

(** Capture group [n] of a match; [None] is JavaScript's [undefined]. *)
Definition group (n : nat) (m : Match) : option string := cap_get n (m_caps m).

(** All matches of a global regex, as the [while (exec)] loop sees them.
    Every match of the patterns below consumes input, which bounds the
    loop by the length of the text. *)
Fixpoint exec_all (fuel : nat) (r : regex) (s : string) : list Match :=
  match fuel with
  | O => []
  | S f =>
      match exec r s with
      | None => []
      | Some m =>
          if Nat.ltb (String.length (m_rest m)) (String.length s)
          then m :: exec_all f r (m_rest m)
          else [m]
      end
  end.

(** *** Pattern syntax *)

Fixpoint lit (s : string) : regex :=
  match s with
  | EmptyString => Eps
  | String a s' => Cat (Chr (Ascii.eqb a)) (lit s')
  end.

Definition plus (g : bool) (r : regex) : regex := Cat r (Star g r).
Definition opt (r : regex) : regex := Alt r Eps.

Fixpoint seq (rs : list regex) : regex :=
  match rs with
  | [] => Eps
  | r :: rs' => Cat r (seq rs')
  end.

Definition is_line_terminator (a : ascii) : bool :=
  let n := nat_of_ascii a in (Nat.eqb n 10 || Nat.eqb n 13)%bool.

(** White space, [\s], among the 8-bit code units. *)
Definition is_space (a : ascii) : bool :=
  let n := nat_of_ascii a in
  ((Nat.leb 9 n && Nat.leb n 13) || Nat.eqb n 32 || Nat.eqb n 160)%bool.

Definition is_digit (a : ascii) : bool :=
  let n := nat_of_ascii a in (Nat.leb 48 n && Nat.leb n 57)%bool.

Definition dot : regex := Chr (fun a => negb (is_line_terminator a)).
Definition dotAll : regex := Chr (fun _ => true).
Definition space : regex := Chr is_space.
Definition nonspace : regex := Chr (fun a => negb (is_space a)).
Definition digit : regex := Chr is_digit.
Definition not_dq : regex := Chr (fun a => negb (Ascii.eqb a (ascii_of_nat 34))).
Definition quote : regex :=
  Chr (fun a => (Ascii.eqb a (ascii_of_nat 34) || Ascii.eqb a (ascii_of_nat 39))%bool).

(** The groups a pattern is sure to capture when it matches: those not
    under an alternation or a repetition. *)
Fixpoint sets (r : regex) : list nat :=
  match r with
  | Eps | Chr _ | Alt _ _ | Star _ _ => []
  | Cat r1 r2 => sets r1 ++ sets r2
  | Group n r1 => n :: sets r1
  end.

(** [c'] keeps every capture of [c]. *)
Definition keeps (c c' : caps) : Prop :=
  forall n, is_Some (cap_get n c) -> is_Some (cap_get n c').

End Regex.

(** ** JavaScript values, errors and completions *)

(** The exception classes of [exceptions.ts] that the modelled code throws,
    the built-in [Error] and [TypeError], and a transport failure with its
    [code].  The loop-protection error carries the attempt count from which
    its message is rendered. *)
Inductive Error : Type :=
| CloudflareLoopProtection (depth : Z)
| CloudflareIUAMError (msg : string)
| CloudflareSolveError (msg : string)
| CloudflareChallengeError (msg : string)
| CloudflareCode1020 (msg : string)
| GenericError (msg : string)
| TypeError (msg : string)
| TransportError (code : string).

Definition decimal (z : Z) : string := NilZero.string_of_int (Z.to_int z).

(** [error.message]. *)
Definition message (e : Error) : string :=
  match e with
  | CloudflareLoopProtection depth =>
      "!!Loop Protection!! We have tried to solve " +:+ decimal depth +:+ " time(s) in a row."
  | CloudflareIUAMError m | CloudflareSolveError m | CloudflareChallengeError m
  | CloudflareCode1020 m | GenericError m | TypeError m => m
  | TransportError code => code
  end.

(** What a detector can evaluate to: its conjunction of conditions is not
    coerced, so besides the two booleans it can be [undefined]. *)
Inductive JSVal : Type :=
| VBool (b : bool)
| VUndefined.

Definition truthy (v : JSVal) : bool :=
  match v with VBool b => b | VUndefined => false end.

(** [v && w] on values already evaluated. *)
Definition js_and (v w : JSVal) : JSVal := if truthy v then w else v.

(** The completion of a synchronous computation: a value or a thrown error. *)
Inductive Completion (A : Type) : Type :=
| Normal (a : A)
| Abrupt (e : Error).
Arguments Normal {A} a.
Arguments Abrupt {A} e.

#[global] Instance Completion_ret : MRet Completion := fun A a => Normal a.
#[global] Instance Completion_bind : MBind Completion := fun A B f m =>
  match m with
  | Normal a => f a
  | Abrupt e => Abrupt e
  end.

(** [try { body } catch (error) { handler }]. *)
Definition try_catch {A} (body : Completion A) (handler : Error -> Completion A)
  : Completion A :=
  match body with
  | Normal a => Normal a
  | Abrupt e => handler e
  end.

(** ** Numbers and timers of the runtime

    A JavaScript number is a binary64 floating-point value.  The code
    computes with numbers where it turns seconds into milliseconds, and
    hands the result to [setTimeout]. *)

Module JSNumber.

(** The number nearest to an integer, ties to even: what [parseFloat]
    yields on decimal digits, and what holds a difference of two times
    (which is exact, the times being far below 2^53). *)
Definition of_Z (z : Z) : float := SF2Prim (binary_normalize prec emax z 0 false).

(** [!x]: zero of either sign and [NaN] are falsy. *)
Definition falsy (x : float) : bool := (x =? 0)%float || is_nan x.

(** [Math.trunc(x)] for a finite [x]. *)
Definition trunc (x : float) : Z :=
  match Prim2SF x with
  | S754_finite sign m e =>
      let z := Z.shiftl (Zpos m) e in if sign then - z else z
  | _ => 0
  end.

End JSNumber.

(** [setTimeout(callback, after)] of Node.js, the runtime of the program
    (it loads [https], [http] and [tls]).  By the documentation of its
    timers, a delay that is larger than 2147483647, less than 1 or [NaN]
    is set to 1, and a delay that is not whole is truncated.  In the model
    a timer takes exactly the milliseconds it is set for, and nothing else
    but the transport takes time. *)
Module Timers.

Definition duration (after : float) : Z :=
  if (1 <=? after)%float && (after <=? 2147483647)%float
  then JSNumber.trunc after
  else 1.

End Timers.

(** ** Requests and responses *)

(** A header value: a string, or something else (an array of strings, a
    number) on which string methods do not exist. *)
Inductive HeaderVal : Type :=
| HStr (s : string)
| HOther.

(** A response body: a string, a byte buffer ([Buffer], whose [toString()]
    is its bytes read as text), [null]/[undefined], or another value with
    what its [toString()] gives ([None] when that call does not yield a
    string to match against). *)
Inductive Data : Type :=
| DString (s : string)
| DBuffer (bytes : string)
| DNullish
| DObject (to_string : option string).

(** The fields of an Axios request configuration the modelled code reads or
    writes.  [None] is [undefined]. *)
Record ReqConfig : Type := {
  c_method : option string;
  c_url : option string;
  c_headers : gmap string string;
  c_data : option (gmap string string);
  c_maxRedirects : option Z;
  c_validateStatus : bool;        (* a validateStatus that accepts every status *)
  c_proxy : option string
}.

Record Response : Type := {
  status : Z;
  statusText : string;
  headers : gmap string HeaderVal;
  data : Data;
  resp_config : ReqConfig       (* [resp.config], the request it answers *)
}.

Definition empty_config : ReqConfig :=
  {| c_method := None; c_url := None; c_headers := ∅; c_data := None;
     c_maxRedirects := None; c_validateStatus := false; c_proxy := None |}.

(** [typeof resp.data === 'string' ? resp.data : resp.data.toString()], and
    also [resp.data.toString()], which agrees with it on a string. *)
Definition data_text (d : Data) : Completion string :=
  match d with
  | DString s => Normal s
  | DBuffer bytes => Normal bytes
  | DNullish => Abrupt (TypeError "Cannot read properties of undefined (reading 'toString')")
  | DObject (Some s) => Normal s
  | DObject None => Abrupt (TypeError "responseData.match is not a function")
  end.

(** [resp.headers['server']?.startsWith('cloudflare')]. *)
Definition server_startsWith_cloudflare (resp : Response) : Completion JSVal :=
  match headers resp !! "server" with
  | None => Normal VUndefined
  | Some (HStr s) => Normal (VBool (Str.startsWith "cloudflare" s))
  | Some HOther => Abrupt (TypeError "resp.headers.server?.startsWith is not a function")
  end.

(** ** The collaborators the orchestrator consumes

    The WHATWG URL parser, the HTTP transport, the Brotli decoder, the
    JavaScript evaluator behind the native interpreter, the request
    decorators (proxy selection, stealth headers) and the user agent data
    are outside the repository.  They are the fields of a world.  The
    cookie store is not among them: the code reads it through methods that
    the file itself replaces (see [CookieJar] below). *)

Record URL : Type := {
  protocol : string;        (* with its colon, as in [https:] *)
  hostname : string;        (* without the port *)
  href : string
}.

Inductive TransportResult : Type :=
| TResponse (r : Response)
| TFailure (e : Error).

Record World : Type := {
  (** [new URL(s)]; [None] when it throws. *)
  new_URL : string -> option URL;
  (** [new URL(location, base).toString()]; [None] when it throws. *)
  new_URL_base : string -> string -> option string;
  (** The evaluator run by the native interpreter on a page and a domain. *)
  native_evaluate : string -> string -> Completion string;
  (** The [n]-th call of the Axios instance, by the configuration it gets. *)
  axios : nat -> ReqConfig -> TransportResult;
  (** How long the [n]-th call of the Axios instance takes, in ms. *)
  latency : nat -> Z;
  (** [brotli.decompress(buffer).toString()]; [None] when it throws. *)
  brotli_decompress : string -> option string;
  (** Proxy selection and stealth decoration of a request configuration. *)
  decorate : option string -> string -> ReqConfig -> ReqConfig;
  (** The user agent string after [n] reloads. *)
  user_agent : nat -> string
}.

(** ** The scraper instance: options and mutable fields *)

(** The constructor options the orchestrator consults, after defaulting.
    The two intervals are numbers of seconds, as the instance holds them.
    A post-hook yields [None] when it returns the very response object it
    was given. *)
Record Options : Type := {
  disableCloudflareV1 : bool;
  doubleDown : bool;
  interpreter : string;
  captcha_provider : option string;
  solveDepth : Z;
  sessionRefreshInterval : float;
  autoRefreshOn403 : bool;
  max403Retries : Z;
  minRequestInterval : float;
  maxConcurrentRequests : Z;
  allowBrotli : bool;
  requestPreHook :
    option (option string -> string -> ReqConfig -> option string * string * ReqConfig);
  requestPostHook : option (Response -> option Response)
}.

(** What the instance does to the outside, in order. *)
Inductive Event : Type :=
| EvRefreshSession (url : string)     (* an entry into [_refreshSession] *)
| EvAxios (cfg : ReqConfig)           (* a call of the Axios instance *)
| EvSleep (ms : Z).                   (* a timer wait that took [ms] *)

(** The mutable fields of the instance, the clock [Date.now()] reads, and
    the trace of what was done.  [delay] is a number of seconds, or [null];
    the times are milliseconds since the epoch. *)
Record State : Type := {
  delay : option float;
  solveDepthCnt : Z;
  sessionStartTime : Z;
  requestCount : Z;
  last403Time : Z;
  _403RetryCount : Z;
  _in403RetryFlag : bool;
  lastRequestTime : Z;
  currentConcurrentRequests : Z;
  userAgentLoads : nat;
  now : Z;
  trace : list Event
}.

Definition set_delay (v : option float) (s : State) : State :=
  {| delay := v; solveDepthCnt := solveDepthCnt s; sessionStartTime := sessionStartTime s;
     requestCount := requestCount s; last403Time := last403Time s;
     _403RetryCount := _403RetryCount s; _in403RetryFlag := _in403RetryFlag s;
     lastRequestTime := lastRequestTime s;
     currentConcurrentRequests := currentConcurrentRequests s;
     userAgentLoads := userAgentLoads s; now := now s; trace := trace s |}.

Definition set_solveDepthCnt (v : Z) (s : State) : State :=
  {| delay := delay s; solveDepthCnt := v; sessionStartTime := sessionStartTime s;
     requestCount := requestCount s; last403Time := last403Time s;
     _403RetryCount := _403RetryCount s; _in403RetryFlag := _in403RetryFlag s;
     lastRequestTime := lastRequestTime s;
     currentConcurrentRequests := currentConcurrentRequests s;
     userAgentLoads := userAgentLoads s; now := now s; trace := trace s |}.

Definition set_session (start count : Z) (loads : nat) (s : State) : State :=
  {| delay := delay s; solveDepthCnt := solveDepthCnt s; sessionStartTime := start;
     requestCount := count; last403Time := last403Time s;
     _403RetryCount := _403RetryCount s; _in403RetryFlag := _in403RetryFlag s;
     lastRequestTime := lastRequestTime s;
     currentConcurrentRequests := currentConcurrentRequests s;
     userAgentLoads := loads; now := now s; trace := trace s |}.

Definition set_requestCount (v : Z) (s : State) : State :=
  set_session (sessionStartTime s) v (userAgentLoads s) s.

Definition set_last403Time (v : Z) (s : State) : State :=
  {| delay := delay s; solveDepthCnt := solveDepthCnt s; sessionStartTime := sessionStartTime s;
     requestCount := requestCount s; last403Time := v;
     _403RetryCount := _403RetryCount s; _in403RetryFlag := _in403RetryFlag s;
     lastRequestTime := lastRequestTime s;
     currentConcurrentRequests := currentConcurrentRequests s;
     userAgentLoads := userAgentLoads s; now := now s; trace := trace s |}.

Definition set_403RetryCount (v : Z) (s : State) : State :=
  {| delay := delay s; solveDepthCnt := solveDepthCnt s; sessionStartTime := sessionStartTime s;
     requestCount := requestCount s; last403Time := last403Time s;
     _403RetryCount := v; _in403RetryFlag := _in403RetryFlag s;
     lastRequestTime := lastRequestTime s;
     currentConcurrentRequests := currentConcurrentRequests s;
     userAgentLoads := userAgentLoads s; now := now s; trace := trace s |}.

Definition set_in403Retry (v : bool) (s : State) : State :=
  {| delay := delay s; solveDepthCnt := solveDepthCnt s; sessionStartTime := sessionStartTime s;
     requestCount := requestCount s; last403Time := last403Time s;
     _403RetryCount := _403RetryCount s; _in403RetryFlag := v;
     lastRequestTime := lastRequestTime s;
     currentConcurrentRequests := currentConcurrentRequests s;
     userAgentLoads := userAgentLoads s; now := now s; trace := trace s |}.

Definition set_lastRequestTime (v : Z) (s : State) : State :=
  {| delay := delay s; solveDepthCnt := solveDepthCnt s; sessionStartTime := sessionStartTime s;
     requestCount := requestCount s; last403Time := last403Time s;
     _403RetryCount := _403RetryCount s; _in403RetryFlag := _in403RetryFlag s;
     lastRequestTime := v;
     currentConcurrentRequests := currentConcurrentRequests s;
     userAgentLoads := userAgentLoads s; now := now s; trace := trace s |}.

Definition set_currentConcurrentRequests (v : Z) (s : State) : State :=
  {| delay := delay s; solveDepthCnt := solveDepthCnt s; sessionStartTime := sessionStartTime s;
     requestCount := requestCount s; last403Time := last403Time s;
     _403RetryCount := _403RetryCount s; _in403RetryFlag := _in403RetryFlag s;
     lastRequestTime := lastRequestTime s;
     currentConcurrentRequests := v;
     userAgentLoads := userAgentLoads s; now := now s; trace := trace s |}.

(** The passing of [ms] milliseconds and the recording of an event. *)
Definition advance (ms : Z) (ev : Event) (s : State) : State :=
  {| delay := delay s; solveDepthCnt := solveDepthCnt s; sessionStartTime := sessionStartTime s;
     requestCount := requestCount s; last403Time := last403Time s;
     _403RetryCount := _403RetryCount s; _in403RetryFlag := _in403RetryFlag s;
     lastRequestTime := lastRequestTime s;
     currentConcurrentRequests := currentConcurrentRequests s;
     userAgentLoads := userAgentLoads s; now := now s + ms; trace := trace s ++ [ev] |}.

(** How many calls of the Axios instance, and how many entries into
    [_refreshSession], a trace holds. *)
Definition is_axios (ev : Event) : bool :=
  match ev with EvAxios _ => true | _ => false end.
Definition is_refresh (ev : Event) : bool :=
  match ev with EvRefreshSession _ => true | _ => false end.
Definition axios_calls (t : list Event) : nat := length (List.filter is_axios t).
Definition refresh_attempts (t : list Event) : nat := length (List.filter is_refresh t).

(** ** Asynchronous code as a state and error monad

    One logical thread of control runs at a time, so an [async] method is
    a function of the instance state.  Besides returning or throwing, it
    can wait for ever for a concurrency slot that nothing will free. *)

Inductive Outcome (A : Type) : Type :=
| Return (a : A) (s : State)
| Throw (e : Error) (s : State)
| Hang (s : State)
| OutOfFuel.
Arguments Return {A} a s.
Arguments Throw {A} e s.
Arguments Hang {A} s.
Arguments OutOfFuel {A}.

Definition M (A : Type) : Type := State -> Outcome A.

#[global] Instance M_ret : MRet M := fun A a s => Return a s.
#[global] Instance M_bind : MBind M := fun A B f m s =>
  match m s with
  | Return a s' => f a s'
  | Throw e s' => Throw e s'
  | Hang s' => Hang s'
  | OutOfFuel => OutOfFuel
  end.

Definition throw {A} (e : Error) : M A := fun s => Throw e s.
Definition gets {A} (f : State -> A) : M A := fun s => Return (f s) s.
Definition modify (f : State -> State) : M unit := fun s => Return tt (f s).
Definition hang {A} : M A := fun s => Hang s.

(** A synchronous computation run inside an asynchronous one. *)
Definition lift {A} (c : Completion A) : M A :=
  match c with
  | Normal a => mret a
  | Abrupt e => throw e
  end.

(** [try { body } catch (error) { handler }] *)
Definition catch {A} (body : M A) (handler : Error -> M A) : M A := fun s =>
  match body s with
  | Throw e s' => handler e s'
  | other => other
  end.

(** [try { body } finally { cleanup }] *)
Definition finally {A} (body : M A) (cleanup : State -> State) : M A := fun s =>
  match body s with
  | Return a s' => Return a (cleanup s')
  | Throw e s' => Throw e (cleanup s')
  | other => other
  end.

(** A timer wait that takes [ms] milliseconds. *)
Definition wait (ms : Z) : M unit := modify (advance ms (EvSleep ms)).

(** [await new Promise(resolve => setTimeout(resolve, after))] *)
Definition sleep (after : float) : M unit := wait (Timers.duration after).

(** A call of the Axios instance: the world answers the call by its rank
    among the calls made so far. *)
Definition call_axios (W : World) (cfg : ReqConfig) : M Response := fun s =>
  let n := axios_calls (trace s) in
  let s' := advance (latency W n) (EvAxios cfg) s in
  match axios W n cfg with
  | TResponse r => Return r s'
  | TFailure e => Throw e s'
  end.

(** ** JavaScript interpreters ([interpreters/]) *)

Module Interpreters.

Inductive JavaScriptInterpreter : Type :=
| Js2PyInterpreter
| NodeJsInterpreter
| V8Interpreter
| ChakraCoreInterpreter
| NativeInterpreter.

(** [JavaScriptInterpreterFactory.createInterpreter] *)
Definition createInterpreter (interpreterName : string) : JavaScriptInterpreter :=
  let name := Str.toLowerCase interpreterName in
  if String.eqb name "js2py" then Js2PyInterpreter
  else if String.eqb name "nodejs" then NodeJsInterpreter
  else if String.eqb name "v8" then V8Interpreter
  else if String.eqb name "chakracore" then ChakraCoreInterpreter
  else NativeInterpreter.

(** What a call of [solveChallenge] does: the lines it writes with
    [console.warn], and how its promise settles. *)
Record Solved : Type := {
  console_warn : list string;
  settled : Completion string
}.

(** [solveChallenge(body, domain)] of each interpreter class.  The native
    interpreter extracts the script and hands it to the evaluator of the
    world; any failure is rethrown as a plain [Error]. *)
Definition solveChallenge (W : World) (i : JavaScriptInterpreter)
    (body domain : string) : Solved :=
  match i with
  | Js2PyInterpreter =>
      {| console_warn := ["JS2Py interpreter is not fully implemented"];
         settled := Normal "0" |}
  | NodeJsInterpreter =>
      {| console_warn := ["Node.js interpreter is not fully implemented"];
         settled := Normal "0" |}
  | V8Interpreter =>
      {| console_warn := ["V8 interpreter is not fully implemented"];
         settled := Normal "0" |}
  | ChakraCoreInterpreter =>
      {| console_warn := ["ChakraCore interpreter is not fully implemented"];
         settled := Normal "0" |}
  | NativeInterpreter =>
      {| console_warn := [];
         settled :=
           try_catch (native_evaluate W body domain)
             (fun error =>
                Abrupt (GenericError ("Failed to solve challenge: " +:+ message error))) |}
  end.

End Interpreters.

(** ** Cloudflare v1 challenge handler: the static part ([challenges/cloudflare.ts]) *)

Module Cloudflare.
Import Regex.

(** [/\/cdn-cgi\/images\/trace\/jsch\//] *)
Definition re_jsch_trace : regex := lit "/cdn-cgi/images/trace/jsch/".

(** [/\/cdn-cgi\/images\/trace\/(captcha|managed)\//] *)
Definition re_captcha_trace : regex :=
  seq [lit "/cdn-cgi/images/trace/"; Group 1 (Alt (lit "captcha") (lit "managed")); lit "/"].

(** The challenge-form pattern: [<form ], lazily any characters of the
    line, [=DQchallenge-formDQ action=DQ/] (DQ the double quote), one or
    more non-space characters, [__cf_chl_f_tk=]. *)
Definition re_challenge_form : regex :=
  seq [lit "<form "; Star false dot;
       lit ("=" +:+ Str.dq +:+ "challenge-form" +:+ Str.dq +:+ " action=" +:+ Str.dq +:+ "/");
       plus true nonspace; lit "__cf_chl_f_tk="].

(** The literal [<span class=DQcf-error-codeDQ>1020</span>]. *)
Definition re_code_1020 : regex :=
  lit ("<span class=" +:+ Str.dq +:+ "cf-error-code" +:+ Str.dq +:+ ">1020</span>").

(** [cpo.src], spaces, [=], spaces, a single or double quote,
    [/cdn-cgi/challenge-platform/], one or more non-space characters,
    [orchestrate/jsch/v1]. *)
Definition re_new_iuam : regex :=
  seq [lit "cpo.src"; Star true space; lit "="; Star true space; quote;
       lit "/cdn-cgi/challenge-platform/"; plus true nonspace;
       lit "orchestrate/jsch/v1"].

(** The same with [orchestrate/(captcha|managed)/v1]. *)
Definition re_new_captcha : regex :=
  seq [lit "cpo.src"; Star true space; lit "="; Star true space; quote;
       lit "/cdn-cgi/challenge-platform/"; plus true nonspace;
       lit "orchestrate/"; Group 1 (Alt (lit "captcha") (lit "managed")); lit "/v1"].

(** [Cloudflare.unescape] *)
Definition unescape (htmlText : string) : string :=
  Str.replaceAll "&amp;" "&"
    (Str.replaceAll "&#039;" Str.sq
      (Str.replaceAll "&quot;" Str.dq
        (Str.replaceAll "&gt;" ">"
          (Str.replaceAll "&lt;" "<" htmlText)))).

Definition status_in (codes : list Z) (resp : Response) : bool :=
  existsb (Z.eqb (status resp)) codes.

(** [Cloudflare.isIUAMChallenge] *)
Definition isIUAMChallenge (resp : Response) : Completion JSVal :=
  try_catch
    (responseData ← data_text (data resp);
     server ← server_startsWith_cloudflare resp;
     mret (js_and (js_and (js_and server
                     (VBool (status_in [429; 503] resp)))
                     (VBool (test re_jsch_trace responseData)))
                     (VBool (test re_challenge_form responseData))))
    (fun _ => Normal (VBool false)).

(** [Cloudflare.isCaptchaChallenge] *)
Definition isCaptchaChallenge (resp : Response) : Completion JSVal :=
  try_catch
    (responseData ← data_text (data resp);
     server ← server_startsWith_cloudflare resp;
     mret (js_and (js_and (js_and server
                     (VBool (status resp =? 403)))
                     (VBool (test re_captcha_trace responseData)))
                     (VBool (test re_challenge_form responseData))))
    (fun _ => Normal (VBool false)).

(** [Cloudflare.isFirewallBlocked] *)
Definition isFirewallBlocked (resp : Response) : Completion JSVal :=
  try_catch
    (responseData ← data_text (data resp);
     server ← server_startsWith_cloudflare resp;
     mret (js_and (js_and server
                     (VBool (status resp =? 403)))
                     (VBool (test re_code_1020 responseData))))
    (fun _ => Normal (VBool false)).

(** [Cloudflare.isNewIUAMChallenge]: [&&] evaluates its right operand only
    when the left one is truthy. *)
Definition isNewIUAMChallenge (resp : Response) : Completion JSVal :=
  try_catch
    (legacy ← isIUAMChallenge resp;
     if truthy legacy
     then text ← data_text (data resp); mret (VBool (test re_new_iuam text))
     else mret legacy)
    (fun _ => Normal (VBool false)).

(** [Cloudflare.isNewCaptchaChallenge] *)
Definition isNewCaptchaChallenge (resp : Response) : Completion JSVal :=
  try_catch
    (legacy ← isCaptchaChallenge resp;
     if truthy legacy
     then text ← data_text (data resp); mret (VBool (test re_new_captcha text))
     else mret legacy)
    (fun _ => Normal (VBool false)).

Definition msg_1020 : string :=
  "Cloudflare has blocked this request (Code 1020 Detected).".
Definition msg_v2_captcha : string :=
  "Detected a Cloudflare version 2 Captcha challenge, This feature is not available in the opensource (free) version.".
Definition msg_v2 : string :=
  "Detected a Cloudflare version 2 challenge, This feature is not available in the opensource (free) version.".

(** [Cloudflare.isChallengeRequest] (the debug log line is left out). *)
Definition isChallengeRequest (resp : Response) : Completion bool :=
  blocked ← isFirewallBlocked resp;
  if truthy blocked then Abrupt (CloudflareCode1020 msg_1020) else
  newCaptcha ← isNewCaptchaChallenge resp;
  if truthy newCaptcha then Abrupt (CloudflareChallengeError msg_v2_captcha) else
  newIUAM ← isNewIUAMChallenge resp;
  if truthy newIUAM then Abrupt (CloudflareChallengeError msg_v2) else
  captcha ← isCaptchaChallenge resp;
  if truthy captcha then mret true else
  iuam ← isIUAMChallenge resp;
  if truthy iuam then mret true else
  mret false.


(** *** The resolver *)

(** [ChallengeResponse] of [types.ts] *)
Record ChallengeResponse : Type := {
  cr_url : string;
  cr_data : gmap string string
}.

(** The form pattern of [iuamChallengeResponse], built with the dotAll
    flag: [<form ] and then, as group 1, lazily anything,
    [=DQchallenge-formDQ action=DQ], as group 2 lazily anything,
    [__cf_chl_f_tk=] and one or more non-space characters, then DQ, as
    group 3 lazily anything, and [</form>]. *)
Definition re_form : regex :=
  seq [lit "<form ";
       Group 1 (seq [Star false dotAll;
                     lit ("=" +:+ Str.dq +:+ "challenge-form" +:+ Str.dq +:+ " action=" +:+ Str.dq);
                     Group 2 (seq [Star false dotAll; lit "__cf_chl_f_tk="; plus true nonspace]);
                     lit Str.dq;
                     Group 3 (Star false dotAll);
                     lit "</form>"])].

(** [<input], a space, group 1 lazily, an optional slash and [>]; or
    [<input], group 2 lazily, and [>]. *)
Definition re_input : regex :=
  Alt (seq [lit "<input"; space; Group 1 (Star false dot); opt (lit "/"); lit ">"])
      (seq [lit "<input"; Group 2 (Star false dot); lit ">"]).

(** [name=DQ], group 1 of one or more characters other than DQ, DQ. *)
Definition re_name : regex :=
  seq [lit ("name=" +:+ Str.dq); Group 1 (plus true not_dq); lit Str.dq].

Definition re_value : regex :=
  seq [lit ("value=" +:+ Str.dq); Group 1 (plus true not_dq); lit Str.dq].

Definition allow_list : list string := ["r"; "jschl_vc"; "pass"].

(** [a || b] on two capture groups, followed by the [!input] test: the
    first of the two that is a non-empty string. *)
Definition first_truthy (a b : option string) : option string :=
  match a with
  | Some (String _ _ as x) => Some x
  | _ => match b with
         | Some (String _ _ as y) => Some y
         | _ => None
         end
  end.

(** One turn of the [while ((inputMatch = inputRegex.exec(form)))] loop. *)
Definition collect_input (payload : gmap string string) (inputMatch : Match)
  : gmap string string :=
  match first_truthy (group 1 inputMatch) (group 2 inputMatch) with
  | None => payload
  | Some input =>
      match exec re_name input, exec re_value input with
      | Some nameMatch, Some valueMatch =>
          match group 1 nameMatch, group 1 valueMatch with
          | Some name, Some value =>
              if bool_decide (name ∈ allow_list)
              then <[name := value]> payload
              else payload
          | _, _ => payload
          end
      | _, _ => payload
      end
  end.

Definition extract_payload (form : string) : gmap string string :=
  foldl collect_input ∅ (exec_all (S (String.length form)) re_input form).

Definition msg_extract : string :=
  "Cloudflare IUAM detected, unfortunately we can't extract the parameters correctly.".

(** A capture group that took part in the match. *)
Definition defined (o : option string) : Completion string :=
  match o with
  | Some s => Normal s
  | None => Abrupt (TypeError "undefined capture group")
  end.

Definition parse_URL (W : World) (url : string) : Completion URL :=
  match new_URL W url with
  | Some u => Normal u
  | None => Abrupt (TypeError "Invalid URL")
  end.

(** [Cloudflare.iuamChallengeResponse] *)
Definition iuamChallengeResponse (W : World) (body url interpreter : string)
  : Completion ChallengeResponse :=
  try_catch
    (match exec re_form body with
     | None => Abrupt (CloudflareIUAMError msg_extract)
     | Some formMatch =>
         form ← defined (group 1 formMatch);
         challengeUUID ← defined (group 2 formMatch);
         let payload := extract_payload form in
         parsedUrl ← parse_URL W url;
         answer ←
           try_catch
             (Interpreters.settled
                (Interpreters.solveChallenge W
                   (Interpreters.createInterpreter interpreter) body (hostname parsedUrl)))
             (fun error =>
                Abrupt (CloudflareIUAMError
                          ("Unable to parse Cloudflare anti-bots page: " +:+ message error)));
         mret {| cr_url := protocol parsedUrl +:+ "//" +:+ hostname parsedUrl
                             +:+ unescape challengeUUID;
                 cr_data := <["jschl_answer" := answer]> payload |}
     end)
    (fun error =>
       match error with
       | CloudflareIUAMError _ => Abrupt error
       | _ => Abrupt (CloudflareIUAMError
                        ("Failed to solve IUAM challenge: " +:+ message error))
       end).

(** *** Submitting the answer *)

(** [submit();], an optional CR, LF, spaces, [},], spaces, and group 1 of
    one or more digits. *)
Definition re_delay : regex :=
  seq [lit "submit();"; opt (Chr (Ascii.eqb (ascii_of_nat 13)));
       Chr (Ascii.eqb (ascii_of_nat 10)); Star true space; lit "},";
       Star true space; Group 1 (plus true digit)].

(** The integer a string of decimal digits denotes. *)
Definition parse_digits (s : string) : Z :=
  fold_left (fun acc a => 10 * acc + (Z.of_nat (nat_of_ascii a) - 48))
            (list_ascii_of_string s) 0.

(** [parseFloat] on a string of decimal digits, which is what group 1 of
    [re_delay] holds: the number nearest to the integer they denote. *)
Definition parseFloat (digits : string) : float :=
  JSNumber.of_Z (parse_digits digits).

(** [o || d] for a string that may be undefined. *)
Definition or_default (o : option string) (d : string) : string :=
  match o with
  | Some (String _ _ as x) => x
  | _ => d
  end.

(** A header set from a value that may be undefined; Axios sends no header
    for an undefined value. *)
Definition set_header (name : string) (value : option string)
    (hs : gmap string string) : gmap string string :=
  match value with
  | Some v => <[name := v]> hs
  | None => delete name hs
  end.

Definition with_headers (hs : gmap string string) (c : ReqConfig) : ReqConfig :=
  {| c_method := c_method c; c_url := c_url c; c_headers := hs; c_data := c_data c;
     c_maxRedirects := c_maxRedirects c; c_validateStatus := c_validateStatus c;
     c_proxy := c_proxy c |}.

Definition msg_no_provider : string :=
  "Cloudflare Captcha detected, unfortunately you haven't loaded an anti Captcha provider correctly via the 'captcha' parameter.".
Definition msg_delay : string :=
  "Cloudflare IUAM possibility malformed, issue extracting delay value.".
Definition msg_400 : string :=
  "Invalid challenge answer detected, Cloudflare broken?".

(** [!this.scraper.delay] *)
Definition no_delay (d : option float) : bool :=
  match d with
  | None => true
  | Some seconds => JSNumber.falsy seconds
  end.

(** [this.scraper.delay] as an operand of [*]: [null] counts as 0. *)
Definition seconds (d : option float) : float := default 0%float d.

Section challengeResponse.
Context (W : World) (O : Options).
(** [this.scraper.request] *)
Context (request : option string -> string -> ReqConfig -> M Response).

(** The configuration of the resubmission. *)
Definition challengeConfig (resp : Response) (config : ReqConfig)
    (parsedUrl : URL) (submitUrl : ChallengeResponse) : ReqConfig :=
  {| c_method := Some "POST";
     c_url := Some (cr_url submitUrl);
     c_headers :=
       set_header "Referer" (c_url (resp_config resp))
         (<["Origin" := protocol parsedUrl +:+ "//" +:+ hostname parsedUrl]>
            (c_headers config));
     c_data := Some (cr_data submitUrl);
     c_maxRedirects := Some 0;
     c_validateStatus := true;
     c_proxy := c_proxy config |}.

(** The configuration of the request that follows a redirect. *)
Definition redirectConfig (challengeResponse : Response) (config : ReqConfig)
  : ReqConfig :=
  with_headers
    (set_header "Referer" (c_url (resp_config challengeResponse)) (c_headers config))
    config.

(** The captcha branch of [challengeResponse]. *)
Definition captchaResponse (resp : Response) (config : ReqConfig) : M Response :=
  early ←
    (if doubleDown O then
       doubleDownResp ←
         request (Some (or_default (c_method (resp_config resp)) "GET"))
                 (or_default (c_url (resp_config resp)) "") config;
       again ← lift (isCaptchaChallenge doubleDownResp);
       mret (if truthy again then None else Some doubleDownResp)
     else mret None);
  match early with
  | Some doubleDownResp => mret doubleDownResp
  | None =>
      match captcha_provider O with
      | None | Some EmptyString => throw (GenericError msg_no_provider)
      | Some provider =>
          if String.eqb provider "return_response" then mret resp
          else throw (GenericError "Captcha challenge handling not implemented yet")
      end
  end.

(** What follows the resubmission. *)
Definition after_submit (resp : Response) (config : ReqConfig)
    (submitUrl : ChallengeResponse) (challengeResponse : Response) : M Response :=
  if status challengeResponse =? 400 then throw (CloudflareSolveError msg_400)
  else
    match headers challengeResponse !! "location" with
    | None | Some (HStr EmptyString) => mret challengeResponse
    | Some HOther =>
        throw (TypeError "challengeResponse.headers.location.startsWith is not a function")
    | Some (HStr location) =>
        redirectLocation ←
          (if Str.startsWith "http" location then mret location
           else match new_URL_base W location (cr_url submitUrl) with
                | Some absolute => mret absolute
                | None => throw (TypeError "Invalid URL")
                end);
        request (c_method (resp_config resp)) redirectLocation
                (redirectConfig challengeResponse config)
    end.

(** The IUAM branch of [challengeResponse]. *)
Definition iuamResponse (resp : Response) (config : ReqConfig) : M Response :=
  d ← gets delay;
  (if no_delay d
   then
     match data_text (data resp) with
     | Abrupt _ => throw (CloudflareIUAMError msg_delay)
     | Normal responseData =>
         match exec re_delay responseData with
         | Some delayMatch =>
             match first_truthy (group 1 delayMatch) None with
             | Some digits =>
                 let delay := (parseFloat digits / 1000)%float in
                 if is_nan delay then mret tt
                 else modify (set_delay (Some delay))
             | None => mret tt
             end
         | None => mret tt
         end
     end
   else mret tt);;
  d ← gets delay;
  sleep (seconds d * 1000)%float;;
  responseData ← lift (data_text (data resp));
  let urlString := or_default (c_url (resp_config resp)) "" in
  submitUrl ← lift (iuamChallengeResponse W responseData urlString (interpreter O));
  parsedUrl ← lift (parse_URL W urlString);
  challengeResponse ←
    request (Some "POST") (cr_url submitUrl)
            (challengeConfig resp config parsedUrl submitUrl);
  after_submit resp config submitUrl challengeResponse.

(** [Cloudflare.challengeResponse] *)
Definition challengeResponse (resp : Response) (config : ReqConfig) : M Response :=
  captcha ← lift (isCaptchaChallenge resp);
  if truthy captcha then captchaResponse resp config
  else iuamResponse resp config.

End challengeResponse.

End Cloudflare.

(** ** The cookie jar ([index.ts], the methods set on [CookieJar.prototype])

    Before the class, the file replaces three methods of every cookie jar
    by mocks: [getDomainsSync] and [getCookiesSync] resolve to an empty
    array and [removeAllCookiesSync] resolves to nothing, whatever the jar
    holds.  These are the methods [getTokens] and [_clearCloudflareCookies]
    call. *)

Module CookieJar.

(** [(CookieJar.prototype as any).getDomainsSync], awaited. *)
Definition getDomainsSync : list string := [].

(** [(CookieJar.prototype as any).getCookiesSync], awaited: the cookies as
    pairs of [key] and [value]. *)
Definition getCookiesSync (url : string) : list (string * string) := [].

End CookieJar.

(** ** The request orchestrator ([index.ts], class [CloudScraper]) *)

Module CloudScraper.

Definition with_data (d : Data) (resp : Response) : Response :=
  {| status := status resp; statusText := statusText resp; headers := headers resp;
     data := d; resp_config := resp_config resp |}.

Definition with_request (method : option string) (url : string) (c : ReqConfig)
  : ReqConfig :=
  {| c_method := method; c_url := Some url; c_headers := c_headers c;
     c_data := c_data c; c_maxRedirects := c_maxRedirects c;
     c_validateStatus := c_validateStatus c; c_proxy := c_proxy c |}.

(** [if (this.currentConcurrentRequests > 0) this.currentConcurrentRequests--] *)
Definition release_slot (s : State) : State :=
  if 0 <? currentConcurrentRequests s
  then set_currentConcurrentRequests (currentConcurrentRequests s - 1) s
  else s.

(** [!response.headers.location] *)
Definition no_location (resp : Response) : bool :=
  match headers resp !! "location" with
  | None | Some (HStr EmptyString) => true
  | Some _ => false
  end.

Section instance.
Context (W : World) (O : Options).

(** [decodeBrotli]: only a buffer under [content-encoding: br] is
    decoded, and a failed decoding leaves the response as it is. *)
Definition decodeBrotli (resp : Response) : Response :=
  match headers resp !! "content-encoding", data resp with
  | Some (HStr "br"), DBuffer bytes =>
      if allowBrotli O
      then match brotli_decompress W bytes with
           | Some text => with_data (DString text) resp
           | None => resp
           end
      else resp
  | _, _ => resp
  end.

(** [performRequest] *)
Definition performRequest (method : option string) (url : string)
    (config : ReqConfig) : M Response :=
  response ← call_axios W (with_request method url config);
  mret (decodeBrotli response).

(** [_shouldRefreshSession] *)
Definition _shouldRefreshSession : M bool :=
  gets (fun s =>
    let currentTime := now s in
    let sessionAge := currentTime - sessionStartTime s in
    if (sessionRefreshInterval O * 1000 <? JSNumber.of_Z sessionAge)%float then true
    else if (0 <? last403Time s) && (currentTime - last403Time s <? 60000) then true
    else false).

(** [_refreshSession]: [_clearCloudflareCookies] loops over the domains
    [getDomainsSync] gives, which are none, and catches what it throws;
    then the session is restarted, the user agent reloaded, and the
    origin of [url] probed. *)
Definition _refreshSession (url : string) : M bool :=
  modify (advance 0 (EvRefreshSession url));;
  modify (fun s => set_session (now s) 0 (S (userAgentLoads s)) s);;
  match new_URL W url with
  | None => mret false
  | Some parsedUrl =>
      let baseUrl := protocol parsedUrl +:+ "//" +:+ hostname parsedUrl in
      catch
        (testResponse ←
           call_axios W
             {| c_method := Some "GET"; c_url := Some baseUrl; c_headers := ∅;
                c_data := None; c_maxRedirects := Some 5;
                c_validateStatus := false; c_proxy := None |};
         mret (existsb (Z.eqb (status testResponse)) [200; 301; 302; 304]))
        (fun _ => mret false)
  end.

(** [_applyRequestThrottling].  The polling loop sleeps 100 ms and reads
    the slot counter again.  The model follows one logical request that
    runs alone on the instance, as every method here does: between two
    polls nothing else runs, the counter read again is the one read
    before, and a loop that is entered never ends.  (With other requests
    in flight on the same instance the loop ends when one of them gives
    its slot back; that interleaving is outside this model.) *)
Definition _applyRequestThrottling : M unit :=
  timeSinceLastRequest ← gets (fun s => JSNumber.of_Z (now s - lastRequestTime s));
  (if (timeSinceLastRequest <? minRequestInterval O * 1000)%float
   then
     let sleepTime := (minRequestInterval O - timeSinceLastRequest / 1000)%float in
     sleep (sleepTime * 1000)%float
   else mret tt);;
  inFlight ← gets currentConcurrentRequests;
  if maxConcurrentRequests O <=? inFlight then hang
  else modify (fun s => set_lastRequestTime (now s) s).

Section body.
(** [this.request], as the methods below call it. *)
Context (request : option string -> string -> ReqConfig -> M Response).

(** [_handle403Error] *)
Definition _handle403Error (response : Response) (method : option string)
    (url : string) (config : ReqConfig) : M Response :=
  count ← gets _403RetryCount;
  retried ←
    (if count <? max403Retries O then
       modify (set_403RetryCount (count + 1));;
       modify (fun s => set_last403Time (now s) s);;
       refreshSuccess ← _refreshSession url;
       if refreshSuccess : bool then
         modify (set_in403Retry true);;
         retryResponse ←
           finally
             (retryResponse ← request method url config;
              (if status retryResponse =? 200
               then modify (set_403RetryCount 0)
               else mret tt);;
              mret retryResponse)
             (set_in403Retry false);
         mret (Some retryResponse)
       else mret None
     else mret None);
  match retried with
  | Some retryResponse => mret retryResponse
  | None => modify release_slot;; mret response
  end.

(** [handleCloudflareChallenges] *)
Definition handleCloudflareChallenges (response : Response)
    (method : option string) (url : string) (config : ReqConfig) : M Response :=
  depth ← gets solveDepthCnt;
  if solveDepth O <=? depth then
    modify (set_solveDepthCnt 0);;
    throw (CloudflareLoopProtection depth)
  else
    challenged ←
      (if disableCloudflareV1 O then mret false
       else lift (Cloudflare.isChallengeRequest response));
    if challenged : bool then
      modify (fun s => set_solveDepthCnt (solveDepthCnt s + 1) s);;
      Cloudflare.challengeResponse W O request response config
    else
      (if no_location response && negb (status response =? 429)
          && negb (status response =? 503)
       then
         modify (set_solveDepthCnt 0);;
         inRetry ← gets _in403RetryFlag;
         if (status response =? 200) && negb inRetry
         then modify (set_403RetryCount 0)
         else mret tt
       else mret tt);;
      if (status response =? 403) && autoRefreshOn403 O
      then _handle403Error response method url config
      else modify release_slot;; mret response.

(** [request], one level of it.  TLS cipher rotation, proxy reports
    and debug output touch no field kept here. *)
Definition request_body (method : option string) (url : string)
    (config : ReqConfig) : M Response :=
  _applyRequestThrottling;;
  stale ← _shouldRefreshSession;
  (if stale : bool then _ ← _refreshSession url; mret tt else mret tt);;
  let config := decorate W method url config in
  modify (fun s => set_requestCount (requestCount s + 1) s);;
  modify (fun s => set_currentConcurrentRequests (currentConcurrentRequests s + 1) s);;
  let '(method, url, config) :=
    match requestPreHook O with
    | Some hook => hook method url config
    | None => (method, url, config)
    end in
  catch
    (response ← performRequest method url config;
     match
       match requestPostHook O with
       | Some hook => hook response
       | None => None
       end
     with
     | Some newResponse => mret newResponse
     | None => handleCloudflareChallenges response method url config
     end)
    (fun error => modify release_slot;; throw error).

End body.

(** [request]: the recursion through challenge resolution and 403
    retries, unfolded at most [fuel] levels deep. *)
Fixpoint request (fuel : nat) (method : option string) (url : string)
    (config : ReqConfig) : M Response :=
  match fuel with
  | 0%nat => fun _ => OutOfFuel
  | S fuel' => request_body (request fuel') method url config
  end.

(** [get] *)
Definition get (fuel : nat) (url : string) (config : ReqConfig) : M Response :=
  request fuel (Some "GET") url config.

(** [solveChallenge] *)
Definition solveChallenge (fuel : nat) (response : Response) : M Response :=
  challenged ← lift (Cloudflare.isChallengeRequest response);
  if challenged : bool
  then Cloudflare.challengeResponse W O (request fuel) response (resp_config response)
  else mret response.

Definition cookieNames : list string :=
  ["cf_clearance"; "cf_chl_2"; "cf_chl_prog"; "cf_chl_rc_ni"; "cf_turnstile"].

(** The two loops of [getTokens] over [await cookieJar.getDomainsSync()]. *)
Definition find_cookieDomain (domain : string) : option string :=
  let domains := CookieJar.getDomainsSync in
  match
    List.find (fun d => Str.startsWith "." d && Str.endsWith (Str.drop 1 d) domain)
              domains
  with
  | Some d => Some d
  | None =>
      match List.find (String.eqb domain) domains with
      | Some (String _ _ as d) => Some d
      | _ => None
      end
  end.

(** The object [cfCookies], as its entries in insertion order. *)
Definition collect_cfCookies (href : string) : list (string * string) :=
  omap (fun cookieName =>
          let cookies := CookieJar.getCookiesSync href in
          match List.find (fun c => String.eqb (fst c) cookieName) cookies with
          | Some cookie => Some (cookieName, snd cookie)
          | None => None
          end)
       cookieNames.

Definition msg_no_cookies : string :=
  "Unable to find Cloudflare cookies. Does the site actually have Cloudflare IUAM (I'm Under Attack Mode) enabled?".

(** [getTokens] *)
Definition getTokens (fuel : nat) (url : string) (config : ReqConfig)
  : M (list (string * string) * string) :=
  catch
    (response ← get fuel url config;
     if negb (status response =? 200) then
       throw (GenericError ("Failed to get tokens: " +:+ decimal (status response)
                              +:+ " " +:+ statusText response))
     else
       parsedUrl ← lift (Cloudflare.parse_URL W
                           (Cloudflare.or_default (c_url (resp_config response)) url));
       match find_cookieDomain (hostname parsedUrl) with
       | None => throw (CloudflareIUAMError msg_no_cookies)
       | Some _ =>
           loads ← gets userAgentLoads;
           mret (collect_cfCookies (href parsedUrl), user_agent W loads)
       end)
    (fun error => throw (GenericError ("Failed to get tokens: " +:+ message error))).

(** [Object.entries(tokens).map(([key, value]) => key=value).join('; ')] *)
Definition cookie_header (tokens : list (string * string)) : string :=
  Str.join "; " (map (fun kv => fst kv +:+ "=" +:+ snd kv) tokens).

(** [getCookieString] *)
Definition getCookieString (fuel : nat) (url : string) (config : ReqConfig)
  : M (string * string) :=
  '(tokens, userAgent) ← getTokens fuel url config;
  mret (cookie_header tokens, userAgent).

End instance.

(** The instance a constructor call leaves, at time [t]:
    [this.delay = options.delay || null]. *)
Definition new_state (t : Z) (options_delay : option float) : State :=
  {| delay := if Cloudflare.no_delay options_delay then None else options_delay;
     solveDepthCnt := 0; sessionStartTime := t;
     requestCount := 0; last403Time := 0; _403RetryCount := 0;
     _in403RetryFlag := false; lastRequestTime := 0;
     currentConcurrentRequests := 0; userAgentLoads := 0; now := t; trace := [] |}.

(** The options of [new CloudScraper({})]. *)
Definition default_options : Options :=
  {| disableCloudflareV1 := false; doubleDown := true; interpreter := "js2py";
     captcha_provider := None; solveDepth := 3; sessionRefreshInterval := 3600;
     autoRefreshOn403 := true; max403Retries := 3; minRequestInterval := 1;
     maxConcurrentRequests := 1; allowBrotli := true;
     requestPreHook := None; requestPostHook := None |}.

End CloudScraper.

(** ** Reading a cookie header back

    The reading the specification describes: split the header on the
    separator, split every piece on the equals sign, and take the first part
    as the name and the second, when there is one, as the value. *)
Definition read_cookie_header (header : string) : list (string * option string) :=
  map (fun piece =>
         let parts := Str.split "=" piece in
         (nth 0 parts "", nth_error parts 1))
      (Str.split "; " header).

(** ** The throttling wait under the default interval

    [n] ms after the previous request and with an interval of one second,
    [_applyRequestThrottling] waits, and the timer it sets for
    [(1 - n / 1000) * 1000] takes [1000 - n] ms or one less. *)
Definition default_wait_checked (n : nat) : bool :=
  let t := Z.of_nat n in
  let waited := Timers.duration ((1 - JSNumber.of_Z t / 1000) * 1000)%float in
  (JSNumber.of_Z t <? 1 * 1000)%float
  && ((waited =? 1000 - t) || (waited =? 999 - t)).

(** ** What a run leaves of the 403 retry counter

    An outcome keeps the counter of the state [s] it started from when the
    counter has not gone down, and a response it returns is not a 200. *)
Definition retry_count_kept (s : State) (o : Outcome Response) : Prop :=
  match o with
  | Return r s' => status r <> 200 /\ _403RetryCount s <= _403RetryCount s'
  | Throw _ s' | Hang s' => _403RetryCount s <= _403RetryCount s'
  | OutOfFuel => True
  end.

(** ** A concrete world and concrete pages

    Used to run the definitions above on explicit inputs. *)

Module Examples.
Import Str.

(** [name=DQvalueDQ] *)
Definition attr (name value : string) : string :=
  name +:+ "=" +:+ dq +:+ value +:+ dq.

Definition hidden_input (name value close : string) : string :=
  "<input " +:+ attr "type" "hidden" +:+ " " +:+ attr "name" name +:+ " "
    +:+ attr "value" value +:+ close +:+ lf.

Definition challenge_form : string :=
  "<form " +:+ attr "id" "challenge-form" +:+ " "
    +:+ attr "action" "/?__cf_chl_f_tk=abc&amp;x=1" +:+ " "
    +:+ attr "method" "POST" +:+ ">" +:+ lf
    +:+ hidden_input "r" "rv" "/>"
    +:+ hidden_input "jschl_vc" "vc" ">"
    +:+ hidden_input "other" "zz" ">"
    +:+ hidden_input "pass" "pw" "/>"
    +:+ "</form>".

(** A legacy JavaScript challenge page. *)
Definition iuam_page : string :=
  "<html><img src=/cdn-cgi/images/trace/jsch/js/transparent.gif>"
    +:+ challenge_form +:+ "</html>".

(** A legacy captcha challenge page. *)
Definition captcha_page : string :=
  "<html><img src=/cdn-cgi/images/trace/captcha/js/transparent.gif>"
    +:+ challenge_form +:+ "</html>".

(** A page that carries the 1020 block code and every other marker. *)
Definition blocked_page : string :=
  "<span " +:+ attr "class" "cf-error-code" +:+ ">1020</span>"
    +:+ "<script>cpo.src = " +:+ sq
    +:+ "/cdn-cgi/challenge-platform/h/b/orchestrate/captcha/v1" +:+ sq +:+ "</script>"
    +:+ captcha_page.

Definition response (code : Z) (hs : gmap string HeaderVal) (body : Data) : Response :=
  {| status := code; statusText := ""; headers := hs; data := body;
     resp_config := empty_config |}.

Definition cloudflare : gmap string HeaderVal := {[ "server" := HStr "cloudflare" ]}.

(** The text of [s] before the first of the code units in [stops]. *)
Fixpoint until (stops : string) (s : string) : string :=
  match s with
  | EmptyString => EmptyString
  | String a s' => if has_char a stops then EmptyString else String a (until stops s')
  end.

(** A URL parser for absolute [http] and [https] URLs without user
    information. *)
Definition example_new_URL (url : string) : option URL :=
  if startsWith "https://" url then
    Some {| protocol := "https:"; hostname := until "/:?#" (drop 8 url); href := url |}
  else if startsWith "http://" url then
    Some {| protocol := "http:"; hostname := until "/:?#" (drop 7 url); href := url |}
  else None.

(** The part of a path up to its last slash. *)
Fixpoint directory (path : string) : string :=
  match path with
  | EmptyString => EmptyString
  | String a rest =>
      if includes "/" rest then String a (directory rest)
      else if Ascii.eqb a "/" then "/" else EmptyString
  end.

(** Resolution of a location against a base URL that has no port: a URL
    is taken as it is, a path that starts with a slash replaces the path
    of the base, and any other path replaces what follows the last slash
    of the path of the base. *)
Definition example_new_URL_base (location base : string) : option string :=
  match example_new_URL base with
  | Some b =>
      let origin := protocol b +:+ "//" +:+ hostname b in
      if startsWith "/" location then Some (origin +:+ location)
      else
        match example_new_URL location with
        | Some l => Some (href l)
        | None =>
            let path := until "?#" (drop (String.length origin) base) in
            let dir := directory path in
            Some (origin +:+ (if String.eqb dir "" then "/" else dir) +:+ location)
        end
  | None => None
  end.

Definition answers (resp : Response) (cfg : ReqConfig) : Response :=
  {| status := status resp; statusText := statusText resp; headers := headers resp;
     data := data resp; resp_config := cfg |}.

(** A world whose transport answers its [n]-th call with [page n], at no
    cost in time. *)
Definition world (page : nat -> Response) : World :=
  {| new_URL := example_new_URL;
     new_URL_base := example_new_URL_base;
     native_evaluate := fun _ _ => Abrupt (GenericError "Could not extract challenge from page");
     axios := fun n cfg => TResponse (answers (page n) cfg);
     latency := fun _ => 0;
     brotli_decompress := fun _ => None;
     decorate := fun _ _ cfg => cfg;
     user_agent := fun _ => "Mozilla/5.0" |}.

Definition always (resp : Response) : World := world (fun _ => resp).

(** A fresh instance, 2 s after the epoch. *)
Definition fresh : State := CloudScraper.new_state 2000 None.

(** An instance whose session is 100 ms short of an hour old, and that
    sent its last request 100 ms ago. *)
Definition aged : State :=
  {| delay := None; solveDepthCnt := 0; sessionStartTime := 2000;
     requestCount := 1; last403Time := 0; _403RetryCount := 0;
     _in403RetryFlag := false; lastRequestTime := 3601800;
     currentConcurrentRequests := 0; userAgentLoads := 0; now := 3601900;
     trace := [] |}.

Definition with_concurrency (n : Z) (o : Options) : Options :=
  {| disableCloudflareV1 := disableCloudflareV1 o; doubleDown := doubleDown o;
     interpreter := interpreter o; captcha_provider := captcha_provider o;
     solveDepth := solveDepth o; sessionRefreshInterval := sessionRefreshInterval o;
     autoRefreshOn403 := autoRefreshOn403 o; max403Retries := max403Retries o;
     minRequestInterval := minRequestInterval o; maxConcurrentRequests := n;
     allowBrotli := allowBrotli o;
     requestPreHook := requestPreHook o; requestPostHook := requestPostHook o |}.

Definition with_max403Retries (n : Z) (o : Options) : Options :=
  {| disableCloudflareV1 := disableCloudflareV1 o; doubleDown := doubleDown o;
     interpreter := interpreter o; captcha_provider := captcha_provider o;
     solveDepth := solveDepth o; sessionRefreshInterval := sessionRefreshInterval o;
     autoRefreshOn403 := autoRefreshOn403 o; max403Retries := n;
     minRequestInterval := minRequestInterval o;
     maxConcurrentRequests := maxConcurrentRequests o;
     allowBrotli := allowBrotli o;
     requestPreHook := requestPreHook o; requestPostHook := requestPostHook o |}.

(** Captcha handling that returns the challenge page, without a second try. *)
Definition return_response (o : Options) : Options :=
  {| disableCloudflareV1 := disableCloudflareV1 o; doubleDown := false;
     interpreter := interpreter o; captcha_provider := Some "return_response";
     solveDepth := solveDepth o; sessionRefreshInterval := sessionRefreshInterval o;
     autoRefreshOn403 := autoRefreshOn403 o; max403Retries := max403Retries o;
     minRequestInterval := minRequestInterval o;
     maxConcurrentRequests := maxConcurrentRequests o;
     allowBrotli := allowBrotli o;
     requestPreHook := requestPreHook o; requestPostHook := requestPostHook o |}.

(** What an outcome shows of the instance afterwards. *)
Inductive Summary : Type :=
| Returned (code : Z) (slots retries : Z) (calls refreshes : nat)
| Threw (e : Error) (slots retries : Z) (calls refreshes : nat)
| Hung (slots : Z) (depth : Z) (calls : nat)
| NoFuel.

Definition summary (o : Outcome Response) : Summary :=
  match o with
  | Return r s =>
      Returned (status r) (currentConcurrentRequests s) (_403RetryCount s)
               (axios_calls (trace s)) (refresh_attempts (trace s))
  | Throw e s =>
      Threw e (currentConcurrentRequests s) (_403RetryCount s)
            (axios_calls (trace s)) (refresh_attempts (trace s))
  | Hang s => Hung (currentConcurrentRequests s) (solveDepthCnt s) (axios_calls (trace s))
  | OutOfFuel => NoFuel
  end.

(** A legacy JavaScript challenge page whose script asks for a wait of
    1001 ms. *)
Definition delayed_page : string :=
  iuam_page +:+ "<script>setTimeout(function(){ f.submit();" +:+ lf
    +:+ "  }, 1001);</script>".

(** Responses of a server behind Cloudflare, and of one that is not. *)
Definition js_challenge : Response := response 503 cloudflare (DString iuam_page).
Definition delayed_challenge : Response :=
  response 503 cloudflare (DString delayed_page).
Definition captcha_challenge : Response := response 403 cloudflare (DString captcha_page).
Definition blocked : Response := response 403 cloudflare (DString blocked_page).
Definition forbidden : Response := response 403 ∅ (DString "Forbidden").
Definition ok : Response := response 200 ∅ (DString "ok").

Definition page_url : string := "https://example.com/page".

(** A world whose transport fails on every call. *)
Definition unreachable : World :=
  {| new_URL := example_new_URL;
     new_URL_base := example_new_URL_base;
     native_evaluate := fun _ _ => Abrupt (GenericError "Could not extract challenge from page");
     axios := fun _ _ => TFailure (TransportError "ECONNRESET");
     latency := fun _ => 0;
     brotli_decompress := fun _ => None;
     decorate := fun _ _ cfg => cfg;
     user_agent := fun _ => "Mozilla/5.0" |}.

(** A stand-in for [request] that answers 200, and only while a 403 retry
    is in progress. *)
Definition retry_stub (method : option string) (url : string) (cfg : ReqConfig)
  : M Response :=
  fun s => if _in403RetryFlag s then Return (answers ok cfg) s
           else Throw (GenericError "no 403 retry in progress") s.

(** The response of a resubmission that redirects to a path. *)
Definition redirect : Response :=
  response 302 {[ "location" := HStr "/next" ]} (DString "").

(** A stand-in for [request] that answers every call with [redirect]. *)
Definition redirecting (method : option string) (url : string) (cfg : ReqConfig)
  : M Response :=
  fun s => Return (answers redirect cfg) s.

(** The same for a redirect to any [location]. *)
Definition redirect_to (location : string) : Response :=
  response 302 {[ "location" := HStr location ]} (DString "").

Definition redirecting_to (location : string) (method : option string)
    (url : string) (cfg : ReqConfig) : M Response :=
  fun s => Return (answers (redirect_to location) cfg) s.

End Examples.

(** ** The detector conditions as the specification words them *)

Module Spec.
Import Regex Cloudflare.

(** The [server] header is a string that starts with [cloudflare]. *)
Definition cloudflare_server (resp : Response) : Prop :=
  exists s, headers resp !! "server" = Some (HStr s)
            /\ Str.startsWith "cloudflare" s = true.

(** The body has a text, and the text matches the pattern. *)
Definition body_matches (r : regex) (resp : Response) : Prop :=
  exists text, data_text (data resp) = Normal text /\ test r text = true.

Definition LegacyJS (resp : Response) : Prop :=
  cloudflare_server resp /\ (status resp = 429 \/ status resp = 503)
  /\ body_matches re_jsch_trace resp /\ body_matches re_challenge_form resp.

Definition LegacyCaptcha (resp : Response) : Prop :=
  cloudflare_server resp /\ status resp = 403
  /\ body_matches re_captcha_trace resp /\ body_matches re_challenge_form resp.

Definition FirewallBlock (resp : Response) : Prop :=
  cloudflare_server resp /\ status resp = 403 /\ body_matches re_code_1020 resp.

Definition NewerJS (resp : Response) : Prop :=
  LegacyJS resp /\ body_matches re_new_iuam resp.

Definition NewerCaptcha (resp : Response) : Prop :=
  LegacyCaptcha resp /\ body_matches re_new_captcha resp.

(** A legacy JS challenge the resolver can answer: classification routes
    it into the resolver, it is not a captcha challenge, and the answer is
    built from its body, for the URL it was requested from. *)
Definition Solvable (W : World) (O : Options) (resp : Response)
    (submitUrl : ChallengeResponse) : Prop :=
  isChallengeRequest resp = Normal true
  /\ (exists v, isCaptchaChallenge resp = Normal v /\ truthy v = false)
  /\ exists body parsedUrl,
       data_text (data resp) = Normal body
       /\ iuamChallengeResponse W body (or_default (c_url (resp_config resp)) "")
            (interpreter O) = Normal submitUrl
       /\ new_URL W (or_default (c_url (resp_config resp)) "") = Some parsedUrl.

End Spec.

(** ** What a run leaves of the counters

    The slot counter of [s'] is at least [low] and at most the larger of its
    value in [s] and the limit; the challenge depth and the 403 retry counter
    are within their limits in [s'] when they were in [s]. *)
Definition counters_kept (O : Options) (low : Z) (s s' : State) : Prop :=
  low <= currentConcurrentRequests s'
  /\ currentConcurrentRequests s'
     <= Z.max (currentConcurrentRequests s) (maxConcurrentRequests O)
  /\ (0 <= solveDepthCnt s <= solveDepth O -> 0 <= solveDepthCnt s' <= solveDepth O)
  /\ (0 <= _403RetryCount s <= max403Retries O ->
      0 <= _403RetryCount s' <= max403Retries O).

(** The same of an outcome, with one lower bound for a return or a wait
    and one for a thrown error. *)
Definition outcome_keeps_counters (O : Options) (low_return low_throw : Z)
    (s : State) (o : Outcome Response) : Prop :=
  match o with
  | Return _ s' | Hang s' => counters_kept O low_return s s'
  | Throw _ s' => counters_kept O low_throw s s'
  | OutOfFuel => True
  end.

(** ** HTML escaping

    The escaping that [Cloudflare.unescape] undoes.  It is not part of the
    repository: it is what a server does to the five characters when it
    writes an attribute value, and it is here to state the round trip.
    The flags say which of the characters besides the ampersand are still
    escaped. *)
Module Html.

Definition escape_char (lt gt quot apos : bool) (a : ascii) : string :=
  if Ascii.eqb "&" a then "&amp;"
  else if lt && Ascii.eqb "<" a then "&lt;"
  else if gt && Ascii.eqb ">" a then "&gt;"
  else if quot && Ascii.eqb (ascii_of_nat 34) a then "&quot;"
  else if apos && Ascii.eqb (ascii_of_nat 39) a then "&#039;"
  else String a EmptyString.

Fixpoint escape_with (lt gt quot apos : bool) (s : string) : string :=
  match s with
  | EmptyString => EmptyString
  | String a s' => escape_char lt gt quot apos a +:+ escape_with lt gt quot apos s'
  end.

Definition escape (s : string) : string := escape_with true true true true s.

End Html.

(** ** Proxy rotation ([utils/proxy-manager.ts])

    [Date.now()] is the argument [now] of the methods that read the clock.
    [Math.random()] is seen through the one thing the class computes with
    it: [draw n] is [Math.floor(Math.random() * n)].  The success and failure
    counts are JavaScript numbers, and so are the scores computed from them:
    they are binary64 floats here. *)

Module ProxyManager.

Inductive Strategy : Type :=
| sequential
| random
| smart.

(** A proxy configuration, [Record<string, string>]: protocol to URL. *)
Abbreviation ProxyConfig := (gmap string string).

Record Stats : Type := {
  successes : float;
  failures : float
}.

(** The fields of an instance. *)
Record Manager : Type := {
  proxies : list string;
  rotationStrategy : Strategy;
  banTime : Z;                       (* seconds *)
  currentIndex : nat;
  bannedProxies : gmap string Z;     (* proxy to expiry, in ms *)
  proxyStats : gmap string Stats;
  currentProxy : option ProxyConfig
}.

Definition set_currentIndex (v : nat) (m : Manager) : Manager :=
  {| proxies := proxies m; rotationStrategy := rotationStrategy m; banTime := banTime m;
     currentIndex := v; bannedProxies := bannedProxies m; proxyStats := proxyStats m;
     currentProxy := currentProxy m |}.

Definition set_bannedProxies (v : gmap string Z) (m : Manager) : Manager :=
  {| proxies := proxies m; rotationStrategy := rotationStrategy m; banTime := banTime m;
     currentIndex := currentIndex m; bannedProxies := v; proxyStats := proxyStats m;
     currentProxy := currentProxy m |}.

Definition set_proxyStats (v : gmap string Stats) (m : Manager) : Manager :=
  {| proxies := proxies m; rotationStrategy := rotationStrategy m; banTime := banTime m;
     currentIndex := currentIndex m; bannedProxies := bannedProxies m; proxyStats := v;
     currentProxy := currentProxy m |}.

Definition set_currentProxy (v : option ProxyConfig) (m : Manager) : Manager :=
  {| proxies := proxies m; rotationStrategy := rotationStrategy m; banTime := banTime m;
     currentIndex := currentIndex m; bannedProxies := bannedProxies m;
     proxyStats := proxyStats m; currentProxy := v |}.

(** *** The constructor *)

(** The [proxies] property of an options object: an array, an object (of
    which the values count, in insertion order), or [null]/[undefined]. *)
Inductive ProxyList : Type :=
| ListOf (l : list string)
| ValuesOf (r : list (string * string))
| Missing.

(** The first argument of the constructor: nothing (or the empty string),
    one proxy, an array of proxies, an options object, or an object of
    proxies (one that has no [proxies] key). *)
Inductive ProxiesOrOptions : Type :=
| Absent
| OneProxy (proxy : string)
| ProxyArray (l : list string)
| OptionsObject (proxies : ProxyList) (proxyRotationStrategy : option Strategy)
    (banTime : option Z)
| ProxyRecord (r : list (string * string)).

(** A number that may be undefined, as a condition: zero is falsy. *)
Definition nonzero (o : option Z) : option Z :=
  match o with
  | Some 0 | None => None
  | Some z => Some z
  end.

Definition new (proxiesOrOptions : ProxiesOrOptions)
    (rotationStrategy : option Strategy) (banTime : option Z) : Manager :=
  let '(proxies, proxyRotationStrategy, proxyBanTime) :=
    match proxiesOrOptions with
    | Absent | OneProxy EmptyString => (ListOf [], rotationStrategy, banTime)
    | OneProxy proxy => (ListOf [proxy], rotationStrategy, banTime)
    | ProxyArray l => (ListOf l, rotationStrategy, banTime)
    | OptionsObject proxies strategy time =>
        (proxies,
         match rotationStrategy with
         | Some _ => rotationStrategy
         | None => strategy
         end,
         match nonzero banTime, nonzero time with
         | None, Some t => Some t
         | _, _ => banTime
         end)
    | ProxyRecord r => (ValuesOf r, rotationStrategy, banTime)
    end in
  let proxies :=
    match proxies with
    | ListOf l => l
    | ValuesOf r => map snd r
    | Missing => []
    end in
  {| proxies := proxies;
     rotationStrategy := default sequential proxyRotationStrategy;
     banTime := default 300 (nonzero proxyBanTime);
     currentIndex := 0;
     bannedProxies := ∅;
     proxyStats :=
       foldl (fun stats proxy => <[proxy := {| successes := 0; failures := 0 |}]> stats)
             ∅ proxies;
     currentProxy := None |}.

(** *** Configurations *)

(** [proxyToConfig]: under the protocol of the URL when it parses, and by
    its prefix when it does not. *)
Definition proxyToConfig (W : World) (proxyUrl : string) : ProxyConfig :=
  match new_URL W proxyUrl with
  | Some url => {[ Str.replace ":" "" (protocol url) := proxyUrl ]}
  | None =>
      if Str.startsWith "http://" proxyUrl then {[ "http" := proxyUrl ]}
      else if Str.startsWith "https://" proxyUrl then {[ "https" := proxyUrl ]}
      else {[ "http" := "http://" +:+ proxyUrl ]}
  end.

(** [configToProxyUrl]: the first of the four protocols under which the
    configuration holds a non-empty string. *)
Definition configToProxyUrl (proxy : ProxyConfig) : option string :=
  match
    omap (fun protocol =>
            match proxy !! protocol with
            | Some (String _ _ as url) => Some url
            | _ => None
            end)
         ["http"; "https"; "socks"; "socks5"]
  with
  | url :: _ => Some url
  | [] => None
  end.

(** *** Reports *)

(** [reportSuccess] *)
Definition reportSuccess (proxy : ProxyConfig) (m : Manager) : Manager :=
  match configToProxyUrl proxy with
  | None => m
  | Some proxyUrl =>
      match proxyStats m !! proxyUrl with
      | Some stats =>
          set_proxyStats
            (<[proxyUrl := {| successes := (successes stats + 1)%float;
                              failures := failures stats |}]> (proxyStats m)) m
      | None => m
      end
  end.

(** [reportFailure] *)
Definition reportFailure (now : Z) (proxy : ProxyConfig) (m : Manager) : Manager :=
  match configToProxyUrl proxy with
  | None => m
  | Some proxyUrl =>
      let m := set_bannedProxies
                 (<[proxyUrl := now + banTime m * 1000]> (bannedProxies m)) m in
      match proxyStats m !! proxyUrl with
      | Some stats =>
          set_proxyStats
            (<[proxyUrl := {| successes := successes stats;
                              failures := (failures stats + 1)%float |}]> (proxyStats m)) m
      | None => m
      end
  end.

(** *** Selection *)

(** [cleanupBannedProxies]: the bans that expired before [now] go. *)
Definition cleanupBannedProxies (now : Z) (m : Manager) : Manager :=
  set_bannedProxies (filter (fun ban => ¬ (ban.2 < now)) (bannedProxies m)) m.

(** [this.proxies.filter(p => !this.bannedProxies.has(p))] *)
Definition availableProxies (m : Manager) : list string :=
  List.filter (fun p => negb (bool_decide (is_Some (bannedProxies m !! p)))) (proxies m).

(** [getSequentialProxy] *)
Definition getSequentialProxy (availableProxies : list string) (m : Manager)
  : option string * Manager :=
  let index := if (length availableProxies <=? currentIndex m)%nat then 0%nat
               else currentIndex m in
  (nth_error availableProxies index, set_currentIndex (S index) m).

(** [getRandomProxy] *)
Definition getRandomProxy (draw : nat -> nat) (availableProxies : list string)
  : option string :=
  nth_error availableProxies (draw (length availableProxies)).

(** The score of a proxy in [getSmartProxy]. *)
#[warnings="-inexact-float"]
Definition score (m : Manager) (proxy : string) : float :=
  let stats := default {| successes := 0; failures := 0 |} (proxyStats m !! proxy) in
  let total := (successes stats + failures stats)%float in
  let successRatio :=
    if (0 <? total)%float then (successes stats / total)%float else 0.5%float in
  let explorationFactor := (1 / (1 + total))%float in
  (successRatio * 0.8 + explorationFactor * 0.2)%float.

(** [(a, b) => b[1] - a[1]] *)
Definition by_score (a b : string * float) : float := (snd b - snd a)%float.

(** [Array.prototype.sort], which is stable: an element passes the ones
    the comparator puts before it, and stops at the first other. *)
Fixpoint insert {A} (compare : A -> A -> float) (x : A) (sorted : list A) : list A :=
  match sorted with
  | [] => [x]
  | y :: rest =>
      if (0 <? compare x y)%float then y :: insert compare x rest
      else x :: sorted
  end.

Definition sort {A} (compare : A -> A -> float) (l : list A) : list A :=
  foldr (insert compare) [] l.

(** [getSmartProxy] *)
Definition getSmartProxy (draw : nat -> nat) (m : Manager)
    (availableProxies : list string) : option string :=
  let proxyScores := map (fun proxy => (proxy, score m proxy)) availableProxies in
  let proxyScores := sort by_score proxyScores in
  let topN := Nat.min 3 (length proxyScores) in
  let selectedIndex := draw topN in
  option_map fst (nth_error proxyScores selectedIndex).

(** The [switch] of [getProxy] over the rotation strategy. *)
Definition select (draw : nat -> nat) (availableProxies : list string) (m : Manager)
  : option string * Manager :=
  match rotationStrategy m with
  | random => (getRandomProxy draw availableProxies, m)
  | smart => (getSmartProxy draw m availableProxies, m)
  | sequential => getSequentialProxy availableProxies m
  end.

(** [getProxy].  An index that [Math.random] cannot give selects nothing,
    and the conversion of nothing throws. *)
Definition getProxy (W : World) (now : Z) (draw : nat -> nat) (m : Manager)
  : Completion (option ProxyConfig) * Manager :=
  if (length (proxies m) =? 0)%nat then (Normal None, m)
  else
    let m := cleanupBannedProxies now m in
    let available := availableProxies m in
    if (length available =? 0)%nat then (Normal None, m)
    else
      let '(selectedProxy, m) := select draw available m in
      match selectedProxy with
      | Some proxy =>
          let config := proxyToConfig W proxy in
          (Normal (Some config), set_currentProxy (Some config) m)
      | None =>
          (Abrupt (TypeError "Cannot read properties of undefined (reading 'startsWith')"),
           m)
      end.

(** [getCurrentProxy] *)
Definition getCurrentProxy (m : Manager) : option ProxyConfig := currentProxy m.

(** Calls of [getProxy] one after the other, at the given times. *)
Fixpoint getProxies (W : World) (draw : nat -> nat) (times : list Z) (m : Manager)
  : list (Completion (option ProxyConfig)) :=
  match times with
  | [] => []
  | now :: later =>
      let '(result, m) := getProxy W now draw m in
      result :: getProxies W draw later m
  end.

End ProxyManager.

(** ** User agents ([utils/user-agent.ts])

    [browsers.json], once parsed, is an object of the shape the class reads:
    browser to platform to user agents, and browser to cipher suite.  An
    object is the list of its entries in key order; a key that is looked up
    while undefined is the key [undefined].  The [k]-th call of
    [Math.random] is seen through [draw k n], which is
    [Math.floor(Math.random() * n)]. *)

Module UserAgent.

Definition JSObject (A : Type) : Type := list (string * A).

(** [object[key]] *)
Definition prop {A} (object : JSObject A) (key : option string) : option A :=
  option_map snd
    (List.find (fun entry => String.eqb (fst entry) (default "undefined" key)) object).

(** [Object.keys(object)] *)
Definition keys {A} (object : JSObject A) : list string := map fst object.

Record BrowsersData : Type := {
  browsers : option (JSObject (JSObject (list string)));
  cipherSuiteOf : option (JSObject (list string))
}.

(** [readBrowserData]: the parse of the first data file that exists, and
    the empty object when there is none or when reading throws. *)
Definition readBrowserData (file : option BrowsersData) : BrowsersData :=
  default {| browsers := None; cipherSuiteOf := None |} file.

(** The fields of an instance; a header that was set from an undefined
    value is [None]. *)
Record Instance : Type := {
  userAgentHeader : option string;
  cipherSuite : list string;
  browser : option string;
  platform : option string;
  mobile : bool;
  desktop : bool;
  custom : option string;
  allowBrotli : bool;
  browsersData : BrowsersData
}.

Definition set_userAgent (header : option string) (ciphers : list string)
    (this : Instance) : Instance :=
  {| userAgentHeader := header; cipherSuite := ciphers; browser := browser this;
     platform := platform this; mobile := mobile this; desktop := desktop this;
     custom := custom this; allowBrotli := allowBrotli this;
     browsersData := browsersData this |}.

(** [getHeaders] *)
Definition getHeaders (this : Instance) : list (string * option string) :=
  [("User-Agent", userAgentHeader this);
   ("Accept",
    Some "text/html,application/xhtml+xml,application/xml;q=0.9,image/webp,image/apng,*/*;q=0.8");
   ("Accept-Language", Some "en-US,en;q=0.9");
   ("Accept-Encoding",
    Some (if allowBrotli this then "gzip, deflate, br" else "gzip, deflate"));
   ("Connection", Some "keep-alive");
   ("Upgrade-Insecure-Requests", Some "1");
   ("Cache-Control", Some "max-age=0")].

(** [getUserAgent] *)
Definition getUserAgent (this : Instance) : option string := userAgentHeader this.

(** [getCipherSuite] *)
Definition getCipherSuite (this : Instance) : list string := cipherSuite this.

(** A string that may be undefined, as a condition. *)
Definition nonempty (o : option string) : bool :=
  match o with
  | Some (String _ _) => true
  | _ => false
  end.

(** [getBrowser] *)
Definition getBrowser (this : Instance) : string :=
  if nonempty (browser this) then default "" (browser this) else "chrome".

(** [getRandomItem], as the [k]-th use of [Math.random]. *)
Definition getRandomItem {A} (draw : nat -> nat -> nat) (k : nat) (items : list A)
  : option A * nat :=
  (nth_error items (draw k (length items)), S k).

Definition fallbackUserAgents : list string :=
  ["Mozilla/5.0 (Windows NT 10.0; Win64; x64) AppleWebKit/537.36 (KHTML, like Gecko) Chrome/90.0.4430.212 Safari/537.36";
   "Mozilla/5.0 (Macintosh; Intel Mac OS X 10_15_7) AppleWebKit/605.1.15 (KHTML, like Gecko) Version/14.1 Safari/605.1.15";
   "Mozilla/5.0 (Windows NT 10.0; Win64; x64; rv:88.0) Gecko/20100101 Firefox/88.0"].

(** [getFallbackUserAgent] *)
Definition getFallbackUserAgent (draw : nat -> nat -> nat) (k : nat)
  : option string * nat :=
  getRandomItem draw k fallbackUserAgents.

(** [getDefaultCipherSuite] *)
Definition getDefaultCipherSuite : list string :=
  ["TLS_AES_128_GCM_SHA256"; "TLS_AES_256_GCM_SHA384"; "TLS_CHACHA20_POLY1305_SHA256";
   "ECDHE-ECDSA-AES128-GCM-SHA256"; "ECDHE-RSA-AES128-GCM-SHA256";
   "ECDHE-ECDSA-AES256-GCM-SHA384"; "ECDHE-RSA-AES256-GCM-SHA384";
   "ECDHE-ECDSA-CHACHA20-POLY1305"; "ECDHE-RSA-CHACHA20-POLY1305";
   "ECDHE-RSA-AES128-SHA"; "ECDHE-RSA-AES256-SHA"; "AES128-GCM-SHA256";
   "AES256-GCM-SHA384"; "AES128-SHA"; "AES256-SHA"].

(** [this.browsersData.cipherSuite?.[browserType]] *)
Definition ciphersOf (data : BrowsersData) (browserType : option string)
  : option (list string) :=
  match cipherSuiteOf data with
  | Some suites => prop suites browserType
  | None => None
  end.

(** The three nested loops of the custom branch: the first browser, in
    key order, one of whose platforms lists the custom user agent. *)
Definition browserListing (browserTypes : JSObject (JSObject (list string)))
    (userAgent : string) : option string :=
  option_map fst
    (List.find
       (fun browserEntry =>
          existsb (fun platformEntry => existsb (String.eqb userAgent) (snd platformEntry))
                  (snd browserEntry))
       browserTypes).

(** [['android', 'ios'].includes(platform)] *)
Definition isMobilePlatform (platform : string) : bool :=
  existsb (String.eqb platform) ["android"; "ios"].

(** [loadUserAgent], from the [k]-th use of [Math.random] on. *)
Definition loadUserAgent (draw : nat -> nat -> nat) (k : nat) (this : Instance)
  : Completion (Instance * nat) :=
  let data := browsersData this in
  if nonempty (custom this) then
    match browserListing (default [] (browsers data)) (default "" (custom this)) with
    | Some browserType =>
        Normal (set_userAgent (custom this)
                  (default [] (ciphersOf data (Some browserType))) this, k)
    | None => Normal (set_userAgent (custom this) getDefaultCipherSuite this, k)
    end
  else
    let availableBrowsers := keys (default [] (browsers data)) in
    let '(browserType, k) :=
      if nonempty (browser this)
         && existsb (String.eqb (default "" (browser this))) availableBrowsers
      then (browser this, k)
      else getRandomItem draw k availableBrowsers in
    match browsers data with
    | None =>
        Abrupt (TypeError ("Cannot read properties of undefined (reading '"
                             +:+ default "undefined" browserType +:+ "')"))
    | Some browserTypes =>
        let availablePlatforms := keys (default [] (prop browserTypes browserType)) in
        let filteredPlatforms :=
          List.filter
            (fun platform =>
               (isMobilePlatform platform && mobile this)
               || (negb (isMobilePlatform platform) && desktop this))
            availablePlatforms in
        let '(platformType, k) :=
          if nonempty (platform this)
             && existsb (String.eqb (default "" (platform this))) filteredPlatforms
          then (platform this, k)
          else getRandomItem draw k filteredPlatforms in
        let '(platformType, k) :=
          if negb (nonempty platformType) && (0 <? length availablePlatforms)%nat
          then getRandomItem draw k availablePlatforms
          else (platformType, k) in
        let userAgents :=
          default []
            (match prop browserTypes browserType with
             | Some platforms => prop platforms platformType
             | None => None
             end) in
        if (0 <? length userAgents)%nat then
          let '(userAgent, k) := getRandomItem draw k userAgents in
          Normal (set_userAgent userAgent
                    (default getDefaultCipherSuite (ciphersOf data browserType)) this, k)
        else
          let '(userAgent, k) := getFallbackUserAgent draw k in
          Normal (set_userAgent userAgent getDefaultCipherSuite this, k)
    end.

(** *** The constructor *)

(** [BrowserOptions] of [types.ts] *)
Record BrowserOptions : Type := {
  o_browser : option string;
  o_platform : option string;
  o_mobile : option bool;
  o_desktop : option bool;
  o_custom : option string
}.

(** The [browser] property of the options: a string, an object, or
    something falsy. *)
Inductive BrowserArgument : Type :=
| BrowserName (name : string)
| BrowserObject (options : BrowserOptions)
| NoBrowser.

(** The first argument of the constructor: a browser name, or options. *)
Inductive Argument : Type :=
| Name (browser : string)
| Options (allowBrotli : option bool) (browser : BrowserArgument).

(** [new UserAgent(options, isMobile)], with the data file [file]. *)
Definition new (options : Argument) (isMobile : bool) (file : option BrowsersData)
    (draw : nat -> nat -> nat) (k : nat) : Completion (Instance * nat) :=
  let this :=
    match options with
    | Name name =>
        {| userAgentHeader := Some ""; cipherSuite := []; browser := Some name;
           platform := None; mobile := isMobile; desktop := true; custom := None;
           allowBrotli := false; browsersData := readBrowserData file |}
    | Options brotli (BrowserName name) =>
        {| userAgentHeader := Some ""; cipherSuite := []; browser := Some name;
           platform := None; mobile := true; desktop := true; custom := None;
           allowBrotli := default false brotli; browsersData := readBrowserData file |}
    | Options brotli (BrowserObject o) =>
        {| userAgentHeader := Some ""; cipherSuite := []; browser := o_browser o;
           platform := o_platform o;
           mobile := negb (bool_decide (o_mobile o = Some false));
           desktop := negb (bool_decide (o_desktop o = Some false));
           custom := o_custom o;
           allowBrotli := default false brotli; browsersData := readBrowserData file |}
    | Options brotli NoBrowser =>
        {| userAgentHeader := Some ""; cipherSuite := []; browser := None;
           platform := None; mobile := true; desktop := true; custom := None;
           allowBrotli := default false brotli; browsersData := readBrowserData file |}
    end in
  loadUserAgent draw k this.

(** The user agents the data lists. *)
Definition listed (data : BrowsersData) (userAgent : string) : Prop :=
  exists browserType platforms platformType userAgents,
    In (browserType, platforms) (default [] (browsers data))
    /\ In (platformType, userAgents) platforms
    /\ In userAgent userAgents.

End UserAgent.

(** ** The native interpreter ([interpreters/native-interpreter.ts])

    What the class does before and after the evaluation of the script;
    the evaluation itself, [new Function(code)()], is the argument
    [evaluate]: it throws, or gives [None] for a falsy result and the
    [toString()] of any other. *)

Module NativeInterpreter.
Import Regex.

(** A literal under the [i] flag. *)
Fixpoint lit_i (s : string) : regex :=
  match s with
  | EmptyString => Eps
  | String a s' =>
      Cat (Chr (fun b => Ascii.eqb (Str.lower_ascii a) (Str.lower_ascii b))) (lit_i s')
  end.

Definition cr : regex := Chr (Ascii.eqb (ascii_of_nat 13)).
Definition lf : regex := Chr (Ascii.eqb (ascii_of_nat 10)).

(** The challenge pattern, with the [i] flag: [setTimeout(function(){],
    white space, and as group 1 the declaration [var s,t,o,p,b,r,e,a,k,i,n,g,f]
    with the rest of its line, lazily anything up to [a.value =] and lazily
    the rest of that line; then the end of the line. *)
Definition re_challenge : regex :=
  seq [lit_i "setTimeout(function(){"; plus true space;
       Group 1 (seq [lit_i "var s,t,o,p,b,r,e,a,k,i,n,g,f"; plus false dot;
                     opt cr; lf; plus false dotAll;
                     lit_i "a.value ="; plus false dot]);
       opt cr; lf].

(** [extractChallenge] *)
Definition extractChallenge (body : string) : option string :=
  match exec re_challenge body with
  | Some m => group 1 m
  | None => None
  end.

(** [a.value = ], group 1 lazily, [ + ], lazily more, and a semicolon,
    with the [i] flag. *)
Definition re_answer : regex :=
  seq [lit_i "a.value = "; Group 1 (plus false dot); lit_i " + "; plus false dot;
       lit ";"].

(** [code.replace(re_answer, 'a.value = $1;')] *)
Definition clean (code : string) : string :=
  match exec re_answer code with
  | Some m =>
      String.substring 0 (m_index m) code
        +:+ "a.value = " +:+ default "" (group 1 m) +:+ ";" +:+ m_rest m
  | None => code
  end.

(** [prepareJavaScriptContext] *)
Definition prepareJavaScriptContext (challenge domain : string) : string :=
  clean
    (Str.join Str.lf
       [""; "      // Mock browser environment";
        "      var window = {};";
        "      var document = {";
        "        createElement: function() { ";
        "          return { firstChild: { href: 'http://" +:+ domain +:+ "/' } }; ";
        "        },";
        "        getElementById: function() {";
        "          return { value: '' };";
        "        }";
        "      };";
        "      ";
        "      // Challenge code";
        "      " +:+ challenge;
        "      ";
        "      // Return the answer";
        "      document.getElementById('jschl-answer').value;";
        "    "]).

(** [executeJavaScript] *)
Definition executeJavaScript (evaluate : string -> Completion (option string))
    (code : string) : Completion string :=
  result ← evaluate code;
  mret (default "" result).

(** The body of the [try] block of [solveChallenge]. *)
Definition attempt (evaluate : string -> Completion (option string))
    (body domain : string) : Completion string :=
  match extractChallenge body with
  | Some (String _ _ as jsChallenge) =>
      executeJavaScript evaluate (prepareJavaScriptContext jsChallenge domain)
  | _ => Abrupt (GenericError "Could not extract challenge from page")
  end.

(** [solveChallenge] *)
Definition solveChallenge (evaluate : string -> Completion (option string))
    (body domain : string) : Completion string :=
  try_catch (attempt evaluate body domain)
    (fun error => Abrupt (GenericError ("Failed to solve challenge: " +:+ message error))).

(** The world in which the native interpreter evaluates with [evaluate]. *)
Definition world_of (evaluate : string -> Completion (option string)) (W : World)
  : World :=
  {| new_URL := new_URL W; new_URL_base := new_URL_base W;
     native_evaluate := attempt evaluate;
     axios := axios W; latency := latency W;
     brotli_decompress := brotli_decompress W; decorate := decorate W;
     user_agent := user_agent W |}.

End NativeInterpreter.

(** ** TLS cipher rotation ([index.ts], [_rotateTlsCipherSuite]) *)

Module CipherRotation.

(** The fields of the scraper that cipher rotation touches, and the number
    of HTTPS agents it has built. *)
Record Tls : Type := {
  cipherSuite : option string;
  _cipherRotationCount : nat;
  agents : nat
}.

(** [availableCiphers.slice(first, last)] *)
Definition slice {A} (first last : nat) (l : list A) : list A :=
  firstn (last - first) (skipn first l).

(** [_rotateTlsCipherSuite], with the cipher suite of the user agent. *)
Definition _rotateTlsCipherSuite (availableCiphers : list string) (this : Tls) : Tls :=
  if (1 <? length availableCiphers)%nat then
    let count := S (_cipherRotationCount this) in
    let cipherIndex := (count mod length availableCiphers)%nat in
    let numCiphers := Nat.min 8 (length availableCiphers) in
    let startIndex := (cipherIndex mod (length availableCiphers - numCiphers + 1))%nat in
    let selectedCiphers := slice startIndex (startIndex + numCiphers) availableCiphers in
    let newCipherSuite := Str.join ":" selectedCiphers in
    if bool_decide (Some newCipherSuite = cipherSuite this)
    then {| cipherSuite := cipherSuite this; _cipherRotationCount := count;
            agents := agents this |}
    else {| cipherSuite := Some newCipherSuite; _cipherRotationCount := count;
            agents := S (agents this) |}
  else this.

(** What the constructor leaves: the cipher suite of the user agent, joined. *)
Definition initial (availableCiphers : list string) : Tls :=
  {| cipherSuite := Some (Str.join ":" availableCiphers); _cipherRotationCount := 0;
     agents := 1 |}.

End CipherRotation.

(** ** Stealth mode ([utils/stealth-mode.ts], class [StealthMode])

    The [k]-th call of [Math.random] is seen through the two things the
    class computes with it: [less_than k p] is [Math.random() < p / 100],
    and [floor_times k n] is [Math.floor(Math.random() * n)].  A method
    takes the number of calls made so far and gives it back with its
    result. *)

Module StealthMode.

Record Random : Type := {
  less_than : nat -> nat -> bool;
  floor_times : nat -> nat -> nat
}.

(** The fields of an instance.  [scraper] is the [debug] flag of the
    scraper the instance was built with, and [None] when it was built
    without one. *)
Record Instance : Type := {
  minDelay : float;
  maxDelay : float;
  humanLikeDelays : bool;
  randomizeHeaders : bool;
  browserQuirks : bool;
  randomizeFingerprint : bool;
  randomizeUserAgent : bool;
  delayBetweenRequests : float * float;
  scraper : option bool
}.

(** The argument of the constructor: nothing, an object with the three
    properties of the options (each may be undefined), or a scraper. *)
Inductive Argument : Type :=
| Nothing
| Options (delayBetweenRequests : option (float * float))
    (randomizeUserAgent randomizeFingerprint : option bool)
| Scraper (debug : bool).

(** [new StealthMode(scraperOrOptions)].  An object that has none of the
    three properties is taken for a scraper, and its [debug] is undefined. *)
Definition new (scraperOrOptions : Argument) : Instance :=
  match scraperOrOptions with
  | Nothing =>
      {| minDelay := 1; maxDelay := 5; humanLikeDelays := true;
         randomizeHeaders := true; browserQuirks := true; randomizeFingerprint := true;
         randomizeUserAgent := false; delayBetweenRequests := (1, 5)%float;
         scraper := None |}
  | Options None None None =>
      {| minDelay := 1; maxDelay := 5; humanLikeDelays := true;
         randomizeHeaders := true; browserQuirks := true; randomizeFingerprint := true;
         randomizeUserAgent := false; delayBetweenRequests := (1, 5)%float;
         scraper := Some false |}
  | Options delays userAgent fingerprint =>
      {| minDelay := fst (default (1, 5)%float delays);
         maxDelay := snd (default (1, 5)%float delays);
         humanLikeDelays := true; randomizeHeaders := true; browserQuirks := true;
         randomizeFingerprint := default true fingerprint;
         randomizeUserAgent := default false userAgent;
         delayBetweenRequests := default (1, 5)%float delays;
         scraper := None |}
  | Scraper debug =>
      {| minDelay := 1; maxDelay := 5; humanLikeDelays := true;
         randomizeHeaders := true; browserQuirks := true; randomizeFingerprint := true;
         randomizeUserAgent := false; delayBetweenRequests := (1, 5)%float;
         scraper := Some debug |}
  end.

(** [setDelayRange] *)
Definition setDelayRange (min max : float) (this : Instance) : Instance :=
  {| minDelay := min; maxDelay := max; humanLikeDelays := humanLikeDelays this;
     randomizeHeaders := randomizeHeaders this; browserQuirks := browserQuirks this;
     randomizeFingerprint := randomizeFingerprint this;
     randomizeUserAgent := randomizeUserAgent this;
     delayBetweenRequests := delayBetweenRequests this; scraper := scraper this |}.

(** [enableHumanLikeDelays] *)
Definition enableHumanLikeDelays (enable : bool) (this : Instance) : Instance :=
  {| minDelay := minDelay this; maxDelay := maxDelay this; humanLikeDelays := enable;
     randomizeHeaders := randomizeHeaders this; browserQuirks := browserQuirks this;
     randomizeFingerprint := randomizeFingerprint this;
     randomizeUserAgent := randomizeUserAgent this;
     delayBetweenRequests := delayBetweenRequests this; scraper := scraper this |}.

(** [enableRandomizeHeaders] *)
Definition enableRandomizeHeaders (enable : bool) (this : Instance) : Instance :=
  {| minDelay := minDelay this; maxDelay := maxDelay this;
     humanLikeDelays := humanLikeDelays this;
     randomizeHeaders := enable; browserQuirks := browserQuirks this;
     randomizeFingerprint := randomizeFingerprint this;
     randomizeUserAgent := randomizeUserAgent this;
     delayBetweenRequests := delayBetweenRequests this; scraper := scraper this |}.

(** [enableBrowserQuirks] *)
Definition enableBrowserQuirks (enable : bool) (this : Instance) : Instance :=
  {| minDelay := minDelay this; maxDelay := maxDelay this;
     humanLikeDelays := humanLikeDelays this;
     randomizeHeaders := randomizeHeaders this; browserQuirks := enable;
     randomizeFingerprint := randomizeFingerprint this;
     randomizeUserAgent := randomizeUserAgent this;
     delayBetweenRequests := delayBetweenRequests this; scraper := scraper this |}.

(** [this.scraper.debug], which throws without a scraper. *)
Definition debug (this : Instance) : Completion bool :=
  match scraper this with
  | Some flag => Normal flag
  | None => Abrupt (TypeError "Cannot read properties of undefined (reading 'debug')")
  end.

Section random.
Context (R : Random).
(** [new URL(url)], of which the protocol and the host (with the port)
    are read; [None] when it throws. *)
Context (origin : string -> option (string * string)).

(** [applyHumanLikeDelay]: the delay is computed, and logged when
    debugging; nothing waits. *)
Definition applyHumanLikeDelay (this : Instance) (k : nat) : Completion nat :=
  _ ← debug this;
  mret (S k).

Definition popularSites : list string :=
  ["https://www.google.com/"; "https://www.bing.com/"; "https://duckduckgo.com/";
   "https://www.facebook.com/"; "https://www.twitter.com/"].

Definition acceptOptions : list string :=
  ["text/html,application/xhtml+xml,application/xml;q=0.9,image/webp,*/*;q=0.8";
   "text/html,application/xhtml+xml,application/xml;q=0.9,image/webp,image/apng,*/*;q=0.8";
   "text/html,application/xhtml+xml,application/xml;q=0.9,*/*;q=0.8"].

Definition langOptions : list string :=
  ["en-US,en;q=0.9"; "en-US,en;q=0.8"; "en-GB,en;q=0.9,en-US;q=0.8";
   "en-US,en;q=0.9,fr;q=0.8"; "en-CA,en;q=0.9,fr-CA;q=0.8"].

(** [options[Math.floor(Math.random() * options.length)]] *)
Definition pick (k : nat) (options : list string) : option string :=
  nth_error options (floor_times R k (length options)).

(** The five steps of the [try] block of [applyRandomizedHeaders]. *)
Definition randomReferer (protocol host : string) (newHeaders : gmap string string)
    (k : nat) : gmap string string * nat :=
  if less_than R k 30 then
    match newHeaders !! "Referer" with
    | Some (String _ _) => (newHeaders, S k)
    | _ =>
        if less_than R (S k) 70
        then (<["Referer" := protocol +:+ "//" +:+ host +:+ "/"]> newHeaders, S (S k))
        else (Cloudflare.set_header "Referer" (pick (S (S k)) popularSites) newHeaders,
              S (S (S k)))
    end
  else (newHeaders, S k).

Definition randomAccept (newHeaders : gmap string string) (k : nat)
  : gmap string string * nat :=
  if less_than R k 10
  then (Cloudflare.set_header "Accept" (pick (S k) acceptOptions) newHeaders, S (S k))
  else (newHeaders, S k).

Definition randomLanguage (newHeaders : gmap string string) (k : nat)
  : gmap string string * nat :=
  if less_than R k 10
  then (Cloudflare.set_header "Accept-Language" (pick (S k) langOptions) newHeaders,
        S (S k))
  else (newHeaders, S k).

Definition randomDNT (newHeaders : gmap string string) (k : nat)
  : gmap string string * nat :=
  if less_than R k 15 then (<["DNT" := "1"]> newHeaders, S k) else (newHeaders, S k).

Definition randomSecFetch (method : string) (newHeaders : gmap string string) (k : nat)
  : gmap string string * nat :=
  if less_than R k 20 then
    let newHeaders :=
      <["Sec-Fetch-Site" := "same-origin"]>
        (<["Sec-Fetch-Mode" := "navigate"]>
           (<["Sec-Fetch-Dest" :=
                if String.eqb (Str.toLowerCase method) "get" then "document" else "empty"]>
              newHeaders)) in
    if less_than R (S k) 50
    then (<["Sec-Fetch-User" := "?1"]> newHeaders, S (S k))
    else (newHeaders, S (S k))
  else (newHeaders, S k).

(** [applyRandomizedHeaders] *)
Definition applyRandomizedHeaders (this : Instance) (url method : string)
    (headers : gmap string string) (k : nat) : Completion (gmap string string * nat) :=
  match origin url with
  | Some (protocol, host) =>
      let '(newHeaders, k) := randomReferer protocol host headers k in
      let '(newHeaders, k) := randomAccept newHeaders k in
      let '(newHeaders, k) := randomLanguage newHeaders k in
      let '(newHeaders, k) := randomDNT newHeaders k in
      let '(newHeaders, k) := randomSecFetch method newHeaders k in
      Normal (newHeaders, k)
  | None =>
      _ ← debug this;
      mret (headers, k)
  end.

(** [n.toString(16).padStart(2, '0')] for a byte. *)
Definition hex_digit (n : nat) : ascii :=
  nth n (list_ascii_of_string "0123456789abcdef") "0"%char.

Definition hex_byte (n : nat) : string :=
  if (n <? 16)%nat then String "0"%char (String (hex_digit n) EmptyString)
  else String (hex_digit (n / 16)) (String (hex_digit (n mod 16)) EmptyString).

(** [generateRandomChromiumClientData] *)
Definition generateRandomChromiumClientData (k : nat) : string * nat :=
  let randomBytes :=
    Str.join "" (map (fun i => hex_byte (floor_times R (k + i) 256)) (seq 0 6)) in
  ("CIm2yQEIpLbJAQjEtskBCKmdygEIqKPKAQiWocsBCNaixAE=" +:+ randomBytes, (k + 6)%nat).

(** [applyBrowserQuirks] *)
Definition applyBrowserQuirks (headers : gmap string string) (k : nat)
  : gmap string string * nat :=
  let userAgent :=
    match headers !! "User-Agent" with
    | Some (String _ _ as ua) => ua
    | _ => EmptyString
    end in
  let isChrome := Str.includes "Chrome/" userAgent in
  let isFirefox := Str.includes "Firefox/" userAgent in
  let isSafari := Str.includes "Safari/" userAgent && negb (Str.includes "Chrome/" userAgent) in
  if isChrome then
    if less_than R k 30
    then let '(data, k') := generateRandomChromiumClientData (S k) in
         (<["X-Client-Data" := data]> headers, k')
    else (headers, S k)
  else if isFirefox then
    if less_than R k 20
    then (<["Accept" :=
              "text/html,application/xhtml+xml,application/xml;q=0.9,image/webp,*/*;q=0.8"]>
            headers, S k)
    else (headers, S k)
  else if isSafari then
    if less_than R k 20
    then (<["Accept" := "text/html,application/xhtml+xml,application/xml;q=0.9,*/*;q=0.8"]>
            headers, S k)
    else (headers, S k)
  else (headers, k).

(** [applyStealthTechniques] *)
Definition applyStealthTechniques (this : Instance) (method url : string)
    (config : ReqConfig) (k : nat) : Completion (ReqConfig * nat) :=
  k ← (if humanLikeDelays this then applyHumanLikeDelay this k else mret k);
  '(headers, k) ←
    (if randomizeHeaders this
     then applyRandomizedHeaders this url method (c_headers config) k
     else mret (c_headers config, k));
  let '(headers, k) :=
    if browserQuirks this then applyBrowserQuirks headers k else (headers, k) in
  mret (Cloudflare.with_headers headers config, k).

End random.

(** [applyStealthHeaders] *)
Definition applyStealthHeaders (config : ReqConfig) : ReqConfig :=
  Cloudflare.with_headers
    (<["Sec-Fetch-Site" := "same-origin"]>
       (<["Sec-Fetch-Mode" := "navigate"]>
          (<["Sec-Fetch-Dest" := "document"]>
             (<["DNT" := "1"]>
                (<["Accept-Language" := "en-US,en;q=0.9"]>
                   (<["Accept" :=
                        "text/html,application/xhtml+xml,application/xml;q=0.9,image/webp,*/*;q=0.8"]>
                      (c_headers config)))))))
    config.

(** The headers stealth mode may write. *)
Definition written : list string :=
  ["Referer"; "Accept"; "Accept-Language"; "DNT"; "Sec-Fetch-Dest"; "Sec-Fetch-Mode";
   "Sec-Fetch-Site"; "Sec-Fetch-User"; "X-Client-Data"].

End StealthMode.

(** ** A server that lets a solved challenge through

    The transport answers the page URL with the example challenge page and
    every other URL, so also the one the answer is submitted to, with a
    plain 200. *)

Module Scenario.

Definition challenge_then_ok : World :=
  {| new_URL := Examples.example_new_URL;
     new_URL_base := Examples.example_new_URL_base;
     native_evaluate := fun _ _ => Abrupt (GenericError "Could not extract challenge from page");
     axios := fun _ cfg =>
       TResponse
         (Examples.answers
            (if bool_decide (c_url cfg = Some Examples.page_url)
             then Examples.js_challenge else Examples.ok)
            cfg);
     latency := fun _ => 0;
     brotli_decompress := fun _ => None;
     decorate := fun _ _ cfg => cfg;
     user_agent := fun _ => "Mozilla/5.0" |}.

End Scenario.

(** * Properties *)

Arguments Str.startsWith : simpl never.
Arguments Str.replaceAll : simpl never.
Arguments Str.split : simpl never.
Arguments Regex.test : simpl never.
Arguments Regex.exec : simpl never.

(** ** The detectors *)

Section detectors.
Import Regex Cloudflare.

Local Ltac run_detector resp :=
  unfold isIUAMChallenge, isCaptchaChallenge, isFirewallBlocked,
    try_catch, mbind, mret, Completion_bind, Completion_ret,
    server_startsWith_cloudflare, status_in;
  unfold Spec.LegacyJS, Spec.LegacyCaptcha, Spec.FirewallBlock,
    Spec.cloudflare_server, Spec.body_matches.

Lemma status_in_429_503 (z : Z) :
  (z =? 429) || ((z =? 503) || false) = true <-> z = 429 \/ z = 503.
Proof.
  rewrite !orb_true_iff, !Z.eqb_eq. intuition discriminate.
Qed.

(** A detector body, once the text of the response and its server header
    are at hand: what the chain of [&&] evaluates to. *)
Lemma js_and_true (v : JSVal) (b : bool) :
  js_and v (VBool b) = VBool true <-> v = VBool true /\ b = true.
Proof.
  destruct v as [[|]|]; destruct b; unfold js_and; simpl;
    split; try tauto; try (intros [? ?]); try discriminate; auto.
Qed.

Lemma isIUAMChallenge_spec (resp : Response) :
  exists v, isIUAMChallenge resp = Normal v
            /\ (v = VBool true <-> Spec.LegacyJS resp).
Proof.
  run_detector resp.
  destruct (data_text (data resp)) as [text|e] eqn:Ht.
  - destruct (headers resp !! "server") as [[s|]|] eqn:Hs; simpl.
    + eexists; split; [reflexivity|].
      rewrite !js_and_true, status_in_429_503. split.
      * intros [[[Hc Hst] Hj] Hf]. injection Hc as Hc'.
        repeat split; eauto.
      * intros [(s' & Heq & Hc) [Hst [(t1 & Ht1 & Hj) (t2 & Ht2 & Hf)]]].
        assert (s' = s) by congruence. assert (t1 = text) by congruence.
        assert (t2 = text) by congruence. subst.
        rewrite Hc. auto.
    + eexists; split; [reflexivity|]. split; [discriminate|].
      intros [(s' & Heq & _) _]. discriminate.
    + eexists; split; [reflexivity|]. split; [discriminate|].
      intros [(s' & Heq & _) _]. discriminate.
  - simpl. eexists; split; [reflexivity|]. split; [discriminate|].
    intros [_ [_ [(t1 & Ht1 & _) _]]]. discriminate.
Qed.

Lemma isCaptchaChallenge_spec (resp : Response) :
  exists v, isCaptchaChallenge resp = Normal v
            /\ (v = VBool true <-> Spec.LegacyCaptcha resp).
Proof.
  run_detector resp.
  destruct (data_text (data resp)) as [text|e] eqn:Ht.
  - destruct (headers resp !! "server") as [[s|]|] eqn:Hs; simpl.
    + eexists; split; [reflexivity|].
      rewrite !js_and_true, Z.eqb_eq. split.
      * intros [[[Hc Hst] Hj] Hf]. injection Hc as Hc'.
        repeat split; eauto.
      * intros [(s' & Heq & Hc) [Hst [(t1 & Ht1 & Hj) (t2 & Ht2 & Hf)]]].
        assert (s' = s) by congruence. assert (t1 = text) by congruence.
        assert (t2 = text) by congruence. subst.
        rewrite Hc. auto.
    + eexists; split; [reflexivity|]. split; [discriminate|].
      intros [(s' & Heq & _) _]. discriminate.
    + eexists; split; [reflexivity|]. split; [discriminate|].
      intros [(s' & Heq & _) _]. discriminate.
  - simpl. eexists; split; [reflexivity|]. split; [discriminate|].
    intros [_ [_ [(t1 & Ht1 & _) _]]]. discriminate.
Qed.

Lemma isFirewallBlocked_spec (resp : Response) :
  exists v, isFirewallBlocked resp = Normal v
            /\ (v = VBool true <-> Spec.FirewallBlock resp).
Proof.
  run_detector resp.
  destruct (data_text (data resp)) as [text|e] eqn:Ht.
  - destruct (headers resp !! "server") as [[s|]|] eqn:Hs; simpl.
    + eexists; split; [reflexivity|].
      rewrite !js_and_true, Z.eqb_eq. split.
      * intros [[Hc Hst] Hj]. injection Hc as Hc'.
        repeat split; eauto.
      * intros [(s' & Heq & Hc) [Hst (t1 & Ht1 & Hj)]].
        assert (s' = s) by congruence. assert (t1 = text) by congruence. subst.
        rewrite Hc. auto.
    + eexists; split; [reflexivity|]. split; [discriminate|].
      intros [(s' & Heq & _) _]. discriminate.
    + eexists; split; [reflexivity|]. split; [discriminate|].
      intros [(s' & Heq & _) _]. discriminate.
  - simpl. eexists; split; [reflexivity|]. split; [discriminate|].
    intros [_ [_ (t1 & Ht1 & _)]]. discriminate.
Qed.

Lemma truthy_true (v : JSVal) : truthy v = true <-> v = VBool true.
Proof. destruct v as [[|]|]; simpl; intuition congruence. Qed.

Lemma isNewIUAMChallenge_spec (resp : Response) :
  exists v, isNewIUAMChallenge resp = Normal v
            /\ (v = VBool true <-> Spec.NewerJS resp).
Proof.
  destruct (isIUAMChallenge_spec resp) as (legacy & Hl & Hiff).
  unfold isNewIUAMChallenge, Spec.NewerJS. rewrite Hl.
  unfold try_catch, mbind, mret, Completion_bind, Completion_ret.
  destruct (truthy legacy) eqn:Ht.
  - apply truthy_true in Ht. subst legacy.
    destruct (proj1 Hiff eq_refl) as (Hsrv & Hst & (t & Htext & Hj) & Hf).
    rewrite Htext. eexists; split; [reflexivity|]. split.
    + intros H. injection H as Hm. split; [tauto|]. exists t. auto.
    + intros [_ (t' & Ht' & Hm)]. assert (t' = t) by congruence. subst.
      rewrite Hm. reflexivity.
  - exists legacy. split; [reflexivity|]. split.
    + intros ->. discriminate.
    + intros [HL _]. apply Hiff in HL. subst. discriminate.
Qed.

Lemma isNewCaptchaChallenge_spec (resp : Response) :
  exists v, isNewCaptchaChallenge resp = Normal v
            /\ (v = VBool true <-> Spec.NewerCaptcha resp).
Proof.
  destruct (isCaptchaChallenge_spec resp) as (legacy & Hl & Hiff).
  unfold isNewCaptchaChallenge, Spec.NewerCaptcha. rewrite Hl.
  unfold try_catch, mbind, mret, Completion_bind, Completion_ret.
  destruct (truthy legacy) eqn:Ht.
  - apply truthy_true in Ht. subst legacy.
    destruct (proj1 Hiff eq_refl) as (Hsrv & Hst & (t & Htext & Hj) & Hf).
    rewrite Htext. eexists; split; [reflexivity|]. split.
    + intros H. injection H as Hm. split; [tauto|]. exists t. auto.
    + intros [_ (t' & Ht' & Hm)]. assert (t' = t) by congruence. subst.
      rewrite Hm. reflexivity.
  - exists legacy. split; [reflexivity|]. split.
    + intros ->. discriminate.
    + intros [HL _]. apply Hiff in HL. subst. discriminate.
Qed.

End detectors.

(** C10.  Every detector is total: on every response, whatever its headers
    and its body, each of the five detectors completes normally, and the
    value it gives is [true] exactly when the documented conditions of that
    detector all hold.  So a response without a [server] entry, without a
    body or with a body that is not a string gives a value other than
    [true], never an exception. *)
Theorem detectors_total (resp : Response) :
  (exists v, Cloudflare.isIUAMChallenge resp = Normal v
             /\ (v = VBool true <-> Spec.LegacyJS resp))
  /\ (exists v, Cloudflare.isCaptchaChallenge resp = Normal v
                /\ (v = VBool true <-> Spec.LegacyCaptcha resp))
  /\ (exists v, Cloudflare.isNewIUAMChallenge resp = Normal v
                /\ (v = VBool true <-> Spec.NewerJS resp))
  /\ (exists v, Cloudflare.isNewCaptchaChallenge resp = Normal v
                /\ (v = VBool true <-> Spec.NewerCaptcha resp))
  /\ (exists v, Cloudflare.isFirewallBlocked resp = Normal v
                /\ (v = VBool true <-> Spec.FirewallBlock resp)).
Proof.
  split; [apply isIUAMChallenge_spec|].
  split; [apply isCaptchaChallenge_spec|].
  split; [apply isNewIUAMChallenge_spec|].
  split; [apply isNewCaptchaChallenge_spec|].
  apply isFirewallBlocked_spec.
Qed.

(** X6.  For a response that does not come from a Cloudflare server (no
    [server] header, or one that is no string starting with [cloudflare]),
    each of the five detectors returns, without error, a falsy value,
    whatever the status and the body. *)
Lemma detectors_falsy_off_cloudflare (resp : Response) :
  ~ Spec.cloudflare_server resp ->
  forall detector,
    In detector [Cloudflare.isIUAMChallenge; Cloudflare.isCaptchaChallenge;
                 Cloudflare.isNewIUAMChallenge; Cloudflare.isNewCaptchaChallenge;
                 Cloudflare.isFirewallBlocked] ->
    exists v, detector resp = Normal v /\ truthy v = false.
Proof.
  intros Hoff detector Hin.
  pose proof (isIUAMChallenge_spec resp) as H1.
  pose proof (isCaptchaChallenge_spec resp) as H2.
  pose proof (isNewIUAMChallenge_spec resp) as H3.
  pose proof (isNewCaptchaChallenge_spec resp) as H4.
  pose proof (isFirewallBlocked_spec resp) as H5.
  assert (Hfalsy : forall v, ~ (v = VBool true) -> truthy v = false).
  { intros v Hv. destruct (truthy v) eqn:E; [|reflexivity].
    apply truthy_true in E. contradiction. }
  simpl in Hin.
  destruct Hin as [<-|[<-|[<-|[<-|[<-|[]]]]]].
  - destruct H1 as (v & -> & Hiff). exists v. split; [reflexivity|].
    apply Hfalsy. intros Hv. apply Hiff in Hv. apply Hoff, Hv.
  - destruct H2 as (v & -> & Hiff). exists v. split; [reflexivity|].
    apply Hfalsy. intros Hv. apply Hiff in Hv. apply Hoff, Hv.
  - destruct H3 as (v & -> & Hiff). exists v. split; [reflexivity|].
    apply Hfalsy. intros Hv. apply Hiff in Hv. apply Hoff, Hv.
  - destruct H4 as (v & -> & Hiff). exists v. split; [reflexivity|].
    apply Hfalsy. intros Hv. apply Hiff in Hv. apply Hoff, Hv.
  - destruct H5 as (v & -> & Hiff). exists v. split; [reflexivity|].
    apply Hfalsy. intros Hv. apply Hiff in Hv. apply Hoff, Hv.
Qed.

(** With a [server] header that is a string not starting with
    [cloudflare], every detector gives the boolean [false]. *)
Lemma detectors_false_for_other_server (resp : Response) (s : string) :
  headers resp !! "server" = Some (HStr s) ->
  Str.startsWith "cloudflare" s = false ->
  Cloudflare.isIUAMChallenge resp = Normal (VBool false)
  /\ Cloudflare.isCaptchaChallenge resp = Normal (VBool false)
  /\ Cloudflare.isNewIUAMChallenge resp = Normal (VBool false)
  /\ Cloudflare.isNewCaptchaChallenge resp = Normal (VBool false)
  /\ Cloudflare.isFirewallBlocked resp = Normal (VBool false).
Proof.
  intros Hs Hc.
  assert (Hi : Cloudflare.isIUAMChallenge resp = Normal (VBool false)).
  { unfold Cloudflare.isIUAMChallenge, server_startsWith_cloudflare.
    rewrite Hs, Hc. destruct (data_text (data resp)); reflexivity. }
  assert (Hcap : Cloudflare.isCaptchaChallenge resp = Normal (VBool false)).
  { unfold Cloudflare.isCaptchaChallenge, server_startsWith_cloudflare.
    rewrite Hs, Hc. destruct (data_text (data resp)); reflexivity. }
  repeat split; try assumption.
  - unfold Cloudflare.isNewIUAMChallenge. rewrite Hi. reflexivity.
  - unfold Cloudflare.isNewCaptchaChallenge. rewrite Hcap. reflexivity.
  - unfold Cloudflare.isFirewallBlocked, server_startsWith_cloudflare.
    rewrite Hs, Hc. destruct (data_text (data resp)); reflexivity.
Qed.

(** C6, on the code.  A response without a [server] header, whose body has
    a text, makes each of the five detectors evaluate to [undefined]: the
    optional chaining on the absent header gives [undefined], and the chain
    of [&&] hands that value back uncoerced.  The value is falsy, but it is
    not the boolean [false]. *)
Theorem detectors_undefined_without_server (resp : Response) (text : string) :
  headers resp !! "server" = None ->
  data_text (data resp) = Normal text ->
  Cloudflare.isIUAMChallenge resp = Normal VUndefined
  /\ Cloudflare.isCaptchaChallenge resp = Normal VUndefined
  /\ Cloudflare.isNewIUAMChallenge resp = Normal VUndefined
  /\ Cloudflare.isNewCaptchaChallenge resp = Normal VUndefined
  /\ Cloudflare.isFirewallBlocked resp = Normal VUndefined.
Proof.
  intros Hs Ht.
  assert (Hi : Cloudflare.isIUAMChallenge resp = Normal VUndefined).
  { unfold Cloudflare.isIUAMChallenge, server_startsWith_cloudflare.
    rewrite Hs, Ht. reflexivity. }
  assert (Hcap : Cloudflare.isCaptchaChallenge resp = Normal VUndefined).
  { unfold Cloudflare.isCaptchaChallenge, server_startsWith_cloudflare.
    rewrite Hs, Ht. reflexivity. }
  repeat split; try assumption.
  - unfold Cloudflare.isNewIUAMChallenge. rewrite Hi. reflexivity.
  - unfold Cloudflare.isNewCaptchaChallenge. rewrite Hcap. reflexivity.
  - unfold Cloudflare.isFirewallBlocked, server_startsWith_cloudflare.
    rewrite Hs, Ht. reflexivity.
Qed.

(** A 503 answer of a server that names itself in no header. *)
Lemma detectors_undefined_without_server_witness :
  let resp := Examples.response 503 ∅ (DString Examples.iuam_page) in
  headers resp !! "server" = None
  /\ Cloudflare.isIUAMChallenge resp = Normal VUndefined
  /\ Cloudflare.isFirewallBlocked resp = Normal VUndefined.
Proof.
  intros resp. split; [reflexivity|].
  destruct (detectors_undefined_without_server resp Examples.iuam_page)
    as (H1 & _ & _ & _ & H5); [reflexivity | reflexivity |].
  split; [exact H1 | exact H5].
Defined.

(** ** Classification *)

Section classification.
Import Cloudflare.

(** [isChallengeRequest] as a decision list over the five verdicts. *)
Lemma isChallengeRequest_cases (resp : Response) :
  exists blocked newCaptcha newIUAM captcha iuam,
    (blocked = true <-> Spec.FirewallBlock resp)
    /\ (newCaptcha = true <-> Spec.NewerCaptcha resp)
    /\ (newIUAM = true <-> Spec.NewerJS resp)
    /\ (captcha = true <-> Spec.LegacyCaptcha resp)
    /\ (iuam = true <-> Spec.LegacyJS resp)
    /\ isChallengeRequest resp =
         if blocked : bool then Abrupt (CloudflareCode1020 msg_1020)
         else if newCaptcha : bool then Abrupt (CloudflareChallengeError msg_v2_captcha)
         else if newIUAM : bool then Abrupt (CloudflareChallengeError msg_v2)
         else Normal (captcha || iuam).
Proof.
  destruct (isFirewallBlocked_spec resp) as (vb & Hb & Ib).
  destruct (isNewCaptchaChallenge_spec resp) as (vnc & Hnc & Inc).
  destruct (isNewIUAMChallenge_spec resp) as (vni & Hni & Ini).
  destruct (isCaptchaChallenge_spec resp) as (vc & Hc & Ic).
  destruct (isIUAMChallenge_spec resp) as (vi & Hi & Ii).
  exists (truthy vb), (truthy vnc), (truthy vni), (truthy vc), (truthy vi).
  rewrite !truthy_true. repeat (split; [assumption|]).
  unfold isChallengeRequest. rewrite Hb, Hnc, Hni, Hc, Hi.
  unfold mbind, mret, Completion_bind, Completion_ret.
  destruct (truthy vb), (truthy vnc), (truthy vni), (truthy vc), (truthy vi);
    reflexivity.
Qed.

End classification.

(** C1.  Classification evaluates firewall-block, newer-captcha, newer-JS
    and then the legacy detections, in that order.  A firewall block (a
    Cloudflare 403 with the 1020 marker, whatever else the body holds)
    raises [CloudflareCode1020]; failing that, a newer captcha or a newer JS
    challenge raises [CloudflareChallengeError]; failing those, a legacy
    captcha or JS challenge gives [true] and anything else [false].  In the
    orchestrator an error raised by classification leaves
    [handleCloudflareChallenges] at once, the instance untouched and
    [request] not called; the answer [true] is what routes the response,
    with the loop counter incremented, into [challengeResponse]. *)
Theorem classification_order (resp : Response) :
  (Spec.FirewallBlock resp ->
   Cloudflare.isChallengeRequest resp = Abrupt (CloudflareCode1020 Cloudflare.msg_1020))
  /\ (~ Spec.FirewallBlock resp -> Spec.NewerCaptcha resp ->
      Cloudflare.isChallengeRequest resp
      = Abrupt (CloudflareChallengeError Cloudflare.msg_v2_captcha))
  /\ (~ Spec.FirewallBlock resp -> ~ Spec.NewerCaptcha resp -> Spec.NewerJS resp ->
      Cloudflare.isChallengeRequest resp
      = Abrupt (CloudflareChallengeError Cloudflare.msg_v2))
  /\ (~ Spec.FirewallBlock resp -> ~ Spec.NewerCaptcha resp -> ~ Spec.NewerJS resp ->
      Spec.LegacyCaptcha resp \/ Spec.LegacyJS resp ->
      Cloudflare.isChallengeRequest resp = Normal true)
  /\ (~ Spec.FirewallBlock resp -> ~ Spec.LegacyCaptcha resp -> ~ Spec.LegacyJS resp ->
      Cloudflare.isChallengeRequest resp = Normal false)
  /\ (forall (W : World) (O : Options) request method url config (s : State),
        disableCloudflareV1 O = false ->
        solveDepthCnt s < solveDepth O ->
        match Cloudflare.isChallengeRequest resp with
        | Abrupt e =>
            CloudScraper.handleCloudflareChallenges W O request resp method url config s
            = Throw e s
        | Normal true =>
            CloudScraper.handleCloudflareChallenges W O request resp method url config s
            = Cloudflare.challengeResponse W O request resp config
                (set_solveDepthCnt (solveDepthCnt s + 1) s)
        | Normal false => True
        end).
Proof.
  destruct (isChallengeRequest_cases resp)
    as (b & nc & ni & c & i & Ib & Inc & Ini & Ic & Ii & Heq).
  assert (Hf : forall (x : bool) (P : Prop), (x = true <-> P) -> ~ P -> x = false).
  { intros x P HxP HnP. destruct x; [|reflexivity]. exfalso. apply HnP, HxP.
    reflexivity. }
  split; [|split; [|split; [|split; [|split]]]].
  - intros H. apply Ib in H. rewrite Heq, H. reflexivity.
  - intros Hb H. apply Inc in H. rewrite Heq, (Hf _ _ Ib Hb), H. reflexivity.
  - intros Hb Hnc H. apply Ini in H.
    rewrite Heq, (Hf _ _ Ib Hb), (Hf _ _ Inc Hnc), H. reflexivity.
  - intros Hb Hnc Hni H.
    rewrite Heq, (Hf _ _ Ib Hb), (Hf _ _ Inc Hnc), (Hf _ _ Ini Hni).
    destruct H as [H|H]; [apply Ic in H | apply Ii in H]; rewrite H;
      [reflexivity | apply f_equal, orb_true_r].
  - intros Hb Hc Hi.
    assert (Hnc : ~ Spec.NewerCaptcha resp) by (intros [H _]; auto).
    assert (Hni : ~ Spec.NewerJS resp) by (intros [H _]; auto).
    rewrite Heq, (Hf _ _ Ib Hb), (Hf _ _ Inc Hnc), (Hf _ _ Ini Hni),
      (Hf _ _ Ic Hc), (Hf _ _ Ii Hi). reflexivity.
  - intros W O request method url config s Hv1 Hdepth.
    unfold CloudScraper.handleCloudflareChallenges.
    unfold mbind, mret, M_bind, M_ret, gets, modify, throw, lift.
    assert (Hle : (solveDepth O <=? solveDepthCnt s) = false)
      by (apply Z.leb_gt; exact Hdepth).
    rewrite Hle, Hv1.
    destruct (Cloudflare.isChallengeRequest resp) as [[|]|e]; simpl; auto.
Qed.

(** A Cloudflare 403 that carries the block code together with the captcha
    and the newer-captcha markers. *)
Lemma classification_order_witness :
  Spec.FirewallBlock Examples.blocked
  /\ Cloudflare.isChallengeRequest Examples.blocked
     = Abrupt (CloudflareCode1020 Cloudflare.msg_1020).
Proof.
  assert (H : Spec.FirewallBlock Examples.blocked).
  { split; [|split].
    - exists "cloudflare". split; reflexivity.
    - reflexivity.
    - exists Examples.blocked_page. split; [reflexivity | vm_compute; reflexivity]. }
  split; [exact H|].
  exact (proj1 (classification_order _) H).
Defined.

(** ** The interpreters *)

(** C5, as stated, fails: the JS2Py interpreter the factory gives for
    [js2py] raises nothing. *)
Lemma stub_interpreter_raises_nothing :
  ~ (exists e,
       Interpreters.settled
         (Interpreters.solveChallenge (Examples.always Examples.ok)
            (Interpreters.createInterpreter "js2py") Examples.iuam_page "example.com")
       = Abrupt e).
Proof. intros [e He]. discriminate He. Qed.

(** C5, amended.  For every page and domain, an unimplemented alternative
    evaluator selected through the factory by its name, in any letter case,
    writes one warning to the console and settles with the placeholder
    answer 0; it raises no error. *)
Theorem unimplemented_interpreters_return_placeholder
    (W : World) (name body domain : string) :
  In (Str.toLowerCase name) ["js2py"; "nodejs"; "v8"; "chakracore"] ->
  Interpreters.settled
    (Interpreters.solveChallenge W (Interpreters.createInterpreter name) body domain)
  = Normal "0"
  /\ length (Interpreters.console_warn
               (Interpreters.solveChallenge W (Interpreters.createInterpreter name)
                  body domain)) = 1%nat.
Proof.
  intros Hin. unfold Interpreters.createInterpreter.
  simpl in Hin.
  destruct Hin as [H|[H|[H|[H|[]]]]]; rewrite <- H; split; reflexivity.
Qed.

Lemma unimplemented_interpreters_return_placeholder_witness :
  In (Str.toLowerCase "ChakraCore") ["js2py"; "nodejs"; "v8"; "chakracore"]
  /\ Interpreters.settled
       (Interpreters.solveChallenge (Examples.always Examples.ok)
          (Interpreters.createInterpreter "ChakraCore") Examples.iuam_page "example.com")
     = Normal "0".
Proof.
  split.
  - vm_compute. tauto.
  - apply (unimplemented_interpreters_return_placeholder
             (Examples.always Examples.ok) "ChakraCore" Examples.iuam_page "example.com").
    vm_compute. tauto.
Defined.

(** ** The concurrency slot *)

(** A request that runs alone on the instance and is issued while every
    slot is taken never gets past the polling loop of
    [_applyRequestThrottling]: nothing gives a slot back, and it waits for
    ever, with the slot counter as it was and without a call of the
    transport. *)
Lemma request_waits_for_ever (W : World) (O : Options) (fuel : nat)
    method url config (s : State) :
  maxConcurrentRequests O <= currentConcurrentRequests s ->
  exists s', CloudScraper.request W O (S fuel) method url config s = Hang s'
             /\ currentConcurrentRequests s' = currentConcurrentRequests s
             /\ axios_calls (trace s') = axios_calls (trace s).
Proof.
  intros Hfull. simpl.
  unfold CloudScraper.request_body, CloudScraper._applyRequestThrottling.
  unfold mbind, mret, M_bind, M_ret, gets, modify, hang, sleep, wait, modify.
  destruct (_ <? _)%float.
  - simpl. apply Z.leb_le in Hfull. rewrite Hfull.
    eexists; split; [reflexivity|]. split; [reflexivity|].
    simpl. unfold axios_calls. rewrite List.filter_app. simpl.
    rewrite length_app. simpl. lia.
  - simpl. apply Z.leb_le in Hfull. rewrite Hfull.
    eexists; split; [reflexivity|]. split; reflexivity.
Qed.

(** C4, on the code.  A legacy captcha page, with the provider
    [return_response] and no second try: [request] returns the page and the
    slot it took at dispatch is still taken. *)
Theorem challenge_return_keeps_slot (fuel : nat) :
  exists r s',
    CloudScraper.request (Examples.always Examples.captcha_challenge)
      (Examples.return_response CloudScraper.default_options)
      (S fuel) (Some "GET") Examples.page_url empty_config Examples.fresh
    = Return r s'
    /\ status r = 403
    /\ currentConcurrentRequests Examples.fresh = 0
    /\ currentConcurrentRequests s' = 1.
Proof.
  eexists. eexists. split; [vm_compute; reflexivity|].
  repeat split.
Qed.

(** The slot is released on a plain return and on a transport error. *)
Lemma plain_return_releases_slot (fuel : nat) :
  Examples.summary
    (CloudScraper.request (Examples.always Examples.ok) CloudScraper.default_options
       (S fuel) (Some "GET") Examples.page_url empty_config Examples.fresh)
  = Examples.Returned 200 0 0 1 0.
Proof. vm_compute. reflexivity. Qed.

Lemma thrown_error_releases_slot (fuel : nat) :
  Examples.summary
    (CloudScraper.request Examples.unreachable CloudScraper.default_options
       (S fuel) (Some "GET") Examples.page_url empty_config Examples.fresh)
  = Examples.Threw (TransportError "ECONNRESET") 0 0 1 0.
Proof. vm_compute. reflexivity. Qed.

(** ** Loop protection *)

(** C2, on the code.  With the options of [new CloudScraper({})] and a
    transport that answers every call with a legacy JS challenge, the first
    resolution attempt issues the resubmission through [request] while the
    slot of the request being resolved is still taken: the resubmission
    waits for ever, after one call of the transport and one attempt. *)
Theorem loop_protection_never_reached (fuel : nat) :
  Examples.summary
    (CloudScraper.request (Examples.always Examples.js_challenge)
       CloudScraper.default_options
       (S (S fuel)) (Some "GET") Examples.page_url empty_config Examples.fresh)
  = Examples.Hung 1 1 1.
Proof. vm_compute. reflexivity. Qed.

(** With more slots than [solveDepth], the same transport leads to the
    loop-protection error after [solveDepth] attempts. *)
Lemma loop_protection_with_spare_slots (fuel : nat) :
  Examples.summary
    (CloudScraper.request (Examples.always Examples.js_challenge)
       (Examples.with_concurrency 4 CloudScraper.default_options)
       (4 + fuel) (Some "GET") Examples.page_url empty_config Examples.fresh)
  = Examples.Threw (CloudflareLoopProtection 3) 0 0 4 0.
Proof. vm_compute. reflexivity. Qed.

(** ** The matcher: captures of a successful match *)

Section captures.
Import Regex.

Lemma keeps_refl (c : caps) : keeps c c.
Proof. intros n H. exact H. Qed.

Lemma keeps_trans (c1 c2 c3 : caps) : keeps c1 c2 -> keeps c2 c3 -> keeps c1 c3.
Proof. intros H12 H23 n H. apply H23, H12, H. Qed.

Lemma keeps_cons (n : nat) (t : string) (c : caps) : keeps c ((n, t) :: c).
Proof.
  intros m H. simpl. destruct (Nat.eqb m n); [eexists; reflexivity | exact H].
Qed.

Lemma cap_get_head (n : nat) (t : string) (c : caps) :
  is_Some (cap_get n ((n, t) :: c)).
Proof. simpl. rewrite Nat.eqb_refl. eexists; reflexivity. Qed.

(** A repetition keeps the captures, when one iteration does. *)
Lemma star_loop_keeps (g : bool) step k :
  (forall s c k' x, step s c k' = Some x ->
                    exists s' c', k' s' c' = Some x /\ keeps c c') ->
  forall fuel s c x,
    star_loop g step k fuel s c = Some x ->
    exists s' c', k s' c' = Some x /\ keeps c c'.
Proof.
  intros Hstep. induction fuel as [|fuel IHf]; intros s c x Hrun; simpl in Hrun.
  - exists s, c. split; [exact Hrun | apply keeps_refl].
  - assert (Hmore :
      forall y,
        step s c (fun s' c' =>
          if Nat.ltb (String.length s') (String.length s)
          then star_loop g step k fuel s' c' else None) = Some y ->
        exists s' c', k s' c' = Some y /\ keeps c c').
    { intros y Hy. apply Hstep in Hy. destruct Hy as (s1 & c1 & Hy & K1).
      destruct (Nat.ltb (String.length s1) (String.length s)); [|discriminate].
      apply IHf in Hy. destruct Hy as (s2 & c2 & Hk & K2).
      exists s2, c2. split; [exact Hk | eapply keeps_trans; eassumption]. }
    destruct g.
    + match type of Hrun with
      | match ?m with _ => _ end = _ => destruct m as [y|] eqn:Em
      end.
      * injection Hrun as <-. apply (Hmore y eq_refl).
      * exists s, c. split; [exact Hrun | apply keeps_refl].
    + destruct (k s c) as [y|] eqn:Ek.
      * exists s, c. split; [congruence | apply keeps_refl].
      * apply Hmore, Hrun.
Qed.

(** When [run] succeeds, its continuation was entered with captures that
    keep the ones given and hold every group the pattern is sure to set. *)
Lemma run_captures (r : regex) :
  forall s c k x,
    run r s c k = Some x ->
    exists s' c', k s' c' = Some x /\ keeps c c'
                  /\ (forall n, In n (sets r) -> is_Some (cap_get n c')).
Proof.
  induction r as [|p|r1 IH1 r2 IH2|r1 IH1 r2 IH2|g r IH|n r IH];
    intros s c k x Hrun; simpl in Hrun.
  - exists s, c. split; [exact Hrun|]. split; [apply keeps_refl|]. intros n [].
  - destruct s as [|a s']; [discriminate|].
    destruct (p a); [|discriminate].
    exists s', c. split; [exact Hrun|]. split; [apply keeps_refl|]. intros n [].
  - apply IH1 in Hrun. destruct Hrun as (s1 & c1 & Hrun & K1 & S1).
    apply IH2 in Hrun. destruct Hrun as (s2 & c2 & Hk & K2 & S2).
    exists s2, c2. split; [exact Hk|]. split; [eapply keeps_trans; eassumption|].
    intros n Hn. simpl in Hn. apply in_app_or in Hn. destruct Hn as [Hn|Hn].
    + apply K2, S1, Hn.
    + apply S2, Hn.
  - destruct (run r1 s c k) as [y|] eqn:E1.
    + injection Hrun as <-. apply IH1 in E1.
      destruct E1 as (s1 & c1 & Hk & K1 & _).
      exists s1, c1. split; [exact Hk|]. split; [exact K1|]. intros n [].
    + apply IH2 in Hrun. destruct Hrun as (s1 & c1 & Hk & K1 & _).
      exists s1, c1. split; [exact Hk|]. split; [exact K1|]. intros n [].
  - apply (star_loop_keeps g (run r) k) in Hrun.
    + destruct Hrun as (s1 & c1 & Hk & K1). exists s1, c1.
      split; [exact Hk|]. split; [exact K1|]. intros n [].
    + intros s0 c0 k0 y Hy. apply IH in Hy.
      destruct Hy as (s1 & c1 & Hk & K1 & _). eauto.
  - apply IH in Hrun. destruct Hrun as (s1 & c1 & Hk & K1 & S1).
    exists s1, ((n, consumed s s1) :: c1). split; [exact Hk|].
    split; [eapply keeps_trans; [eassumption | apply keeps_cons]|].
    intros m [<-|Hm]; [apply cap_get_head | apply keeps_cons, S1, Hm].
Qed.

Lemma search_captures (r : regex) (s : string) :
  forall i m n, search r s i = Some m -> In n (sets r) -> is_Some (group n m).
Proof.
  induction s as [|a s IH]; intros i m n Hs Hn; simpl in Hs.
  - destruct (run r "" [] (fun s' c => Some (s', c))) as [[rest c]|] eqn:E;
      [|discriminate].
    injection Hs as <-. apply run_captures in E.
    destruct E as (s1 & c1 & Hk & _ & S1). injection Hk as -> ->.
    apply S1, Hn.
  - destruct (run r (String a s) [] (fun s' c => Some (s', c))) as [[rest c]|] eqn:E.
    + injection Hs as <-. apply run_captures in E.
      destruct E as (s1 & c1 & Hk & _ & S1). injection Hk as -> ->.
      apply S1, Hn.
    + eapply IH; eassumption.
Qed.

(** A match of a pattern defines every group the pattern is sure to set. *)
Lemma exec_captures (r : regex) (s : string) (m : Match) (n : nat) :
  exec r s = Some m -> In n (sets r) -> is_Some (group n m).
Proof. apply search_captures. Qed.

End captures.

(** ** The resolver *)

Section resolver.
Import Regex Cloudflare.

Lemma collect_input_keys (payload : gmap string string) (m : Match) :
  (forall k, is_Some (payload !! k) -> k ∈ allow_list) ->
  forall k, is_Some (collect_input payload m !! k) -> k ∈ allow_list.
Proof.
  intros Hp k. unfold collect_input.
  destruct (first_truthy (group 1 m) (group 2 m)) as [input|]; [|apply Hp].
  destruct (exec re_name input) as [nameMatch|]; [|apply Hp].
  destruct (exec re_value input) as [valueMatch|]; [|apply Hp].
  destruct (group 1 nameMatch) as [name|]; [|apply Hp].
  destruct (group 1 valueMatch) as [value|]; [|apply Hp].
  case_bool_decide as Hname; [|apply Hp].
  destruct (decide (name = k)) as [->|Hne].
  - intros _. exact Hname.
  - rewrite lookup_insert_ne by exact Hne. apply Hp.
Qed.

Lemma extract_payload_keys (form : string) (k : string) :
  is_Some (extract_payload form !! k) -> k ∈ allow_list.
Proof.
  unfold extract_payload.
  generalize (exec_all (S (String.length form)) re_input form) as ms.
  assert (H0 : forall k, is_Some ((∅ : gmap string string) !! k) -> k ∈ allow_list).
  { intros k0 [v Hv]. rewrite lookup_empty in Hv. discriminate. }
  revert H0. generalize (∅ : gmap string string) as payload.
  intros payload H0 ms. revert payload H0 k.
  induction ms as [|m ms IH]; intros payload H0 k; simpl.
  - apply H0.
  - apply IH. apply collect_input_keys, H0.
Qed.

End resolver.



(** ** Resubmission *)

Ltac unfold_m :=
  unfold lift, sleep, wait;
  unfold mbind, mret, M_bind, M_ret, gets, modify, throw, hang.

Section resubmission.
Import Cloudflare.


(** The IUAM branch up to the resubmission: the delay is settled and waited
    for, the answer built, and the resubmission issued in a state that
    differs from the first one by the delay, the clock and the trace. *)
Lemma iuamResponse_reaches_submit (W : World) (O : Options) request
    (resp : Response) (config : ReqConfig) (s : State)
    (body : string) (submitUrl : ChallengeResponse) (parsedUrl : URL) :
  data_text (data resp) = Normal body ->
  iuamChallengeResponse W body (or_default (c_url (resp_config resp)) "") (interpreter O)
  = Normal submitUrl ->
  new_URL W (or_default (c_url (resp_config resp)) "") = Some parsedUrl ->
  exists s1,
    iuamResponse W O request resp config s
    = (challengeResponse ←
         request (Some "POST") (cr_url submitUrl)
                 (challengeConfig resp config parsedUrl submitUrl);
       after_submit W request resp config submitUrl challengeResponse) s1
    /\ solveDepthCnt s1 = solveDepthCnt s
    /\ currentConcurrentRequests s1 = currentConcurrentRequests s
    /\ _403RetryCount s1 = _403RetryCount s
    /\ axios_calls (trace s1) = axios_calls (trace s).
Proof.
  intros Hbody Hsubmit Hurl.
  assert (Hcalls : forall t ms, axios_calls (t ++ [EvSleep ms]) = axios_calls t).
  { intros t ms. unfold axios_calls. rewrite List.filter_app, length_app. simpl. lia. }
  unfold iuamResponse, parse_URL. unfold_m. rewrite Hbody, Hsubmit, Hurl.
  cbn beta iota.
  destruct (no_delay (delay s)).
  - destruct (Regex.exec re_delay body) as [delayMatch|].
    + destruct (first_truthy (Regex.group 1 delayMatch) None) as [digits|];
        cbn beta iota zeta; try destruct (is_nan _);
        cbn beta iota; eexists; (split; [reflexivity|]); simpl; rewrite Hcalls; auto.
    + cbn beta iota. eexists; (split; [reflexivity|]); simpl; rewrite Hcalls; auto.
  - cbn beta iota. eexists; (split; [reflexivity|]); simpl; rewrite Hcalls; auto.
Qed.

End resubmission.

(** X31.  For a response that is not a captcha challenge and from which the
    answer is built, [challengeResponse] issues the resubmission as a POST
    to the submission URL; whatever response [cr] that returns:
    with status 400, [CloudflareSolveError] is raised; without a [location]
    header, [cr] is the result; with a [location] header, the result is
    that of a further request with the method of the original request, a
    [Referer] set to the URL of the resubmission, and as URL the location
    itself when it starts with [http] and otherwise the location resolved
    against the submission URL. *)
Theorem resubmission_outcome (W : World) (O : Options) request
    (resp : Response) (config : ReqConfig) (s : State)
    (body : string) (submitUrl : Cloudflare.ChallengeResponse) (parsedUrl : URL) :
  (exists v, Cloudflare.isCaptchaChallenge resp = Normal v /\ truthy v = false) ->
  data_text (data resp) = Normal body ->
  Cloudflare.iuamChallengeResponse W body
    (Cloudflare.or_default (c_url (resp_config resp)) "") (interpreter O)
  = Normal submitUrl ->
  new_URL W (Cloudflare.or_default (c_url (resp_config resp)) "") = Some parsedUrl ->
  exists s1,
    forall cr s2,
      request (Some "POST") (Cloudflare.cr_url submitUrl)
              (Cloudflare.challengeConfig resp config parsedUrl submitUrl) s1
      = Return cr s2 ->
      (status cr = 400 ->
       Cloudflare.challengeResponse W O request resp config s
       = Throw (CloudflareSolveError Cloudflare.msg_400) s2)
      /\ (status cr <> 400 -> headers cr !! "location" = None ->
          Cloudflare.challengeResponse W O request resp config s = Return cr s2)
      /\ (forall location,
            status cr <> 400 ->
            headers cr !! "location" = Some (HStr location) ->
            location <> "" ->
            c_headers (Cloudflare.redirectConfig cr config) !! "Referer"
            = c_url (resp_config cr)
            /\ (Str.startsWith "http" location = true ->
                Cloudflare.challengeResponse W O request resp config s
                = request (c_method (resp_config resp)) location
                    (Cloudflare.redirectConfig cr config) s2)
            /\ (forall absolute,
                  Str.startsWith "http" location = false ->
                  new_URL_base W location (Cloudflare.cr_url submitUrl) = Some absolute ->
                  Cloudflare.challengeResponse W O request resp config s
                  = request (c_method (resp_config resp)) absolute
                      (Cloudflare.redirectConfig cr config) s2)).
Proof.
  intros (v & Hcap & Hv) Hbody Hsubmit Hurl.
  destruct (iuamResponse_reaches_submit W O request resp config s body submitUrl
              parsedUrl Hbody Hsubmit Hurl) as (s1 & Hreach & _).
  exists s1. intros cr s2 Hpost.
  assert (Hcr : Cloudflare.challengeResponse W O request resp config s
                = Cloudflare.after_submit W request resp config submitUrl cr s2).
  { unfold Cloudflare.challengeResponse. rewrite Hcap.
    unfold mbind at 1, M_bind, lift, mret, M_ret. rewrite Hv.
    rewrite Hreach. unfold mbind, M_bind. rewrite Hpost. reflexivity. }
  rewrite Hcr. unfold Cloudflare.after_submit.
  split; [|split].
  - intros H400. apply Z.eqb_eq in H400. rewrite H400. reflexivity.
  - intros Hne Hloc. apply Z.eqb_neq in Hne. rewrite Hne, Hloc. reflexivity.
  - intros location Hne Hloc Hnonempty. apply Z.eqb_neq in Hne. rewrite Hne, Hloc.
    split; [|split].
    + unfold Cloudflare.redirectConfig, Cloudflare.with_headers, Cloudflare.set_header.
      simpl. destruct (c_url (resp_config cr)) as [u|].
      * apply lookup_insert_eq.
      * apply lookup_delete_eq.
    + intros Hhttp. destruct location as [|a l]; [contradiction|].
      rewrite Hhttp. reflexivity.
    + intros absolute Hhttp Habs. destruct location as [|a l]; [contradiction|].
      rewrite Hhttp, Habs. reflexivity.
Qed.

(** The example challenge page, received for a GET of
    [https://example.com/page]; the resubmission is answered with a
    redirect to [/next]. *)
Lemma resubmission_outcome_witness :
  exists s1,
    Cloudflare.challengeResponse (Examples.always Examples.js_challenge)
      CloudScraper.default_options Examples.redirecting
      (Examples.answers Examples.js_challenge
         (CloudScraper.with_request (Some "GET") Examples.page_url empty_config))
      empty_config Examples.fresh
    = Examples.redirecting (Some "GET") "https://example.com/next"
        (Cloudflare.with_headers {[ "Referer" := "https://example.com/?__cf_chl_f_tk=abc&x=1" ]}
           empty_config)
        s1.
Proof.
  destruct (resubmission_outcome (Examples.always Examples.js_challenge)
              CloudScraper.default_options Examples.redirecting
              (Examples.answers Examples.js_challenge
                 (CloudScraper.with_request (Some "GET") Examples.page_url empty_config))
              empty_config Examples.fresh Examples.iuam_page
              {| Cloudflare.cr_url := "https://example.com/?__cf_chl_f_tk=abc&x=1";
                 Cloudflare.cr_data :=
                   <["jschl_answer" := "0"]>
                     (<["pass" := "pw"]> (<["jschl_vc" := "vc"]> {[ "r" := "rv" ]})) |}
              {| protocol := "https:"; hostname := "example.com";
                 href := Examples.page_url |})
    as (s1 & Hout).
  - exists (VBool false). split; vm_compute; reflexivity.
  - reflexivity.
  - vm_compute. reflexivity.
  - reflexivity.
  - exists s1.
    destruct (Hout _ s1 eq_refl) as (_ & _ & Hloc).
    destruct (Hloc "/next") as (_ & _ & Hrel);
      [discriminate | reflexivity | discriminate |].
    rewrite (Hrel "https://example.com/next"); [|reflexivity | reflexivity].
    f_equal.
Defined.

(** C7, on the code.  A relative location is not always resolved.  What
    the code tests is whether the location starts with [http].  A
    [Location] that does and yet is no URL on its own, as the relative path
    [http-status/next.html] is one, is handed to the follow-up request as
    it stands, although resolving it against the submission URL gives an
    absolute URL, which is another string. *)
Theorem relative_location_not_resolved (W : World) (O : Options) request
    (resp : Response) (config : ReqConfig) (s : State)
    (body : string) (submitUrl : Cloudflare.ChallengeResponse) (parsedUrl : URL) :
  (exists v, Cloudflare.isCaptchaChallenge resp = Normal v /\ truthy v = false) ->
  data_text (data resp) = Normal body ->
  Cloudflare.iuamChallengeResponse W body
    (Cloudflare.or_default (c_url (resp_config resp)) "") (interpreter O)
  = Normal submitUrl ->
  new_URL W (Cloudflare.or_default (c_url (resp_config resp)) "") = Some parsedUrl ->
  exists s1,
    forall cr s2 location absolute,
      request (Some "POST") (Cloudflare.cr_url submitUrl)
              (Cloudflare.challengeConfig resp config parsedUrl submitUrl) s1
      = Return cr s2 ->
      status cr <> 400 ->
      headers cr !! "location" = Some (HStr location) ->
      Str.startsWith "http" location = true ->
      new_URL W location = None ->
      new_URL_base W location (Cloudflare.cr_url submitUrl) = Some absolute ->
      is_Some (new_URL W absolute) ->
      Cloudflare.challengeResponse W O request resp config s
      = request (c_method (resp_config resp)) location
          (Cloudflare.redirectConfig cr config) s2
      /\ location <> absolute.
Proof.
  intros (v & Hcap & Hv) Hbody Hsubmit Hurl.
  destruct (iuamResponse_reaches_submit W O request resp config s body submitUrl
              parsedUrl Hbody Hsubmit Hurl) as (s1 & Hreach & _).
  exists s1. intros cr s2 location absolute Hpost Hne Hloc Hhttp Hrel Hres Habs.
  split.
  - unfold Cloudflare.challengeResponse. rewrite Hcap.
    unfold mbind at 1, M_bind, lift, mret, M_ret. rewrite Hv.
    rewrite Hreach. unfold mbind, M_bind. rewrite Hpost.
    unfold Cloudflare.after_submit.
    apply Z.eqb_neq in Hne. rewrite Hne, Hloc.
    destruct location as [|a l]; [discriminate Hhttp|].
    unfold mbind, M_bind, mret, M_ret. rewrite Hhttp. reflexivity.
  - intros ->. rewrite Hrel in Habs. destruct Habs as [u Hu]. discriminate Hu.
Qed.

(** The example challenge page, received for a GET of
    [https://example.com/page]; the resubmission is answered with a
    redirect to the relative path [http-status/next.html].  The follow-up
    request goes to that path, not to the URL it resolves to. *)
Lemma relative_location_not_resolved_witness :
  new_URL_base (Examples.always Examples.js_challenge) "http-status/next.html"
    "https://example.com/?__cf_chl_f_tk=abc&x=1"
  = Some "https://example.com/http-status/next.html"
  /\ exists s1,
       Cloudflare.challengeResponse (Examples.always Examples.js_challenge)
         CloudScraper.default_options
         (Examples.redirecting_to "http-status/next.html")
         (Examples.answers Examples.js_challenge
            (CloudScraper.with_request (Some "GET") Examples.page_url empty_config))
         empty_config Examples.fresh
       = Examples.redirecting_to "http-status/next.html" (Some "GET")
           "http-status/next.html"
           (Cloudflare.with_headers
              {[ "Referer" := "https://example.com/?__cf_chl_f_tk=abc&x=1" ]}
              empty_config)
           s1.
Proof.
  split; [reflexivity|].
  destruct (relative_location_not_resolved (Examples.always Examples.js_challenge)
              CloudScraper.default_options
              (Examples.redirecting_to "http-status/next.html")
              (Examples.answers Examples.js_challenge
                 (CloudScraper.with_request (Some "GET") Examples.page_url empty_config))
              empty_config Examples.fresh Examples.iuam_page
              {| Cloudflare.cr_url := "https://example.com/?__cf_chl_f_tk=abc&x=1";
                 Cloudflare.cr_data :=
                   <["jschl_answer" := "0"]>
                     (<["pass" := "pw"]> (<["jschl_vc" := "vc"]> {[ "r" := "rv" ]})) |}
              {| protocol := "https:"; hostname := "example.com";
                 href := Examples.page_url |})
    as (s1 & Hout).
  - exists (VBool false). split; vm_compute; reflexivity.
  - reflexivity.
  - vm_compute. reflexivity.
  - reflexivity.
  - exists s1.
    destruct (Hout _ s1 "http-status/next.html"
                "https://example.com/http-status/next.html" eq_refl) as [Hrun _];
      [discriminate | reflexivity | reflexivity | reflexivity | reflexivity
      | eexists; reflexivity |].
    rewrite Hrun. f_equal.
Defined.



(** ** Session refresh on 403 *)

Lemma status_decodeBrotli (W : World) (O : Options) (r : Response) :
  status (CloudScraper.decodeBrotli W O r) = status r.
Proof.
  unfold CloudScraper.decodeBrotli.
  repeat match goal with |- context [match ?x with _ => _ end] => destruct x end;
    reflexivity.
Qed.

Lemma refresh_attempts_app (t : list Event) (ev : Event) :
  refresh_attempts (t ++ [ev]) = (refresh_attempts t + (if is_refresh ev then 1 else 0))%nat.
Proof.
  unfold refresh_attempts. rewrite List.filter_app, length_app. simpl.
  destruct (is_refresh ev); reflexivity.
Qed.

Section forbidden_everywhere.
Context (W : World) (O : Options).
Hypothesis Hall : forall n cfg, exists r, axios W n cfg = TResponse r /\ status r = 403.

Lemma refreshSession_fails (url : string) (s : State) :
  exists s',
    CloudScraper._refreshSession W url s = Return false s'
    /\ refresh_attempts (trace s') = S (refresh_attempts (trace s))
    /\ _403RetryCount s' = _403RetryCount s
    /\ currentConcurrentRequests s' = currentConcurrentRequests s
    /\ solveDepthCnt s' = solveDepthCnt s.
Proof.
  unfold CloudScraper._refreshSession. unfold_m. cbn beta iota.
  destruct (new_URL W url) as [parsedUrl|].
  - unfold catch, call_axios. unfold_m.
    match goal with
    | |- context [axios W ?n ?cfg] => destruct (Hall n cfg) as (r & Hr & Hst); rewrite Hr
    end.
    cbn beta iota. rewrite Hst.
    eexists; split; [reflexivity|]. simpl.
    rewrite !refresh_attempts_app. simpl. repeat split; lia.
  - eexists; split; [reflexivity|]. simpl.
    rewrite !refresh_attempts_app. simpl. repeat split; lia.
Qed.

Lemma handle403_failed_refresh request (response : Response) method url config
    (s : State) :
  _403RetryCount s < max403Retries O ->
  0 < currentConcurrentRequests s ->
  exists s',
    CloudScraper._handle403Error W O request response method url config s
    = Return response s'
    /\ refresh_attempts (trace s') = S (refresh_attempts (trace s))
    /\ _403RetryCount s' = _403RetryCount s + 1
    /\ currentConcurrentRequests s' = currentConcurrentRequests s - 1.
Proof.
  intros Hcount Hslot.
  unfold CloudScraper._handle403Error. unfold_m. cbn beta iota.
  replace (_403RetryCount s <? max403Retries O) with true
    by (symmetry; apply Z.ltb_lt; lia).
  cbn beta iota.
  match goal with
  | |- context [CloudScraper._refreshSession W url ?s1] =>
      destruct (refreshSession_fails url s1) as (s2 & Hr & Ha & Hc & Hs & _); rewrite Hr
  end.
  cbn beta iota. eexists; split; [reflexivity|].
  unfold CloudScraper.release_slot. simpl in Hs. rewrite Hs.
  replace (0 <? currentConcurrentRequests s) with true
    by (symmetry; apply Z.ltb_lt; lia).
  simpl in *. repeat split; lia.
Qed.

End forbidden_everywhere.

(** A request that finds a free slot gets through the throttling, with
    nothing changed but the clock, the time of the last request and the
    trace, which a timer wait may have extended. *)
Lemma throttling_lets_through (O : Options) (s : State) :
  currentConcurrentRequests s < maxConcurrentRequests O ->
  exists s1,
    CloudScraper._applyRequestThrottling O s = Return tt s1
    /\ refresh_attempts (trace s1) = refresh_attempts (trace s)
    /\ _403RetryCount s1 = _403RetryCount s
    /\ solveDepthCnt s1 = solveDepthCnt s
    /\ currentConcurrentRequests s1 = currentConcurrentRequests s.
Proof.
  intros Hslot.
  assert (Hfree : (maxConcurrentRequests O <=? currentConcurrentRequests s) = false)
    by (apply Z.leb_gt; lia).
  unfold CloudScraper._applyRequestThrottling, sleep, wait.
  unfold mbind, mret, M_bind, M_ret, gets, modify.
  destruct (_ <? _)%float; cbn beta iota; cbn [currentConcurrentRequests advance];
    rewrite Hfree; eexists; (split; [reflexivity|]); simpl;
    rewrite ?refresh_attempts_app; simpl; repeat split; lia.
Qed.

Lemma failed_refresh_returns_403 (W : World) (O : Options) (fuel : nat)
    method url config (s : State) :
  requestPreHook O = None -> requestPostHook O = None ->
  autoRefreshOn403 O = true ->
  max403Retries O = 2 -> _403RetryCount s = 0 ->
  (forall n cfg, exists r, axios W n cfg = TResponse r /\ status r = 403) ->
  (disableCloudflareV1 O = true
   \/ forall n cfg r,
        axios W n cfg = TResponse r ->
        Cloudflare.isChallengeRequest (CloudScraper.decodeBrotli W O r) = Normal false) ->
  solveDepthCnt s < solveDepth O ->
  0 <= currentConcurrentRequests s < maxConcurrentRequests O ->
  exists s1 stale n r0 s',
    CloudScraper._applyRequestThrottling O s = Return tt s1
    /\ CloudScraper._shouldRefreshSession O s1 = Return stale s1
    /\ axios W n (CloudScraper.with_request method url (decorate W method url config))
       = TResponse r0
    /\ CloudScraper.request W O (S fuel) method url config s
       = Return (CloudScraper.decodeBrotli W O r0) s'
    /\ refresh_attempts (trace s')
       = (refresh_attempts (trace s) + (if stale : bool then 2 else 1))%nat
    /\ _403RetryCount s' = 1
    /\ currentConcurrentRequests s' = currentConcurrentRequests s.
Proof.
  intros Hpre Hpost Hauto Hmax Hcount Hall Hclass Hdepth Hslots.
  destruct (throttling_lets_through O s) as (s1 & Hthr & Ha1 & Hc1 & Hd1 & Hs1); [lia|].
  (* the session check, and the refresh it may ask for *)
  destruct (CloudScraper._shouldRefreshSession O s1) as [stale s1'| | |] eqn:Hstale;
    try (unfold CloudScraper._shouldRefreshSession, gets in Hstale; discriminate).
  assert (s1' = s1)
    by (unfold CloudScraper._shouldRefreshSession, gets in Hstale; congruence).
  subst s1'.
  assert (Hcheck :
    exists s2,
      (if stale then _ ← CloudScraper._refreshSession W url; mret tt else mret tt) s1
      = Return tt s2
      /\ refresh_attempts (trace s2)
         = (refresh_attempts (trace s) + (if stale then 1 else 0))%nat
      /\ _403RetryCount s2 = 0
      /\ solveDepthCnt s2 = solveDepthCnt s
      /\ currentConcurrentRequests s2 = currentConcurrentRequests s).
  { destruct stale.
    - destruct (refreshSession_fails W Hall url s1) as (s2 & Hr & Ha & Hc & Hs & Hd).
      exists s2. unfold mbind, M_bind. rewrite Hr. split; [reflexivity|].
      repeat split; lia.
    - exists s1. split; [reflexivity|]. repeat split; lia. }
  destruct Hcheck as (s2 & Hcheck & Ha2 & Hc2 & Hd2 & Hs2).
  (* the call of the transport *)
  set (s3 := set_currentConcurrentRequests
               (currentConcurrentRequests (set_requestCount (requestCount s2 + 1) s2) + 1)
               (set_requestCount (requestCount s2 + 1) s2)).
  set (cfg := CloudScraper.with_request method url (decorate W method url config)).
  destruct (Hall (axios_calls (trace s3)) cfg) as (r0 & Hr0 & H403).
  exists s1, stale, (axios_calls (trace s3)), r0.
  assert (Hst : status (CloudScraper.decodeBrotli W O r0) = 403)
    by (rewrite status_decodeBrotli; exact H403).
  assert (Hplain : disableCloudflareV1 O = true
                   \/ Cloudflare.isChallengeRequest (CloudScraper.decodeBrotli W O r0)
                      = Normal false).
  { destruct Hclass as [Hoff|Hno]; [left; exact Hoff | right; eapply Hno; exact Hr0]. }
  (* the 403 handler *)
  assert (Hhandle : forall s4 : State,
            _403RetryCount s4 = 0 -> 0 < currentConcurrentRequests s4 ->
            exists s',
              CloudScraper._handle403Error W O (CloudScraper.request W O fuel)
                (CloudScraper.decodeBrotli W O r0) method url
                (decorate W method url config) s4
              = Return (CloudScraper.decodeBrotli W O r0) s'
              /\ refresh_attempts (trace s') = S (refresh_attempts (trace s4))
              /\ _403RetryCount s' = 1
              /\ currentConcurrentRequests s' = currentConcurrentRequests s4 - 1).
  { intros s4 Hc4 Hs4.
    destruct (handle403_failed_refresh W O Hall (CloudScraper.request W O fuel)
                (CloudScraper.decodeBrotli W O r0) method url
                (decorate W method url config) s4) as (s' & He & Ha & Hc & Hs);
      [lia | lia |].
    exists s'. repeat split; try assumption; lia. }
  change (CloudScraper.request W O (S fuel) method url config s)
    with (CloudScraper.request_body W O (CloudScraper.request W O fuel) method url config s).
  unfold CloudScraper.request_body.
  unfold mbind at 1, M_bind at 1. rewrite Hthr.
  unfold mbind at 1, M_bind at 1. rewrite Hstale.
  unfold mbind at 1, M_bind at 1. rewrite Hcheck.
  unfold mbind, M_bind, mret, M_ret, modify, gets. cbn beta iota.
  rewrite Hpre, Hpost.
  unfold catch, CloudScraper.performRequest, call_axios.
  unfold mbind, M_bind, mret, M_ret. fold s3. fold cfg. rewrite Hr0. cbn beta iota.
  unfold CloudScraper.handleCloudflareChallenges.
  unfold lift, mbind, M_bind, mret, M_ret, modify, gets, throw. cbn beta iota.
  replace (solveDepth O <=? solveDepthCnt (advance (latency W (axios_calls (trace s3)))
                                             (EvAxios cfg) s3)) with false
    by (symmetry; apply Z.leb_gt; simpl; lia).
  cbn beta iota.
  destruct (disableCloudflareV1 O) eqn:Hd;
    [| destruct Hplain as [Hx|Hx]; [discriminate | rewrite Hx]];
    cbn beta iota; rewrite Hst, Hauto; simpl.
  all: destruct (CloudScraper.no_location (CloudScraper.decodeBrotli W O r0));
    simpl;
    match goal with
    | |- context [CloudScraper._handle403Error _ _ _ _ _ _ _ ?s4] =>
        destruct (Hhandle s4) as (s' & He & Ha & Hc & Hs);
        [simpl; lia | simpl; lia |];
        exists s'; rewrite He; simpl in *;
        rewrite ?refresh_attempts_app in *; simpl in *;
        repeat split; try reflexivity; try lia
    end.
  all: destruct stale; lia.
Qed.

Ltac destruct_scrutinee :=
  match goal with
  | |- context [match ?x with _ => _ end] =>
      lazymatch x with
      | context [match _ with _ => _ end] => fail
      | _ => destruct x eqn:?
      end
  end.

Section no_200.
Context (W : World) (O : Options).
Hypothesis Hpost : requestPostHook O = None.
Hypothesis Hno200 : forall n cfg r, axios W n cfg = TResponse r -> status r <> 200.

Lemma refresh_keeps_count (url : string) (s : State) :
  exists b s', CloudScraper._refreshSession W url s = Return b s'
               /\ _403RetryCount s' = _403RetryCount s.
Proof.
  unfold CloudScraper._refreshSession, catch, call_axios. unfold_m. cbn beta iota.
  destruct (new_URL W url) as [parsedUrl|].
  - destruct_scrutinee; cbn beta iota; eexists; eexists; (split; [reflexivity|]);
      reflexivity.
  - eexists; eexists; (split; [reflexivity|]); reflexivity.
Qed.

Section callback.
Context (request : option string -> string -> ReqConfig -> M Response).
Hypothesis Hreq : forall m u c s, retry_count_kept s (request m u c s).

Ltac call_request :=
  match goal with
  | |- context [request ?m ?u ?c ?s1] =>
      let H := fresh "Hcall" in
      pose proof (Hreq m u c s1) as H;
      destruct (request m u c s1) eqn:?; simpl in H
  end.

Lemma challengeResponse_keeps_count (resp : Response) (config : ReqConfig) (s : State) :
  status resp <> 200 ->
  retry_count_kept s (Cloudflare.challengeResponse W O request resp config s).
Proof.
  intros Hresp.
  unfold Cloudflare.challengeResponse, Cloudflare.captchaResponse,
    Cloudflare.iuamResponse, Cloudflare.after_submit.
  unfold_m. cbn beta iota.
  repeat first [ call_request | destruct_scrutinee | progress cbn beta iota ];
    simpl in *; try tauto; try lia; try (split; [tauto | lia]).
Qed.

Lemma handle403_keeps_count (response : Response) method url config (s : State) :
  status response <> 200 ->
  retry_count_kept s
    (CloudScraper._handle403Error W O request response method url config s).
Proof.
  intros Hresp.
  unfold CloudScraper._handle403Error, finally. unfold_m. cbn beta iota.
  destruct (_403RetryCount s <? max403Retries O) eqn:Hlt; cbn beta iota.
  - match goal with
    | |- context [CloudScraper._refreshSession W url ?s1] =>
        destruct (refresh_keeps_count url s1) as (b & s2 & Hr & Hc); rewrite Hr
    end.
    simpl in Hc. cbn beta iota. destruct b; cbn beta iota.
    + call_request; cbn beta iota.
      * destruct (status a =? 200) eqn:E200.
        -- apply Z.eqb_eq in E200. tauto.
        -- cbn beta iota. simpl in *. split; [tauto | lia].
      * simpl in *. lia.
      * simpl in *. lia.
      * exact I.
    + unfold CloudScraper.release_slot. destruct_scrutinee; simpl in *;
        (split; [assumption | lia]).
  - unfold CloudScraper.release_slot. destruct_scrutinee; simpl in *;
      (split; [assumption | lia]).
Qed.

Lemma handleCloudflareChallenges_keeps_count (response : Response) method url config
    (s : State) :
  status response <> 200 ->
  retry_count_kept s
    (CloudScraper.handleCloudflareChallenges W O request response method url config s).
Proof.
  intros Hresp.
  unfold CloudScraper.handleCloudflareChallenges. unfold_m. cbn beta iota.
  destruct (solveDepth O <=? solveDepthCnt s); cbn beta iota; [simpl; lia|].
  assert (H200 : (status response =? 200) = false) by (apply Z.eqb_neq; exact Hresp).
  rewrite H200. cbn [andb].
  repeat first
    [ match goal with
      | |- context [CloudScraper._handle403Error W O request ?r ?m ?u ?c ?s1] =>
          let H := fresh "Hcall" in
          pose proof (handle403_keeps_count r m u c s1 Hresp) as H;
          destruct (CloudScraper._handle403Error W O request r m u c s1); simpl in H
      | |- context [Cloudflare.challengeResponse W O request ?r ?c ?s1] =>
          let H := fresh "Hcall" in
          pose proof (challengeResponse_keeps_count r c s1 Hresp) as H;
          destruct (Cloudflare.challengeResponse W O request r c s1); simpl in H
      end
    | destruct_scrutinee
    | progress cbn beta iota ];
    unfold CloudScraper.release_slot; repeat destruct_scrutinee;
    simpl in *; try tauto; try lia; try (split; [tauto | lia]).
Qed.

Lemma request_body_keeps_count method url config (s : State) :
  retry_count_kept s (CloudScraper.request_body W O request method url config s).
Proof.
  unfold CloudScraper.request_body, CloudScraper._applyRequestThrottling,
    CloudScraper._shouldRefreshSession, catch, CloudScraper.performRequest, call_axios.
  unfold_m. cbn beta iota. rewrite Hpost.
  repeat first
    [ match goal with
      | |- context [CloudScraper._refreshSession W ?u ?s1] =>
          let b := fresh "b" in let s2 := fresh "s" in
          let Hr := fresh "Hr" in let Hc := fresh "Hc" in
          destruct (refresh_keeps_count u s1) as (b & s2 & Hr & Hc); rewrite Hr;
          simpl in Hc
      | |- context [CloudScraper.handleCloudflareChallenges W O request
                      (CloudScraper.decodeBrotli W O ?r) ?m ?u ?c ?s1] =>
          let H := fresh "Hcall" in
          assert (H : status (CloudScraper.decodeBrotli W O r) <> 200)
            by (rewrite status_decodeBrotli; eapply Hno200; eassumption);
          apply (handleCloudflareChallenges_keeps_count _ m u c s1) in H;
          destruct (CloudScraper.handleCloudflareChallenges W O request
                      (CloudScraper.decodeBrotli W O r) m u c s1); simpl in H
      end
    | destruct_scrutinee
    | progress cbn beta iota ];
    unfold CloudScraper.release_slot; repeat destruct_scrutinee;
    simpl in *; try tauto; try lia; try (split; [tauto | lia]).
Qed.

End callback.

Lemma request_keeps_count (fuel : nat) :
  forall method url config s,
    retry_count_kept s (CloudScraper.request W O fuel method url config s).
Proof.
  induction fuel as [|fuel IH]; intros method url config s; simpl.
  - exact I.
  - apply request_body_keeps_count. exact IH.
Qed.

End no_200.




(** ** The cookie header *)

Section cookie_header.
Import Str.

Lemma rev_app_append (cur acc s : string) :
  String.rev_app cur acc +:+ s = String.rev_app cur (acc +:+ s).
Proof.
  revert acc. induction cur as [|a cur IH]; intros acc; simpl; [reflexivity|].
  rewrite IH. reflexivity.
Qed.

Lemma rev_cons_append (a : ascii) (cur s : string) :
  String.rev (String a cur) +:+ s = String.rev cur +:+ String a s.
Proof.
  unfold String.rev. simpl. rewrite !rev_app_append. reflexivity.
Qed.

Lemma rev_append_nil (cur : string) : String.rev cur +:+ "" = String.rev cur.
Proof. unfold String.rev. rewrite rev_app_append. reflexivity. Qed.

Lemma startsWith_cons (a b : ascii) (pre s : string) :
  startsWith (String a pre) (String b s)
  = if Ascii.eqb a b then startsWith pre s else false.
Proof. reflexivity. Qed.

Lemma startsWith_nil (s : string) : startsWith "" s = true.
Proof. destruct s; reflexivity. Qed.

(** Splitting on a one-character separator. *)
Lemma split_char_last (c : ascii) (s cur : string) :
  has_char c s = false ->
  split_from (String c "") 0 cur s = [String.rev cur +:+ s].
Proof.
  revert cur. induction s as [|a s IH]; intros cur Hs; simpl.
  - rewrite rev_append_nil. reflexivity.
  - simpl in Hs. rewrite startsWith_cons. destruct (Ascii.eqb c a); [discriminate|].
    rewrite IH by exact Hs. rewrite rev_cons_append. reflexivity.
Qed.

Lemma split_char_piece (c : ascii) (k rest cur : string) :
  has_char c k = false ->
  split_from (String c "") 0 cur (k +:+ String c rest)
  = (String.rev cur +:+ k) :: split_from (String c "") 0 "" rest.
Proof.
  revert cur. induction k as [|a k IH]; intros cur Hk; simpl.
  - rewrite startsWith_cons, Ascii.eqb_refl, startsWith_nil, rev_append_nil.
    reflexivity.
  - simpl in Hk. rewrite startsWith_cons. destruct (Ascii.eqb c a); [discriminate|].
    rewrite IH by exact Hk. rewrite rev_cons_append. reflexivity.
Qed.

Lemma split_key_value (k v : string) :
  has_char "=" k = false -> has_char "=" v = false ->
  split "=" (k +:+ "=" +:+ v) = [k; v].
Proof.
  intros Hk Hv. unfold split.
  change (k +:+ "=" +:+ v) with (k +:+ String "=" v).
  rewrite (split_char_piece "=" k v "" Hk).
  rewrite (split_char_last "=" v "" Hv). reflexivity.
Qed.

(** Splitting on the separator of the cookie header. *)
Lemma split_sep_last (p cur : string) :
  includes "; " p = false ->
  split_from "; " 0 cur p = [String.rev cur +:+ p].
Proof.
  revert cur. induction p as [|a p IH]; intros cur Hp.
  - simpl. rewrite rev_append_nil. reflexivity.
  - simpl in Hp. simpl.
    destruct (startsWith "; " (String a p)) eqn:E; [discriminate|].
    rewrite IH by exact Hp. rewrite rev_cons_append. reflexivity.
Qed.

Lemma startsWith_sep_straddle (a : ascii) (p rest : string) :
  startsWith "; " (String a p) = false ->
  startsWith "; " (String a (p +:+ "; " +:+ rest)) = false.
Proof.
  rewrite !startsWith_cons. destruct (Ascii.eqb ";" a); [|reflexivity].
  destruct p as [|b p]; [reflexivity|].
  change (String b p +:+ "; " +:+ rest) with (String b (p +:+ "; " +:+ rest)).
  rewrite !startsWith_cons.
  destruct (Ascii.eqb " " b); [rewrite startsWith_nil; discriminate | reflexivity].
Qed.

Lemma split_sep_piece (p rest cur : string) :
  includes "; " p = false ->
  split_from "; " 0 cur (p +:+ "; " +:+ rest)
  = (String.rev cur +:+ p) :: split_from "; " 0 "" rest.
Proof.
  revert cur. induction p as [|a p IH]; intros cur Hp.
  - simpl. rewrite rev_append_nil. reflexivity.
  - simpl in Hp.
    destruct (startsWith "; " (String a p)) eqn:E; [discriminate|].
    change (String a p +:+ "; " +:+ rest) with (String a (p +:+ "; " +:+ rest)).
    cbn [split_from]. rewrite (startsWith_sep_straddle a p rest E).
    rewrite IH by exact Hp. rewrite rev_cons_append. reflexivity.
Qed.

Lemma split_join (pieces : list string) :
  pieces <> [] ->
  Forall (fun p => includes "; " p = false) pieces ->
  split "; " (join "; " pieces) = pieces.
Proof.
  intros Hne Hall. unfold split.
  induction pieces as [|p rest IH]; [contradiction|].
  inversion Hall as [|? ? Hp Hrest]; subst.
  destruct rest as [|p' rest'].
  - simpl. rewrite split_sep_last by exact Hp. reflexivity.
  - change (join "; " (p :: p' :: rest')) with (p +:+ "; " +:+ join "; " (p' :: rest')).
    rewrite split_sep_piece by exact Hp. simpl String.rev.
    f_equal. apply IH; [discriminate | exact Hrest].
Qed.

(** A piece [key=value] holds the separator only if the value does, when
    the key holds no semicolon. *)
Lemma includes_sep_pair (k v : string) :
  has_char ";" k = false ->
  includes "; " (k +:+ "=" +:+ v) = includes "; " v.
Proof.
  induction k as [|a k IH]; intros Hk.
  - change ("" +:+ "=" +:+ v) with (String "=" v).
    cbn [includes]. rewrite startsWith_cons. reflexivity.
  - cbn [has_char] in Hk. destruct (Ascii.eqb ";" a) eqn:E; [discriminate|].
    change (String a k +:+ "=" +:+ v) with (String a (k +:+ "=" +:+ v)).
    cbn [includes]. rewrite startsWith_cons, E. apply IH, Hk.
Qed.

End cookie_header.

Section tokens.
Import Str.

(** The header [getCookieString] builds from a map reads back as that
    map, when the map is not empty, its names hold neither an equals sign
    nor a semicolon, and its values hold neither an equals sign nor the
    separator. *)
Lemma read_cookie_header_round_trip (tokens : list (string * string)) :
  tokens <> [] ->
  Forall (fun kv => has_char "=" (fst kv) = false /\ has_char ";" (fst kv) = false) tokens ->
  Forall (fun kv => has_char "=" (snd kv) = false /\ includes "; " (snd kv) = false) tokens ->
  read_cookie_header (CloudScraper.cookie_header tokens)
  = map (fun kv => (fst kv, Some (snd kv))) tokens.
Proof.
  intros Hne Hkeys Hvalues.
  unfold read_cookie_header, CloudScraper.cookie_header.
  rewrite split_join.
  - rewrite map_map. clear Hne.
    induction tokens as [|[k v] tokens IH]; [reflexivity|].
    inversion Hkeys as [|? ? [Hk _] Hkeys']; subst.
    inversion Hvalues as [|? ? [Hv _] Hvalues']; subst.
    simpl in *. rewrite split_key_value by assumption. simpl.
    f_equal. apply IH; assumption.
  - destruct tokens; [contradiction | discriminate].
  - clear Hne. induction tokens as [|[k v] tokens IH]; [constructor|].
    inversion Hkeys as [|? ? [_ Hk] Hkeys']; subst.
    inversion Hvalues as [|? ? [_ Hv] Hvalues']; subst.
    simpl in *. constructor; [|apply IH; assumption].
    rewrite includes_sep_pair by exact Hk. exact Hv.
Qed.

Context (W : World) (O : Options).

(** [getDomainsSync] gives no domain, so neither loop of [getTokens]
    finds one. *)
Lemma find_cookieDomain_none (domain : string) :
  CloudScraper.find_cookieDomain domain = None.
Proof. reflexivity. Qed.

(** [getTokens] does not get past the search for the cookie domain. *)
Lemma getTokens_never_returns (fuel : nat) (url : string) (config : ReqConfig)
    (s : State) :
  forall result s', CloudScraper.getTokens W O fuel url config s <> Return result s'.
Proof.
  intros result s'.
  unfold CloudScraper.getTokens, catch, CloudScraper.get, Cloudflare.parse_URL.
  unfold_m. cbn beta iota.
  repeat (destruct_scrutinee; cbn beta iota); discriminate.
Qed.

(** What [getTokens] throws after a 200 whose URL parses. *)
Lemma getTokens_no_cookies (fuel : nat) (url : string) (config : ReqConfig)
    (s s1 : State) (response : Response) (parsedUrl : URL) :
  CloudScraper.get W O fuel url config s = Return response s1 ->
  status response = 200 ->
  new_URL W (Cloudflare.or_default (c_url (resp_config response)) url) = Some parsedUrl ->
  CloudScraper.getTokens W O fuel url config s
  = Throw (GenericError ("Failed to get tokens: " +:+ CloudScraper.msg_no_cookies)) s1.
Proof.
  intros Hget H200 Hurl.
  unfold CloudScraper.getTokens, catch, Cloudflare.parse_URL. unfold_m.
  rewrite Hget. cbn beta iota. rewrite H200, Hurl. reflexivity.
Qed.

End tokens.

(** X5.  [getTokens] never returns: the [getDomainsSync] that the file
    sets on every cookie jar resolves to an empty array, so no cookie
    domain is found whatever the transport answered, and what is thrown is
    caught and thrown again. *)
Lemma getTokens_without_domains (W : World) (O : Options) (fuel : nat)
    (url : string) (config : ReqConfig) (s : State) :
  forall result s', CloudScraper.getTokens W O fuel url config s <> Return result s'.
Proof. apply getTokens_never_returns. Qed.

(** C9, on the code.  There is no cookie map and no cookie string to
    compare: [getCookieString] never returns, since [getTokens], which it
    awaits, never does.  After a request that returns a 200 whose URL
    parses, both reject with the message that no Cloudflare cookies were
    found, behind the prefix of [getTokens].  The serialisation itself is
    sound where it is unambiguous: the header built from a non-empty map
    whose names hold neither an equals sign nor a semicolon, and whose
    values hold neither an equals sign nor the separator, reads back, split
    on the separator and every piece split on the equals sign, as exactly
    that map. *)
Theorem cookie_string_never_returned (W : World) (O : Options) (fuel : nat)
    (url : string) (config : ReqConfig) (s : State) :
  (forall result s',
     CloudScraper.getCookieString W O fuel url config s <> Return result s')
  /\ (forall response s1 parsedUrl,
        CloudScraper.get W O fuel url config s = Return response s1 ->
        status response = 200 ->
        new_URL W (Cloudflare.or_default (c_url (resp_config response)) url)
        = Some parsedUrl ->
        let error :=
          GenericError ("Failed to get tokens: " +:+ CloudScraper.msg_no_cookies) in
        CloudScraper.getTokens W O fuel url config s = Throw error s1
        /\ CloudScraper.getCookieString W O fuel url config s = Throw error s1)
  /\ (forall tokens : list (string * string),
        tokens <> [] ->
        Forall (fun kv => Str.has_char "=" (fst kv) = false
                          /\ Str.has_char ";" (fst kv) = false) tokens ->
        Forall (fun kv => Str.has_char "=" (snd kv) = false
                          /\ Str.includes "; " (snd kv) = false) tokens ->
        read_cookie_header (CloudScraper.cookie_header tokens)
        = map (fun kv => (fst kv, Some (snd kv))) tokens).
Proof.
  split; [|split].
  - intros result s'. unfold CloudScraper.getCookieString. unfold mbind, M_bind.
    destruct (CloudScraper.getTokens W O fuel url config s) as [[tokens ua] s2| | |] eqn:Hget;
      try discriminate.
    exfalso. exact (getTokens_never_returns W O fuel url config s _ _ Hget).
  - intros response s1 parsedUrl Hget H200 Hurl error.
    pose proof (getTokens_no_cookies W O fuel url config s s1 response parsedUrl
                  Hget H200 Hurl) as Htokens.
    split; [exact Htokens|].
    unfold CloudScraper.getCookieString. unfold mbind, M_bind. rewrite Htokens.
    reflexivity.
  - apply read_cookie_header_round_trip.
Qed.

(** [getCookieString] on a fresh instance, behind a transport that answers
    200 to every call. *)
Lemma cookie_string_never_returned_witness :
  exists s1,
    CloudScraper.getCookieString (Examples.always Examples.ok)
      CloudScraper.default_options 3 Examples.page_url empty_config Examples.fresh
    = Throw (GenericError ("Failed to get tokens: " +:+ CloudScraper.msg_no_cookies)) s1.
Proof.
  destruct (CloudScraper.get (Examples.always Examples.ok) CloudScraper.default_options
              3 Examples.page_url empty_config Examples.fresh)
    as [response s1| | |] eqn:Hget; try (vm_compute in Hget; discriminate).
  exists s1.
  destruct (cookie_string_never_returned (Examples.always Examples.ok)
              CloudScraper.default_options 3 Examples.page_url empty_config
              Examples.fresh) as (_ & Hthrown & _).
  apply (Hthrown response s1
           {| protocol := "https:"; hostname := "example.com";
              href := Examples.page_url |} Hget).
  - vm_compute in Hget. injection Hget as <- _. reflexivity.
  - vm_compute in Hget. injection Hget as <- _. reflexivity.
Defined.


(** ** Loop protection, with slots to spare *)

Section loop_protection.
Context (W : World) (O : Options).

(** A session refresh always returns, and leaves the counters alone. *)
Lemma refreshSession_returns (url : string) (s : State) :
  exists b s',
    CloudScraper._refreshSession W url s = Return b s'
    /\ solveDepthCnt s' = solveDepthCnt s
    /\ currentConcurrentRequests s' = currentConcurrentRequests s.
Proof.
  unfold CloudScraper._refreshSession, catch, call_axios. unfold_m. cbn beta iota.
  destruct (new_URL W url) as [parsedUrl|].
  - destruct_scrutinee; cbn beta iota; eexists; eexists; (split; [reflexivity|]);
      split; reflexivity.
  - eexists; eexists; (split; [reflexivity|]); split; reflexivity.
Qed.

Hypothesis Hpre : requestPreHook O = None.
Hypothesis Hpost : requestPostHook O = None.

(** The URLs requested, and what the transport answers for them. *)
Context (Requested : string -> Prop) (Answer : Response -> Prop).
Hypothesis Hanswer :
  forall n method url config,
    Requested url ->
    exists r, axios W n (CloudScraper.with_request method url config) = TResponse r
              /\ Answer (CloudScraper.decodeBrotli W O r).

(** With a free slot, [request] gets as far as classification: the
    response of the transport is handed to [handleCloudflareChallenges]
    with one more slot taken, and an error is rethrown with the slot
    released. *)
Lemma request_body_dispatches request method url config (s : State) :
  Requested url ->
  currentConcurrentRequests s < maxConcurrentRequests O ->
  exists resp s1,
    Answer resp
    /\ solveDepthCnt s1 = solveDepthCnt s
    /\ currentConcurrentRequests s1 = currentConcurrentRequests s + 1
    /\ CloudScraper.request_body W O request method url config s
       = match
           CloudScraper.handleCloudflareChallenges W O request resp method url
             (decorate W method url config) s1
         with
         | Throw e s' => Throw e (CloudScraper.release_slot s')
         | other => other
         end.
Proof.
  intros Hurl Hslot.
  unfold CloudScraper.request_body, CloudScraper._applyRequestThrottling,
    CloudScraper._shouldRefreshSession, catch, CloudScraper.performRequest, call_axios.
  unfold_m. cbn beta iota. rewrite Hpre, Hpost.
  assert (Hfree : forall s0, currentConcurrentRequests s0 = currentConcurrentRequests s ->
            (maxConcurrentRequests O <=? currentConcurrentRequests s0) = false).
  { intros s0 H0. apply Z.leb_gt. lia. }
  destruct (_ <? _)%float; cbn beta iota;
    (rewrite Hfree by reflexivity); cbn beta iota;
    repeat first
      [ match goal with
        | |- context [CloudScraper._refreshSession W url ?s0] =>
            let Hr := fresh "Hr" in
            destruct (refreshSession_returns url s0) as (? & ? & Hr & ? & ?);
            rewrite Hr; clear Hr; cbn beta iota
        end
      | match goal with
        | |- context [axios W ?n (CloudScraper.with_request ?m ?u ?c)] =>
            let Ha := fresh "Ha" in let Hax := fresh "Hax" in
            destruct (Hanswer n m u c Hurl) as (? & Hax & Ha); rewrite Hax;
            cbn beta iota; eexists; eexists; (split; [exact Ha|]);
            (split; [|split; [|reflexivity]]); simpl in *; lia
        end
      | destruct_scrutinee; cbn beta iota ].
Qed.

End loop_protection.

Section enough_slots.
Context (W : World) (O : Options) (Requested : string -> Prop).
Hypothesis Hpre : requestPreHook O = None.
Hypothesis Hpost : requestPostHook O = None.
Hypothesis Hv1 : disableCloudflareV1 O = false.
Hypothesis Hanswer :
  forall n method url config,
    Requested url ->
    exists r, axios W n (CloudScraper.with_request method url config) = TResponse r
              /\ exists submitUrl,
                   Spec.Solvable W O (CloudScraper.decodeBrotli W O r) submitUrl
                   /\ Requested (Cloudflare.cr_url submitUrl).

Lemma loop_protection_after (k : nat) :
  forall fuel method url config (s : State),
    Requested url ->
    solveDepthCnt s + Z.of_nat k = solveDepth O ->
    0 <= currentConcurrentRequests s ->
    currentConcurrentRequests s + Z.of_nat k < maxConcurrentRequests O ->
    (k < fuel)%nat ->
    exists s',
      CloudScraper.request W O fuel method url config s
      = Throw (CloudflareLoopProtection (solveDepth O)) s'
      /\ solveDepthCnt s' = 0
      /\ currentConcurrentRequests s' = currentConcurrentRequests s.
Proof.
  induction k as [|k IH]; intros fuel method url config s Hurl Hdepth Hnonneg Hslots Hfuel;
    (destruct fuel as [|fuel]; [lia|]); simpl;
    destruct (request_body_dispatches W O Hpre Hpost Requested
                (fun resp => exists submitUrl,
                               Spec.Solvable W O resp submitUrl
                               /\ Requested (Cloudflare.cr_url submitUrl))
                Hanswer
                (CloudScraper.request W O fuel) method url config s Hurl)
      as (resp & s1 & (submitUrl & Hsolvable & Hnext) & Hd & Hc & Heq);
    try lia; rewrite Heq; clear Heq;
    unfold CloudScraper.handleCloudflareChallenges; unfold_m; cbn beta iota.
  - replace (solveDepth O <=? solveDepthCnt s1) with true
      by (symmetry; apply Z.leb_le; lia).
    cbn beta iota. eexists. split; [f_equal; f_equal; lia|].
    unfold CloudScraper.release_slot. simpl.
    replace (0 <? currentConcurrentRequests s1) with true
      by (symmetry; apply Z.ltb_lt; lia).
    simpl. split; [reflexivity | lia].
  - replace (solveDepth O <=? solveDepthCnt s1) with false
      by (symmetry; apply Z.leb_gt; lia).
    cbn beta iota. rewrite Hv1.
    destruct Hsolvable as (Hclass & (v & Hcap & Hv) & body & parsedUrl & Hbody & Hsub & Hparse).
    rewrite Hclass. cbn beta iota.
    unfold Cloudflare.challengeResponse. rewrite Hcap.
    unfold mbind at 1, M_bind, lift, mret, M_ret. rewrite Hv.
    destruct (iuamResponse_reaches_submit W O (CloudScraper.request W O fuel) resp
                (decorate W method url config)
                (set_solveDepthCnt (solveDepthCnt s1 + 1) s1)
                body submitUrl parsedUrl Hbody Hsub Hparse)
      as (s3 & Hreach & Hd3 & Hc3 & _).
    rewrite Hreach. simpl in Hd3, Hc3.
    destruct (IH fuel (Some "POST") (Cloudflare.cr_url submitUrl)
                (Cloudflare.challengeConfig resp (decorate W method url config)
                   parsedUrl submitUrl) s3 Hnext)
      as (s4 & Hrec & Hd4 & Hc4); try lia.
    unfold mbind, M_bind. rewrite Hrec.
    eexists. split; [reflexivity|].
    unfold CloudScraper.release_slot.
    replace (0 <? currentConcurrentRequests s4) with true
      by (symmetry; apply Z.ltb_lt; lia).
    simpl. split; [assumption | lia].
Qed.

End enough_slots.

(** X2.  When every page the transport answers with is a legacy JS challenge
    the resolver can answer, version 1 handling is on, no hook is installed and
    there are more free slots than [solveDepth], a request on an instance
    whose loop counter is 0 ends in [CloudflareLoopProtection] carrying
    [solveDepth], with the loop counter back at 0 and every slot released.
    The counter goes up by one at each resolution attempt and is reset by
    nothing on the way, so the attempts made are [solveDepth]. *)
Lemma loop_protection_with_enough_slots (W : World) (O : Options)
    (Requested : string -> Prop) (fuel : nat) method url config (s : State) :
  requestPreHook O = None -> requestPostHook O = None ->
  disableCloudflareV1 O = false ->
  (forall n method url config,
     Requested url ->
     exists r, axios W n (CloudScraper.with_request method url config) = TResponse r
               /\ exists submitUrl,
                    Spec.Solvable W O (CloudScraper.decodeBrotli W O r) submitUrl
                    /\ Requested (Cloudflare.cr_url submitUrl)) ->
  Requested url ->
  solveDepthCnt s = 0 -> 0 <= solveDepth O ->
  0 <= currentConcurrentRequests s ->
  currentConcurrentRequests s + solveDepth O < maxConcurrentRequests O ->
  (Z.to_nat (solveDepth O) < fuel)%nat ->
  exists s',
    CloudScraper.request W O fuel method url config s
    = Throw (CloudflareLoopProtection (solveDepth O)) s'
    /\ solveDepthCnt s' = 0
    /\ currentConcurrentRequests s' = currentConcurrentRequests s.
Proof.
  intros Hpre Hpost Hv1 Hanswer Hurl Hcnt Hdepth Hnonneg Hslots Hfuel.
  apply (loop_protection_after W O Requested Hpre Hpost Hv1 Hanswer
           (Z.to_nat (solveDepth O))); try assumption; lia.
Qed.

(** The example challenge page behind four slots. *)
Lemma loop_protection_with_enough_slots_example :
  exists s',
    CloudScraper.request (Examples.always Examples.js_challenge)
      (Examples.with_concurrency 4 CloudScraper.default_options)
      4 (Some "GET") Examples.page_url empty_config Examples.fresh
    = Throw (CloudflareLoopProtection 3) s'
    /\ solveDepthCnt s' = 0
    /\ currentConcurrentRequests s' = 0.
Proof.
  apply (loop_protection_with_enough_slots (Examples.always Examples.js_challenge)
           (Examples.with_concurrency 4 CloudScraper.default_options)
           (fun u => u = Examples.page_url
                     \/ u = "https://example.com/?__cf_chl_f_tk=abc&x=1"));
    try reflexivity.
  - intros n method url config Hurl.
    exists (Examples.answers Examples.js_challenge
              (CloudScraper.with_request method url config)).
    split; [reflexivity|].
    exists {| Cloudflare.cr_url := "https://example.com/?__cf_chl_f_tk=abc&x=1";
              Cloudflare.cr_data :=
                <["jschl_answer" := "0"]>
                  (<["pass" := "pw"]> (<["jschl_vc" := "vc"]> {[ "r" := "rv" ]})) |}.
    split; [|right; reflexivity].
    split; [vm_compute; reflexivity|].
    split; [exists (VBool false); split; vm_compute; reflexivity|].
    exists Examples.iuam_page.
    destruct Hurl as [-> | ->].
    + exists {| protocol := "https:"; hostname := "example.com";
                href := Examples.page_url |}.
      split; [reflexivity|]. split; [vm_compute; reflexivity | reflexivity].
    + exists {| protocol := "https:"; hostname := "example.com";
                href := "https://example.com/?__cf_chl_f_tk=abc&x=1" |}.
      split; [reflexivity|]. split; [vm_compute; reflexivity | reflexivity].
  - left. reflexivity.
  - vm_compute. discriminate.
  - vm_compute. lia.
Defined.

(** ** The slot on the plain path *)

(** X3.  A response that classification does not route into the resolver,
    and that is no 403 to be retried, is returned with the slot of the request
    released: the counter is what it was before the call. *)
Lemma plain_response_releases_slot (W : World) (O : Options) (fuel : nat)
    method url config (s : State) :
  requestPreHook O = None -> requestPostHook O = None ->
  (forall n method url config,
     exists r, axios W n (CloudScraper.with_request method url config) = TResponse r
               /\ (disableCloudflareV1 O = true
                   \/ Cloudflare.isChallengeRequest (CloudScraper.decodeBrotli W O r)
                      = Normal false)
               /\ (status r <> 403 \/ autoRefreshOn403 O = false)) ->
  solveDepthCnt s < solveDepth O ->
  0 <= currentConcurrentRequests s < maxConcurrentRequests O ->
  exists resp s',
    CloudScraper.request W O (S fuel) method url config s = Return resp s'
    /\ currentConcurrentRequests s' = currentConcurrentRequests s.
Proof.
  intros Hpre Hpost Hanswer Hdepth Hslots. simpl.
  destruct (request_body_dispatches W O Hpre Hpost (fun _ => True)
              (fun resp =>
                 (disableCloudflareV1 O = true
                  \/ Cloudflare.isChallengeRequest resp = Normal false)
                 /\ (status resp <> 403 \/ autoRefreshOn403 O = false))
              (fun n m u c _ =>
                 match Hanswer n m u c with
                 | ex_intro _ r (conj Hax (conj Hclass Hst)) =>
                     ex_intro _ r
                       (conj Hax
                          (conj Hclass
                             (eq_ind_r (fun z => z <> 403 \/ autoRefreshOn403 O = false)
                                Hst (status_decodeBrotli W O r))))
                 end)
              (CloudScraper.request W O fuel) method url config s I)
    as (resp & s1 & (Hclass & Hst) & Hd & Hc & Heq); [lia|].
  rewrite Heq. clear Heq.
  unfold CloudScraper.handleCloudflareChallenges. unfold_m. cbn beta iota.
  replace (solveDepth O <=? solveDepthCnt s1) with false
    by (symmetry; apply Z.leb_gt; lia).
  cbn beta iota.
  assert (Hno403 : (status resp =? 403) && autoRefreshOn403 O = false).
  { destruct Hst as [Hst | ->]; [|apply andb_false_r].
    apply Z.eqb_neq in Hst. rewrite Hst. reflexivity. }
  assert (Hrelease : forall s2,
            currentConcurrentRequests s2 = currentConcurrentRequests s + 1 ->
            currentConcurrentRequests (CloudScraper.release_slot s2)
            = currentConcurrentRequests s).
  { intros s2 H2. unfold CloudScraper.release_slot.
    replace (0 <? currentConcurrentRequests s2) with true
      by (symmetry; apply Z.ltb_lt; lia).
    simpl. lia. }
  destruct (disableCloudflareV1 O) eqn:Hv1;
    [| destruct Hclass as [Hx|Hx]; [discriminate | rewrite Hx]];
    cbn beta iota; rewrite Hno403;
    repeat (destruct_scrutinee; cbn beta iota);
    eexists; eexists; (split; [reflexivity|]); apply Hrelease; simpl; lia.
Qed.

(** ** The slot on the captcha path *)

(** X4.  In every world that answers with legacy captcha challenges, with
    the provider [return_response] and no second try, the challenge page is
    returned with the slot of the request still taken. *)
Lemma captcha_return_keeps_slot (W : World) (O : Options) (fuel : nat)
    method url config (s : State) :
  requestPreHook O = None -> requestPostHook O = None ->
  disableCloudflareV1 O = false -> doubleDown O = false ->
  captcha_provider O = Some "return_response" ->
  (forall n method url config,
     exists r, axios W n (CloudScraper.with_request method url config) = TResponse r
               /\ Cloudflare.isChallengeRequest (CloudScraper.decodeBrotli W O r)
                  = Normal true
               /\ Cloudflare.isCaptchaChallenge (CloudScraper.decodeBrotli W O r)
                  = Normal (VBool true)) ->
  solveDepthCnt s < solveDepth O ->
  0 <= currentConcurrentRequests s < maxConcurrentRequests O ->
  exists resp s',
    CloudScraper.request W O (S fuel) method url config s = Return resp s'
    /\ currentConcurrentRequests s' = currentConcurrentRequests s + 1.
Proof.
  intros Hpre Hpost Hv1 Hdouble Hprovider Hanswer Hdepth Hslots. simpl.
  destruct (request_body_dispatches W O Hpre Hpost (fun _ => True)
              (fun resp =>
                 Cloudflare.isChallengeRequest resp = Normal true
                 /\ Cloudflare.isCaptchaChallenge resp = Normal (VBool true))
              (fun n m u c _ => Hanswer n m u c)
              (CloudScraper.request W O fuel) method url config s I)
    as (resp & s1 & (Hclass & Hcap) & Hd & Hc & Heq); [lia|].
  rewrite Heq. clear Heq.
  unfold CloudScraper.handleCloudflareChallenges. unfold_m. cbn beta iota.
  replace (solveDepth O <=? solveDepthCnt s1) with false
    by (symmetry; apply Z.leb_gt; lia).
  cbn beta iota. rewrite Hv1, Hclass. cbn beta iota.
  unfold Cloudflare.challengeResponse, Cloudflare.captchaResponse.
  unfold_m. rewrite Hcap. cbn beta iota. simpl truthy. cbn beta iota.
  rewrite Hdouble, Hprovider. cbn beta iota.
  eexists. eexists. split; [reflexivity|]. simpl. exact Hc.
Qed.

(** * Instances of the general properties above *)

(** A server that answers 200 without challenge. *)
Lemma plain_response_releases_slot_witness :
  exists resp s',
    CloudScraper.request (Examples.always Examples.ok) CloudScraper.default_options
      1 (Some "GET") Examples.page_url empty_config Examples.fresh = Return resp s'
    /\ currentConcurrentRequests s' = 0.
Proof.
  apply (plain_response_releases_slot (Examples.always Examples.ok)
           CloudScraper.default_options 0 (Some "GET") Examples.page_url empty_config
           Examples.fresh); try reflexivity.
  - intros n method url config.
    exists (Examples.answers Examples.ok (CloudScraper.with_request method url config)).
    split; [reflexivity|]. split; [right; reflexivity | left; discriminate].
  - simpl. lia.
Defined.

(** The example captcha page. *)
Lemma captcha_return_keeps_slot_witness :
  exists resp s',
    CloudScraper.request (Examples.always Examples.captcha_challenge)
      (Examples.return_response CloudScraper.default_options)
      1 (Some "GET") Examples.page_url empty_config Examples.fresh = Return resp s'
    /\ currentConcurrentRequests s' = 1.
Proof.
  apply (captcha_return_keeps_slot (Examples.always Examples.captcha_challenge)
           (Examples.return_response CloudScraper.default_options)
           0 (Some "GET") Examples.page_url empty_config Examples.fresh);
    try reflexivity.
  - intros n method url config.
    exists (Examples.answers Examples.captcha_challenge
              (CloudScraper.with_request method url config)).
    split; [reflexivity|]. split; vm_compute; reflexivity.
  - simpl. lia.
Defined.

(** A 403 without a server header. *)
Lemma detectors_falsy_off_cloudflare_witness :
  exists v, Cloudflare.isFirewallBlocked Examples.forbidden = Normal v
            /\ truthy v = false.
Proof.
  apply (detectors_falsy_off_cloudflare Examples.forbidden).
  - intros (srv & Hsrv & _). vm_compute in Hsrv. discriminate.
  - simpl. tauto.
Defined.

(** * Further properties of the orchestrator *)

(** ** The counters across a whole request *)

Lemma axios_calls_app (t : list Event) (ev : Event) :
  axios_calls (t ++ [ev]) = (axios_calls t + (if is_axios ev then 1 else 0))%nat.
Proof.
  unfold axios_calls. rewrite List.filter_app, length_app. simpl.
  destruct (is_axios ev); reflexivity.
Qed.

Section counters.
Context (W : World) (O : Options).

Lemma refreshSession_keeps_counters (url : string) (s : State) :
  exists b s', CloudScraper._refreshSession W url s = Return b s'
               /\ currentConcurrentRequests s' = currentConcurrentRequests s
               /\ solveDepthCnt s' = solveDepthCnt s
               /\ _403RetryCount s' = _403RetryCount s.
Proof.
  unfold CloudScraper._refreshSession, catch, call_axios. unfold_m. cbn beta iota.
  destruct (new_URL W url) as [parsedUrl|].
  - destruct_scrutinee; cbn beta iota; eexists; eexists; (split; [reflexivity|]);
      repeat split; reflexivity.
  - eexists; eexists; (split; [reflexivity|]); repeat split; reflexivity.
Qed.

Section callback.
Context (request : option string -> string -> ReqConfig -> M Response).
Hypothesis Hreq :
  forall m u c s,
    outcome_keeps_counters O (currentConcurrentRequests s) (currentConcurrentRequests s)
      s (request m u c s).

Ltac call_request :=
  match goal with
  | |- context [request ?m ?u ?c ?s1] =>
      let H := fresh "Hcall" in
      pose proof (Hreq m u c s1) as H;
      destruct (request m u c s1) eqn:?; simpl in H
  end.

Ltac counters := unfold outcome_keeps_counters, counters_kept in *; simpl in *; lia.

Lemma challengeResponse_keeps_counters (resp : Response) (config : ReqConfig)
    (s : State) :
  outcome_keeps_counters O (currentConcurrentRequests s) (currentConcurrentRequests s)
    s (Cloudflare.challengeResponse W O request resp config s).
Proof.
  unfold Cloudflare.challengeResponse, Cloudflare.captchaResponse,
    Cloudflare.iuamResponse, Cloudflare.after_submit.
  unfold_m. cbn beta iota.
  repeat first [ call_request | destruct_scrutinee | progress cbn beta iota ];
    try exact I; counters.
Qed.

Lemma handle403_keeps_counters (response : Response) method url config (s : State) :
  outcome_keeps_counters O (currentConcurrentRequests s - 1)
    (currentConcurrentRequests s) s
    (CloudScraper._handle403Error W O request response method url config s).
Proof.
  unfold CloudScraper._handle403Error, finally. unfold_m. cbn beta iota.
  repeat first
    [ match goal with
      | |- context [CloudScraper._refreshSession W ?u ?s1] =>
          let b := fresh "b" in let s2 := fresh "s" in
          let Hr := fresh "Hr" in
          destruct (refreshSession_keeps_counters u s1) as (b & s2 & Hr & ? & ? & ?);
          rewrite Hr
      end
    | call_request
    | destruct_scrutinee
    | progress cbn beta iota ];
    unfold CloudScraper.release_slot; repeat destruct_scrutinee;
    try exact I; counters.
Qed.

Lemma handleCloudflareChallenges_keeps_counters (response : Response) method url
    config (s : State) :
  outcome_keeps_counters O (currentConcurrentRequests s - 1)
    (currentConcurrentRequests s) s
    (CloudScraper.handleCloudflareChallenges W O request response method url config s).
Proof.
  unfold CloudScraper.handleCloudflareChallenges. unfold_m. cbn beta iota.
  repeat first
    [ match goal with
      | |- context [CloudScraper._handle403Error W O request ?r ?m ?u ?c ?s1] =>
          let H := fresh "Hcall" in
          pose proof (handle403_keeps_counters r m u c s1) as H;
          destruct (CloudScraper._handle403Error W O request r m u c s1); simpl in H
      | |- context [Cloudflare.challengeResponse W O request ?r ?c ?s1] =>
          let H := fresh "Hcall" in
          pose proof (challengeResponse_keeps_counters r c s1) as H;
          destruct (Cloudflare.challengeResponse W O request r c s1); simpl in H
      end
    | destruct_scrutinee
    | progress cbn beta iota ];
    unfold CloudScraper.release_slot; repeat destruct_scrutinee;
    try exact I; counters.
Qed.

Lemma request_body_keeps_counters method url config (s : State) :
  outcome_keeps_counters O (currentConcurrentRequests s) (currentConcurrentRequests s)
    s (CloudScraper.request_body W O request method url config s).
Proof.
  unfold CloudScraper.request_body, CloudScraper._applyRequestThrottling,
    CloudScraper._shouldRefreshSession, catch, CloudScraper.performRequest, call_axios.
  unfold_m. cbn beta iota.
  repeat first
    [ match goal with
      | |- context [CloudScraper._refreshSession W ?u ?s1] =>
          let b := fresh "b" in let s2 := fresh "s" in
          let Hr := fresh "Hr" in
          destruct (refreshSession_keeps_counters u s1) as (b & s2 & Hr & ? & ? & ?);
          rewrite Hr
      | |- context [CloudScraper.handleCloudflareChallenges W O request ?r ?m ?u ?c ?s1] =>
          let H := fresh "Hcall" in
          pose proof (handleCloudflareChallenges_keeps_counters r m u c s1) as H;
          destruct (CloudScraper.handleCloudflareChallenges W O request r m u c s1);
          simpl in H
      end
    | destruct_scrutinee
    | progress cbn beta iota ];
    unfold CloudScraper.release_slot; repeat destruct_scrutinee;
    try exact I; counters.
Qed.

End callback.

Lemma request_keeps_counters (fuel : nat) :
  forall method url config s,
    outcome_keeps_counters O (currentConcurrentRequests s) (currentConcurrentRequests s)
      s (CloudScraper.request W O fuel method url config s).
Proof.
  induction fuel as [|fuel IH]; intros method url config s; simpl.
  - exact I.
  - apply request_body_keeps_counters. exact IH.
Qed.

End counters.

(** X7.  Whatever a request does (return, throw, or wait for ever), it
    leaves the counter of requests in flight no lower than it found it, and
    no higher than the larger of what it found and [maxConcurrentRequests]:
    a request frees no slot but its own, and the limit is never exceeded. *)
Theorem request_slot_bounds (W : World) (O : Options) (fuel : nat)
    method url config (s : State) :
  match CloudScraper.request W O fuel method url config s with
  | Return _ s' | Throw _ s' | Hang s' =>
      currentConcurrentRequests s <= currentConcurrentRequests s'
      <= Z.max (currentConcurrentRequests s) (maxConcurrentRequests O)
  | OutOfFuel => True
  end.
Proof.
  pose proof (request_keeps_counters W O fuel method url config s) as H.
  destruct (CloudScraper.request W O fuel method url config s);
    try exact I; unfold outcome_keeps_counters, counters_kept in H; lia.
Qed.

(** X8.  On an instance whose challenge depth counter and 403 retry counter
    are within [solveDepth] and [max403Retries], they still are after a
    request, however it ends: no more than [solveDepth] resolutions in a
    row are ever counted, and no more than [max403Retries] retries. *)
Theorem request_counters_within_limits (W : World) (O : Options) (fuel : nat)
    method url config (s : State) :
  0 <= solveDepthCnt s <= solveDepth O ->
  0 <= _403RetryCount s <= max403Retries O ->
  match CloudScraper.request W O fuel method url config s with
  | Return _ s' | Throw _ s' | Hang s' =>
      0 <= solveDepthCnt s' <= solveDepth O
      /\ 0 <= _403RetryCount s' <= max403Retries O
  | OutOfFuel => True
  end.
Proof.
  intros Hdepth Hretry.
  pose proof (request_keeps_counters W O fuel method url config s) as H.
  destruct (CloudScraper.request W O fuel method url config s);
    try exact I; unfold outcome_keeps_counters, counters_kept in H; lia.
Qed.

(** A transport that answers 403 to every call, with the default options:
    the request returns with the retry counter at 1 of 3. *)
Lemma request_counters_within_limits_witness :
  exists r s',
    CloudScraper.request (Examples.always Examples.forbidden)
      CloudScraper.default_options 5 (Some "GET") Examples.page_url empty_config
      Examples.fresh = Return r s'
    /\ 0 <= solveDepthCnt s' <= 3 /\ 0 <= _403RetryCount s' <= 3.
Proof.
  pose proof (request_counters_within_limits (Examples.always Examples.forbidden)
                CloudScraper.default_options 5 (Some "GET") Examples.page_url
                empty_config Examples.fresh) as H.
  destruct (CloudScraper.request (Examples.always Examples.forbidden)
              CloudScraper.default_options 5 (Some "GET") Examples.page_url
              empty_config Examples.fresh) as [r s'| | |] eqn:E;
    try (vm_compute in E; discriminate).
  exists r, s'. split; [reflexivity|]. apply H; simpl; lia.
Defined.

(** ** Throttling and session refresh *)

(** The wait of the throttling under the default interval of one second,
    [t] ms after the previous request: the product
    [(1 - t / 1000) * 1000] is computed in binary64 and truncated by the
    timer, which makes it [1000 - t] or one less. *)
Lemma default_interval_wait (t : Z) :
  0 <= t < 1000 ->
  (JSNumber.of_Z t <? 1 * 1000)%float = true
  /\ (Timers.duration ((1 - JSNumber.of_Z t / 1000) * 1000)%float = 1000 - t
      \/ Timers.duration ((1 - JSNumber.of_Z t / 1000) * 1000)%float = 999 - t).
Proof.
  intros Ht.
  assert (Hall : forallb default_wait_checked (seq 0 1000) = true)
    by (vm_compute; reflexivity).
  rewrite List.forallb_forall in Hall.
  assert (Hin : In (Z.to_nat t) (seq 0 1000)) by (apply in_seq; lia).
  specialize (Hall _ Hin). unfold default_wait_checked in Hall.
  rewrite Z2Nat.id in Hall by lia.
  apply andb_prop in Hall. destruct Hall as [Hlt Hw]. split; [exact Hlt|].
  apply orb_prop in Hw. destruct Hw as [Hw|Hw]; apply Z.eqb_eq in Hw; auto.
Qed.

(** X9.  Under the default minimum interval of one second, a request that
    finds a free slot [t] ms after the previous one, with [t] below 1000,
    is held back by [_applyRequestThrottling] for [1000 - t] ms or for one
    millisecond less, since the wait is computed in seconds and the timer
    truncates it.  The clock then stands 1000 or 999 ms after the previous
    request and is recorded as the time of the last request; nothing else
    of the instance changes, and nothing is thrown. *)
Theorem throttling_spaces_requests (O : Options) (s : State) (t : Z) :
  minRequestInterval O = 1%float ->
  currentConcurrentRequests s < maxConcurrentRequests O ->
  now s - lastRequestTime s = t ->
  0 <= t < 1000 ->
  exists waited s',
    CloudScraper._applyRequestThrottling O s = Return tt s'
    /\ (waited = 1000 - t \/ waited = 999 - t)
    /\ s' = set_lastRequestTime (now s + waited) (advance waited (EvSleep waited) s)
    /\ (now s' = lastRequestTime s + 1000 \/ now s' = lastRequestTime s + 999)
    /\ lastRequestTime s' = now s'.
Proof.
  intros Hdefault Hslot Hsince Ht.
  destruct (default_interval_wait t Ht) as [Hlt Hwait].
  assert (Hfree : (maxConcurrentRequests O <=? currentConcurrentRequests s) = false)
    by (apply Z.leb_gt; lia).
  exists (Timers.duration ((1 - JSNumber.of_Z t / 1000) * 1000)%float).
  eexists. split; [|split; [exact Hwait|]].
  - unfold CloudScraper._applyRequestThrottling. unfold_m.
    rewrite Hdefault, Hsince, Hlt. cbn beta iota zeta.
    cbn [currentConcurrentRequests advance]. rewrite Hfree. reflexivity.
  - split; [reflexivity|]. simpl. split; [|reflexivity].
    destruct Hwait as [-> | ->]; [left | right]; lia.
Qed.

(** A request 900 ms after the previous one is let through 99 ms later. *)
Lemma throttling_spaces_requests_witness :
  exists s',
    CloudScraper._applyRequestThrottling CloudScraper.default_options
      (set_lastRequestTime 1100 Examples.fresh) = Return tt s'
    /\ now s' = 2099
    /\ lastRequestTime s' = 2099.
Proof.
  destruct (throttling_spaces_requests CloudScraper.default_options
              (set_lastRequestTime 1100 Examples.fresh) 900)
    as (waited & s' & Hrun & _ & _ & _ & Hlast);
    [reflexivity | reflexivity | reflexivity | lia |].
  exists s'. split; [exact Hrun|].
  vm_compute in Hrun. injection Hrun as <-. split; reflexivity.
Defined.

(** X10.  [_refreshSession] always returns: an unparsable URL and a failed
    probe both give [false], no error.  It restarts the session clock and
    the request count and reloads the user agent whatever the probe does,
    and it answers [true] exactly when the probe of the origin is answered
    with status 200, 301, 302 or 304. *)
Theorem refreshSession_never_throws (W : World) (url : string) (s : State) :
  exists (b : bool) (s' : State),
    CloudScraper._refreshSession W url s = Return b s'
    /\ sessionStartTime s' = now s
    /\ requestCount s' = 0
    /\ userAgentLoads s' = S (userAgentLoads s)
    /\ refresh_attempts (trace s') = S (refresh_attempts (trace s))
    /\ (b = true <->
        exists parsedUrl r,
          new_URL W url = Some parsedUrl
          /\ axios W (axios_calls (trace s))
               {| c_method := Some "GET";
                  c_url := Some (protocol parsedUrl +:+ "//" +:+ hostname parsedUrl);
                  c_headers := ∅; c_data := None; c_maxRedirects := Some 5;
                  c_validateStatus := false; c_proxy := None |}
             = TResponse r
          /\ In (status r) [200; 301; 302; 304]).
Proof.
  unfold CloudScraper._refreshSession, catch, call_axios. unfold_m. cbn beta iota.
  destruct (new_URL W url) as [parsedUrl|] eqn:Hurl.
  - simpl trace. rewrite axios_calls_app. simpl is_axios. rewrite Nat.add_0_r.
    destruct (axios W (axios_calls (trace s)) _) as [r|e] eqn:Hax; cbn beta iota.
    + eexists; eexists; split; [reflexivity|]. simpl.
      rewrite !refresh_attempts_app. simpl.
      repeat split; try lia.
      * intros Hb. exists parsedUrl, r. repeat split; try assumption.
        repeat (apply orb_prop in Hb; destruct Hb as [Hb|Hb]);
          try discriminate; apply Z.eqb_eq in Hb; rewrite <- Hb; simpl; tauto.
      * intros (p & r' & Hp & Hr & Hin).
        injection Hp as <-. rewrite Hax in Hr. injection Hr as <-.
        simpl in Hin.
        destruct Hin as [H|[H|[H|[H|[]]]]]; rewrite <- H; reflexivity.
    + eexists; eexists; split; [reflexivity|]. simpl.
      rewrite !refresh_attempts_app. simpl.
      repeat split; try lia; try discriminate.
      intros (p & r' & Hp & Hr & _). injection Hp as <-.
      rewrite Hax in Hr. discriminate.
  - eexists; eexists; split; [reflexivity|]. simpl.
    rewrite !refresh_attempts_app. simpl.
    repeat split; try lia; try discriminate.
    intros (p & r' & Hp & _). discriminate.
Qed.

Lemma decodeBrotli_cases (W : World) (O : Options) (r : Response) :
  CloudScraper.decodeBrotli W O r = r
  \/ exists bytes text,
       allowBrotli O = true
       /\ headers r !! "content-encoding" = Some (HStr "br")
       /\ data r = DBuffer bytes
       /\ brotli_decompress W bytes = Some text
       /\ CloudScraper.decodeBrotli W O r = CloudScraper.with_data (DString text) r.
Proof.
  unfold CloudScraper.decodeBrotli.
  repeat destruct_scrutinee; try (left; reflexivity).
  right. subst. eexists; eexists. repeat split; eassumption.
Qed.

Lemma headers_decodeBrotli (W : World) (O : Options) (r : Response) :
  headers (CloudScraper.decodeBrotli W O r) = headers r.
Proof.
  destruct (decodeBrotli_cases W O r) as [H | (bytes & text & _ & _ & _ & _ & H)];
    rewrite H; reflexivity.
Qed.

(** X11.  [decodeBrotli] touches nothing but the body: status, status
    text, headers and request configuration are kept.  The body changes
    only when Brotli is allowed, the content encoding is [br], the body is
    a buffer and the decoder succeeds on it, and then it is the decoded
    text.  Decoding a decoded response changes nothing. *)
Theorem decodeBrotli_touches_body_only (W : World) (O : Options) (r : Response) :
  let r' := CloudScraper.decodeBrotli W O r in
  status r' = status r /\ statusText r' = statusText r
  /\ headers r' = headers r /\ resp_config r' = resp_config r
  /\ (r' = r
      \/ exists bytes text,
           allowBrotli O = true
           /\ headers r !! "content-encoding" = Some (HStr "br")
           /\ data r = DBuffer bytes
           /\ brotli_decompress W bytes = Some text
           /\ data r' = DString text)
  /\ CloudScraper.decodeBrotli W O r' = r'.
Proof.
  cbv zeta.
  destruct (decodeBrotli_cases W O r) as [H | (bytes & text & Ha & Hh & Hd & Hb & H)];
    rewrite H.
  - repeat split; try reflexivity; try assumption. left; reflexivity.
  - repeat split; try reflexivity.
    + right. exists bytes, text. repeat split; assumption.
    + destruct (decodeBrotli_cases W O (CloudScraper.with_data (DString text) r))
        as [H' | (? & ? & _ & _ & Hd' & _)]; [exact H' | discriminate Hd'].
Qed.

(** ** What can be thrown *)

(** X15.  Classification throws nothing but its three verdicts, whatever
    the response looks like (a body that is no text, a header that is no
    string): a firewall block, a version 2 captcha challenge, or a version 2
    challenge, each exactly under its condition. *)
Theorem isChallengeRequest_errors (resp : Response) (e : Error) :
  Cloudflare.isChallengeRequest resp = Abrupt e ->
  (e = CloudflareCode1020 Cloudflare.msg_1020 /\ Spec.FirewallBlock resp)
  \/ (e = CloudflareChallengeError Cloudflare.msg_v2_captcha
      /\ Spec.NewerCaptcha resp)
  \/ (e = CloudflareChallengeError Cloudflare.msg_v2 /\ Spec.NewerJS resp).
Proof.
  intros He.
  destruct (isChallengeRequest_cases resp)
    as (blocked & newCaptcha & newIUAM & captcha & iuam
        & Hb & Hnc & Hni & _ & _ & Heq).
  rewrite Heq in He.
  destruct blocked; [left|destruct newCaptcha; [right; left|
    destruct newIUAM; [right; right|discriminate]]];
    injection He as <-; (split; [reflexivity|]);
    [apply Hb | apply Hnc | apply Hni]; reflexivity.
Qed.

Lemma isChallengeRequest_errors_witness :
  CloudflareCode1020 Cloudflare.msg_1020 = CloudflareCode1020 Cloudflare.msg_1020
  /\ Spec.FirewallBlock Examples.blocked
  \/ (CloudflareCode1020 Cloudflare.msg_1020
      = CloudflareChallengeError Cloudflare.msg_v2_captcha
      /\ Spec.NewerCaptcha Examples.blocked)
  \/ (CloudflareCode1020 Cloudflare.msg_1020
      = CloudflareChallengeError Cloudflare.msg_v2
      /\ Spec.NewerJS Examples.blocked).
Proof.
  apply (isChallengeRequest_errors Examples.blocked). vm_compute. reflexivity.
Defined.

(** X13.  The public [solveChallenge] hands a response that does not come
    from a Cloudflare server back as it is: no transport call, no change to
    the instance, no error, whatever the status and the body. *)
Theorem solveChallenge_passes_other_servers (W : World) (O : Options) (fuel : nat)
    (response : Response) (s : State) :
  ~ Spec.cloudflare_server response ->
  CloudScraper.solveChallenge W O fuel response s = Return response s.
Proof.
  intros Hserver.
  destruct (isChallengeRequest_cases response)
    as (blocked & newCaptcha & newIUAM & captcha & iuam
        & Hb & Hnc & Hni & Hc & Hi & Heq).
  assert (blocked = false)
    by (destruct blocked; [exfalso; apply Hserver, Hb; reflexivity | reflexivity]).
  assert (newCaptcha = false)
    by (destruct newCaptcha;
        [exfalso; apply Hserver, Hnc; reflexivity | reflexivity]).
  assert (newIUAM = false)
    by (destruct newIUAM; [exfalso; apply Hserver, Hni; reflexivity | reflexivity]).
  assert (captcha = false)
    by (destruct captcha; [exfalso; apply Hserver, Hc; reflexivity | reflexivity]).
  assert (iuam = false)
    by (destruct iuam; [exfalso; apply Hserver, Hi; reflexivity | reflexivity]).
  subst. unfold CloudScraper.solveChallenge. rewrite Heq. reflexivity.
Qed.

Lemma solveChallenge_passes_other_servers_witness :
  CloudScraper.solveChallenge (Examples.always Examples.ok)
    CloudScraper.default_options 3 Examples.forbidden Examples.fresh
  = Return Examples.forbidden Examples.fresh.
Proof.
  apply solveChallenge_passes_other_servers.
  intros (srv & Hsrv & _). vm_compute in Hsrv. discriminate.
Defined.

(** X14.  Whatever goes wrong in the resolver (no form, an unparsable URL,
    an interpreter that fails), [iuamChallengeResponse] throws a
    [CloudflareIUAMError] and nothing else. *)
Theorem iuamChallengeResponse_errors (W : World) (body url interpreter : string)
    (e : Error) :
  Cloudflare.iuamChallengeResponse W body url interpreter = Abrupt e ->
  exists msg, e = CloudflareIUAMError msg.
Proof.
  unfold Cloudflare.iuamChallengeResponse.
  match goal with
  | |- try_catch ?x _ = _ -> _ => destruct x as [submit|error]
  end; simpl; [discriminate|].
  intros He. destruct error; injection He as <-; eauto.
Qed.

Lemma iuamChallengeResponse_errors_witness :
  exists msg,
    CloudflareIUAMError Cloudflare.msg_extract = CloudflareIUAMError msg.
Proof.
  apply (iuamChallengeResponse_errors (Examples.always Examples.ok)
           "<html></html>" Examples.page_url "js2py").
  vm_compute. reflexivity.
Defined.

(** X12.  Every error [getTokens] throws is a plain [Error] whose message
    starts with [Failed to get tokens: ], whatever was thrown underneath,
    so the class of a Cloudflare error is lost to the caller.  A response
    whose status is not 200 is such an error too, and its message carries
    the prefix twice. *)
Theorem getTokens_wraps_every_error (W : World) (O : Options) (fuel : nat)
    (url : string) (config : ReqConfig) (s : State) :
  (forall e s',
     CloudScraper.getTokens W O fuel url config s = Throw e s' ->
     exists msg, e = GenericError ("Failed to get tokens: " +:+ msg))
  /\ (forall r s1,
        CloudScraper.get W O fuel url config s = Return r s1 ->
        status r <> 200 ->
        CloudScraper.getTokens W O fuel url config s
        = Throw (GenericError ("Failed to get tokens: Failed to get tokens: "
                                 +:+ decimal (status r) +:+ " " +:+ statusText r)) s1).
Proof.
  split.
  - intros e s'. unfold CloudScraper.getTokens, catch.
    match goal with
    | |- match ?x with _ => _ end = _ -> _ => destruct x
    end; try discriminate.
    intros He. injection He as <- _. eauto.
  - intros r s1 Hget Hst.
    unfold CloudScraper.getTokens, catch. unfold_m. rewrite Hget. cbn beta iota.
    apply Z.eqb_neq in Hst. rewrite Hst. reflexivity.
Qed.

Lemma getTokens_wraps_every_error_witness :
  exists s1,
    CloudScraper.getTokens (Examples.always Examples.forbidden)
      CloudScraper.default_options 5 Examples.page_url empty_config Examples.fresh
    = Throw (GenericError "Failed to get tokens: Failed to get tokens: 403 ") s1.
Proof.
  destruct (CloudScraper.get (Examples.always Examples.forbidden)
              CloudScraper.default_options 5 Examples.page_url empty_config
              Examples.fresh) as [r s1| | |] eqn:Hget;
    try (vm_compute in Hget; discriminate).
  exists s1.
  destruct (getTokens_wraps_every_error (Examples.always Examples.forbidden)
              CloudScraper.default_options 5 Examples.page_url empty_config
              Examples.fresh) as [_ H].
  rewrite (H r s1 Hget).
  - vm_compute in Hget. injection Hget as <- _. reflexivity.
  - vm_compute in Hget. injection Hget as <- _. discriminate.
Defined.

(** * HTML entities *)

Section unescape.
Import Str.

Lemma replace_from_step (pat rep : string) (a : ascii) (s : string) :
  replace_from pat rep 0 (String a s)
  = if startsWith pat (String a s)
    then rep +:+ replace_from pat rep (String.length pat - 1) s
    else String a (replace_from pat rep 0 s).
Proof. reflexivity. Qed.

Lemma replace_from_skip (pat rep : string) (k : nat) (a : ascii) (s : string) :
  replace_from pat rep (S k) (String a s) = replace_from pat rep k s.
Proof. reflexivity. Qed.

Lemma append_cons (a : ascii) (s t : string) :
  String a s +:+ t = String a (s +:+ t).
Proof. reflexivity. Qed.

Lemma append_nil (t : string) : "" +:+ t = t.
Proof. reflexivity. Qed.

(** One character of a pass: rewrite by the two equations above and
    decide the comparisons of characters. *)
Ltac pass_step :=
  repeat first
    [ rewrite replace_from_skip
    | rewrite replace_from_step
    | rewrite startsWith_cons
    | rewrite startsWith_nil
    | rewrite append_cons
    | rewrite append_nil
    | match goal with
      | H : Ascii.eqb _ _ = false |- _ => rewrite H
      end
    | progress cbn [Ascii.eqb Bool.eqb String.length Nat.sub andb] ].

Ltac pass_char a :=
  unfold Html.escape_char;
  let dq := eval vm_compute in (ascii_of_nat 34) in
  change (ascii_of_nat 34) with dq;
  let sq := eval vm_compute in (ascii_of_nat 39) in
  change (ascii_of_nat 39) with sq;
  cbn [andb];
  repeat match goal with
         | |- context [Ascii.eqb ?c a] =>
             let E := fresh "E" in
             destruct (Ascii.eqb c a) eqn:E;
             [apply Ascii.eqb_eq in E; subst a|]
         end.

Ltac pass s :=
  let a := fresh "a" in
  let IH := fresh "IH" in
  unfold replaceAll; induction s as [|a s IH]; [reflexivity|];
  cbn [Html.escape_with]; pass_char a; pass_step; rewrite ?IH; reflexivity.

Lemma pass_lt (s : string) :
  replaceAll "&lt;" "<" (Html.escape_with true true true true s)
  = Html.escape_with false true true true s.
Proof. pass s. Qed.

Lemma pass_gt (s : string) :
  replaceAll "&gt;" ">" (Html.escape_with false true true true s)
  = Html.escape_with false false true true s.
Proof. pass s. Qed.

Lemma pass_quot (s : string) :
  replaceAll "&quot;" dq (Html.escape_with false false true true s)
  = Html.escape_with false false false true s.
Proof. pass s. Qed.

Lemma pass_apos (s : string) :
  replaceAll "&#039;" sq (Html.escape_with false false false true s)
  = Html.escape_with false false false false s.
Proof. pass s. Qed.

Lemma pass_amp (s : string) :
  replaceAll "&amp;" "&" (Html.escape_with false false false false s) = s.
Proof. pass s. Qed.

End unescape.

(** X16.  [Cloudflare.unescape] undoes HTML escaping: for every text, the
    escaped text decodes to the text itself.  The ampersand is decoded last,
    so that an escaped ampersand followed by [lt;] decodes to the entity
    text and not to the character it names. *)
Theorem unescape_escape (s : string) :
  Cloudflare.unescape (Html.escape s) = s.
Proof.
  unfold Cloudflare.unescape, Html.escape.
  rewrite pass_lt, pass_gt, pass_quot, pass_apos. apply pass_amp.
Qed.

(** * Proxy rotation *)

Section proxy_manager.
Import ProxyManager.

Lemma availableProxies_spec (m : Manager) (p : string) :
  In p (availableProxies m) <-> In p (proxies m) /\ bannedProxies m !! p = None.
Proof.
  unfold availableProxies.
  rewrite List.filter_In, negb_true_iff, bool_decide_eq_false, <- eq_None_not_Some.
  tauto.
Qed.

Lemma cleanup_lookup (now : Z) (m : Manager) (p : string) :
  bannedProxies (cleanupBannedProxies now m) !! p
  = match bannedProxies m !! p with
    | Some expiry => if expiry <? now then None else Some expiry
    | None => None
    end.
Proof.
  unfold cleanupBannedProxies. simpl.
  destruct (bannedProxies m !! p) as [e|] eqn:Hb.
  - destruct (e <? now) eqn:He.
    + apply Z.ltb_lt in He. apply map_lookup_filter_None. right.
      intros x Hx. rewrite Hb in Hx. injection Hx as <-. simpl. tauto.
    + apply Z.ltb_ge in He. apply map_lookup_filter_Some. split; [exact Hb|].
      simpl. lia.
  - apply map_lookup_filter_None. left. exact Hb.
Qed.

Lemma cleanup_proxies (now : Z) (m : Manager) :
  proxies (cleanupBannedProxies now m) = proxies m.
Proof. reflexivity. Qed.

(** A proxy is available at [now] when it is listed and has no ban that
    lasts until [now]. *)
Lemma available_after_cleanup (now : Z) (m : Manager) (p : string) :
  In p (availableProxies (cleanupBannedProxies now m))
  <-> In p (proxies m)
      /\ (forall expiry, bannedProxies m !! p = Some expiry -> expiry < now).
Proof.
  rewrite availableProxies_spec, cleanup_lookup, cleanup_proxies.
  destruct (bannedProxies m !! p) as [e|].
  - destruct (e <? now) eqn:He.
    + apply Z.ltb_lt in He. split; [|tauto].
      intros [? _]. split; [assumption|]. intros ? [= <-]. exact He.
    + apply Z.ltb_ge in He. split; [intros [_ ?]; discriminate|].
      intros [_ H]. specialize (H e eq_refl). lia.
  - split; [|tauto]. intros [? _]. split; [assumption|]. discriminate.
Qed.

Lemma In_insert {A} (compare : A -> A -> float) (x y : A) (l : list A) :
  In y (insert compare x l) <-> y = x \/ In y l.
Proof.
  induction l as [|z l IH]; simpl.
  - intuition.
  - destruct (0 <? compare x z)%float; simpl; rewrite ?IH; intuition.
Qed.

Lemma In_sort {A} (compare : A -> A -> float) (y : A) (l : list A) :
  In y (sort compare l) <-> In y l.
Proof.
  unfold sort. induction l as [|x l IH]; simpl; [tauto|].
  rewrite In_insert, IH. intuition.
Qed.

Lemma length_insert {A} (compare : A -> A -> float) (x : A) (l : list A) :
  length (insert compare x l) = S (length l).
Proof.
  induction l as [|z l IH]; simpl; [reflexivity|].
  destruct (0 <? compare x z)%float; simpl; rewrite ?IH; reflexivity.
Qed.

Lemma length_sort {A} (compare : A -> A -> float) (l : list A) :
  length (sort compare l) = length l.
Proof.
  unfold sort. induction l as [|x l IH]; simpl; [reflexivity|].
  rewrite length_insert, IH. reflexivity.
Qed.

(** Whatever the strategy picks, it picks among the proxies it is given. *)
Lemma selection_is_available (draw : nat -> nat) (m : Manager)
    (available : list string) (p : string) (m' : Manager) :
  select draw available m = (Some p, m') ->
  In p available /\ bannedProxies m' = bannedProxies m /\ proxies m' = proxies m.
Proof.
  unfold select. destruct (rotationStrategy m); intros H; injection H as H <-.
  - split; [|split; reflexivity]. eapply nth_error_In; eassumption.
  - split; [|split; reflexivity]. eapply nth_error_In; eassumption.
  - split; [|split; reflexivity].
    unfold getSmartProxy in H.
    destruct (nth_error _ _) as [[q sc]|] eqn:Hn; [|discriminate].
    injection H as <-. apply nth_error_In in Hn. apply In_sort in Hn.
    apply in_map_iff in Hn. destruct Hn as (q' & [= <- _] & Hin). exact Hin.
Qed.

End proxy_manager.

(** X17.  Whatever the rotation strategy and whatever [Math.random] gives,
    a configuration [getProxy] returns is that of a listed proxy which has
    no ban that lasts until now, and it is stored as the current proxy. *)
Theorem getProxy_selects_available (W : World) (now : Z) (draw : nat -> nat)
    (m m' : ProxyManager.Manager) (config : ProxyManager.ProxyConfig) :
  ProxyManager.getProxy W now draw m = (Normal (Some config), m') ->
  ProxyManager.getCurrentProxy m' = Some config
  /\ exists proxy,
       In proxy (ProxyManager.proxies m)
       /\ config = ProxyManager.proxyToConfig W proxy
       /\ forall expiry,
            ProxyManager.bannedProxies m !! proxy = Some expiry -> expiry < now.
Proof.
  unfold ProxyManager.getProxy.
  destruct (length (ProxyManager.proxies m) =? 0)%nat; [discriminate|].
  destruct (length _ =? 0)%nat; [discriminate|].
  destruct (ProxyManager.select _ _ _) as [[p|] m1] eqn:Hsel; [|discriminate].
  intros H. injection H as <- <-.
  apply selection_is_available in Hsel. destruct Hsel as (Hin & _ & _).
  apply available_after_cleanup in Hin. destruct Hin as [Hin Hban].
  split; [reflexivity|]. exists p. auto.
Qed.

(** A manager of two proxies, and the world that parses their URLs. *)
Lemma getProxy_selects_available_witness :
  exists config proxy,
    fst (ProxyManager.getProxy (Examples.always Examples.ok) 0 (fun _ => 0%nat)
           (ProxyManager.new
              (ProxyManager.ProxyArray ["http://a.example:8080"; "http://b.example:8080"])
              (Some ProxyManager.random) None))
    = Normal (Some config)
    /\ In proxy ["http://a.example:8080"; "http://b.example:8080"]
    /\ config = ProxyManager.proxyToConfig (Examples.always Examples.ok) proxy.
Proof.
  destruct (ProxyManager.getProxy (Examples.always Examples.ok) 0 (fun _ => 0%nat)
              (ProxyManager.new
                 (ProxyManager.ProxyArray
                    ["http://a.example:8080"; "http://b.example:8080"])
                 (Some ProxyManager.random) None))
    as [[[config|]|e] m'] eqn:E; try (vm_compute in E; discriminate).
  destruct (getProxy_selects_available _ _ _ _ _ _ E) as [_ (proxy & Hin & Hcfg & _)].
  exists config, proxy. split; [reflexivity|]. split; assumption.
Defined.

Section proxy_selection.
Import ProxyManager.

Lemma select_valid_draw (draw : nat -> nat) (m : Manager) (available : list string) :
  (forall n, (0 < n)%nat -> (draw n < n)%nat) ->
  available <> [] ->
  exists p m', select draw available m = (Some p, m').
Proof.
  intros Hdraw Hne.
  assert (Hlen : (0 < length available)%nat)
    by (destruct available; [congruence | simpl; lia]).
  unfold select. destruct (rotationStrategy m).
  - unfold getSequentialProxy.
    destruct (nth_error available _) as [p|] eqn:Hn; [eauto|].
    apply nth_error_None in Hn.
    destruct (length available <=? currentIndex m)%nat eqn:Hc;
      [lia | apply Nat.leb_gt in Hc; lia].
  - unfold getRandomProxy.
    destruct (nth_error available _) as [p|] eqn:Hn; [eauto|].
    apply nth_error_None in Hn. specialize (Hdraw _ Hlen). lia.
  - unfold getSmartProxy.
    destruct (nth_error _ _) as [[p sc]|] eqn:Hn; [simpl; eauto|].
    apply nth_error_None in Hn.
    rewrite length_sort, length_map in Hn.
    assert (Htop : (0 < Nat.min 3 (length available))%nat) by lia.
    specialize (Hdraw _ Htop). lia.
Qed.

End proxy_selection.

(** X18.  With indices that [Math.random] can give, [getProxy] never
    throws, and it returns [undefined] exactly when every listed proxy has
    a ban that lasts until now (so also when none is listed). *)
Theorem getProxy_none_iff (W : World) (now : Z) (draw : nat -> nat)
    (m : ProxyManager.Manager) :
  (forall n, (0 < n)%nat -> (draw n < n)%nat) ->
  (exists result, fst (ProxyManager.getProxy W now draw m) = Normal result)
  /\ (fst (ProxyManager.getProxy W now draw m) = Normal None
      <-> forall proxy,
            In proxy (ProxyManager.proxies m) ->
            exists expiry,
              ProxyManager.bannedProxies m !! proxy = Some expiry /\ now <= expiry).
Proof.
  intros Hdraw. unfold ProxyManager.getProxy.
  destruct (length (ProxyManager.proxies m) =? 0)%nat eqn:Hlen.
  - apply Nat.eqb_eq in Hlen. apply length_zero_iff_nil in Hlen.
    split; [eexists; reflexivity|]. simpl. rewrite Hlen. split; [|reflexivity].
    intros _ proxy [].
  - destruct (length (ProxyManager.availableProxies _) =? 0)%nat eqn:Hav.
    + apply Nat.eqb_eq in Hav. apply length_zero_iff_nil in Hav.
      split; [eexists; reflexivity|]. simpl. split; [|reflexivity].
      intros _ proxy Hin.
      destruct (ProxyManager.bannedProxies m !! proxy) as [expiry|] eqn:Hb.
      * exists expiry. split; [reflexivity|].
        destruct (Z.lt_ge_cases expiry now) as [Hlt|Hge]; [|exact Hge].
        exfalso.
        assert (Hin' : In proxy (ProxyManager.availableProxies
                                   (ProxyManager.cleanupBannedProxies now m))).
        { apply available_after_cleanup. split; [exact Hin|].
          intros e He. rewrite Hb in He. injection He as <-. exact Hlt. }
        rewrite Hav in Hin'. destruct Hin'.
      * exfalso.
        assert (Hin' : In proxy (ProxyManager.availableProxies
                                   (ProxyManager.cleanupBannedProxies now m))).
        { apply available_after_cleanup. split; [exact Hin|].
          intros e He. rewrite Hb in He. discriminate. }
        rewrite Hav in Hin'. destruct Hin'.
    + apply Nat.eqb_neq in Hav.
      assert (Hne : ProxyManager.availableProxies
                      (ProxyManager.cleanupBannedProxies now m) <> [])
        by (intros H; rewrite H in Hav; apply Hav; reflexivity).
      destruct (select_valid_draw draw (ProxyManager.cleanupBannedProxies now m)
                  _ Hdraw Hne) as (p & m' & Hsel).
      rewrite Hsel. simpl. split; [eexists; reflexivity|].
      split; [discriminate|].
      intros Hall. exfalso.
      apply selection_is_available in Hsel. destruct Hsel as (Hin & _).
      apply available_after_cleanup in Hin. destruct Hin as [Hin Hban].
      destruct (Hall p Hin) as (expiry & He & Hle).
      specialize (Hban expiry He). lia.
Qed.

(** Two proxies, both banned until 1000, asked at 500. *)
Lemma getProxy_none_iff_witness :
  fst (ProxyManager.getProxy (Examples.always Examples.ok) 500 (fun _ => 0%nat)
         (ProxyManager.reportFailure 0
            {[ "http" := "http://b.example:8080" ]}
            (ProxyManager.reportFailure 0
               {[ "http" := "http://a.example:8080" ]}
               (ProxyManager.new
                  (ProxyManager.ProxyArray
                     ["http://a.example:8080"; "http://b.example:8080"])
                  None (Some 1)))))
  = Normal None.
Proof.
  apply getProxy_none_iff.
  - intros n Hn. exact Hn.
  - intros proxy [<-|[<-|[]]]; eexists; (split; [vm_compute; reflexivity|]); lia.
Defined.

Section proxy_rotation.
Import ProxyManager.
Context (W : World) (draw : nat -> nat).

Lemma available_without_bans (m : Manager) :
  bannedProxies m = ∅ -> availableProxies m = proxies m.
Proof.
  intros Hb. unfold availableProxies. rewrite Hb.
  induction (proxies m) as [|p l IH]; [reflexivity|].
  simpl. rewrite lookup_empty.
  rewrite bool_decide_eq_false_2 by (intros [? ?]; discriminate).
  simpl. f_equal. exact IH.
Qed.

Lemma cleanup_without_bans (now : Z) (m : Manager) :
  bannedProxies m = ∅ -> cleanupBannedProxies now m = m.
Proof.
  intros Hb. unfold cleanupBannedProxies. rewrite Hb, map_filter_empty, <- Hb.
  destruct m; reflexivity.
Qed.

(** From any state of the index, without bans: the calls walk the list
    and wrap around. *)
Lemma sequential_from (times : list Z) :
  forall m : Manager,
    proxies m <> [] ->
    rotationStrategy m = sequential ->
    bannedProxies m = ∅ ->
    (currentIndex m <= length (proxies m))%nat ->
    getProxies W draw times m
    = map (fun k =>
             Normal (Some (proxyToConfig W
                             (nth ((currentIndex m + k) mod length (proxies m))
                                  (proxies m) ""))))
          (seq 0 (length times)).
Proof.
  induction times as [|now later IH]; intros m Hne Hseq Hban Hidx; [reflexivity|].
  assert (Hlen : (0 < length (proxies m))%nat)
    by (destruct (proxies m); [congruence | simpl; lia]).
  cbn [getProxies]. unfold getProxy.
  replace (length (proxies m) =? 0)%nat with false
    by (symmetry; apply Nat.eqb_neq; lia).
  rewrite (cleanup_without_bans now m Hban), (available_without_bans m Hban).
  replace (length (proxies m) =? 0)%nat with false
    by (symmetry; apply Nat.eqb_neq; lia).
  unfold select. rewrite Hseq. unfold getSequentialProxy.
  set (index := if (length (proxies m) <=? currentIndex m)%nat then 0%nat
                else currentIndex m).
  assert (Hindex : index = (currentIndex m mod length (proxies m))%nat).
  { unfold index. destruct (length (proxies m) <=? currentIndex m)%nat eqn:Hc.
    - apply Nat.leb_le in Hc.
      replace (currentIndex m) with (length (proxies m)) by lia.
      rewrite Nat.Div0.mod_same. reflexivity.
    - apply Nat.leb_gt in Hc. rewrite Nat.mod_small by lia. reflexivity. }
  assert (Hlt : (index < length (proxies m))%nat)
    by (rewrite Hindex; apply Nat.mod_upper_bound; lia).
  destruct (nth_error (proxies m) index) as [p|] eqn:Hn;
    [|apply nth_error_None in Hn; lia].
  cbn [length seq map]. f_equal.
  - rewrite Nat.add_0_r, <- Hindex.
    rewrite (nth_error_nth _ _ _ Hn). reflexivity.
  - rewrite IH; try assumption.
    rewrite <- seq_shift, map_map. apply map_ext. intros k. simpl.
    do 4 f_equal.
    replace (S (index + k)) with (index + S k)%nat by lia.
    rewrite Hindex, Nat.Div0.add_mod_idemp_l. reflexivity.
Qed.

End proxy_rotation.

(** X19.  Round robin: a manager built from a non-empty array of proxies,
    with the default strategy, answers its calls of [getProxy], while no
    failure is reported, with the listed proxies in their order, starting
    over after the last one: call number [k] (from 0) gives proxy number
    [k mod n]. *)
Theorem sequential_rotation (W : World) (draw : nat -> nat) (l : list string)
    (times : list Z) :
  l <> [] ->
  ProxyManager.getProxies W draw times
    (ProxyManager.new (ProxyManager.ProxyArray l) None None)
  = map (fun k =>
           Normal (Some (ProxyManager.proxyToConfig W (nth (k mod length l) l ""))))
        (seq 0 (length times)).
Proof.
  intros Hne.
  rewrite sequential_from; try reflexivity; try assumption.
  simpl. lia.
Qed.

(** Three proxies, five calls. *)
Lemma sequential_rotation_witness :
  ProxyManager.getProxies (Examples.always Examples.ok) (fun _ => 0%nat)
    [0; 10; 20; 30; 40]
    (ProxyManager.new
       (ProxyManager.ProxyArray
          ["http://a.example:1"; "https://b.example:2"; "http://c.example:3"])
       None None)
  = [Normal (Some {[ "http" := "http://a.example:1" ]});
     Normal (Some {[ "https" := "https://b.example:2" ]});
     Normal (Some {[ "http" := "http://c.example:3" ]});
     Normal (Some {[ "http" := "http://a.example:1" ]});
     Normal (Some {[ "https" := "https://b.example:2" ]})].
Proof.
  rewrite sequential_rotation by discriminate. vm_compute. reflexivity.
Defined.

Ltac listed := repeat first [apply list_elem_of_here | apply list_elem_of_further].
Ltac not_listed :=
  let Hin := fresh "Hin" in
  intros Hin;
  repeat (apply elem_of_cons in Hin; destruct Hin as [Hin|Hin];
          [first [discriminate | congruence]|]);
  inversion Hin.

Section proxy_reports.
Import ProxyManager.

Lemma configToProxyUrl_singleton (protocol url : string) :
  configToProxyUrl {[ protocol := url ]}
  = if bool_decide (protocol ∈ ["http"; "https"; "socks"; "socks5"])
    then match url with
         | String _ _ => Some url
         | EmptyString => None
         end
    else None.
Proof.
  unfold configToProxyUrl.
  destruct (decide (protocol = "http")) as [->|H1].
  { rewrite bool_decide_eq_true_2 by listed.
    cbn [omap list_omap]. rewrite lookup_singleton_eq.
    destruct url; [|reflexivity].
    rewrite !lookup_singleton_ne by done. reflexivity. }
  destruct (decide (protocol = "https")) as [->|H2].
  { rewrite bool_decide_eq_true_2 by listed.
    cbn [omap list_omap]. rewrite lookup_singleton_eq.
    rewrite !lookup_singleton_ne by done.
    destruct url; reflexivity. }
  destruct (decide (protocol = "socks")) as [->|H3].
  { rewrite bool_decide_eq_true_2 by listed.
    cbn [omap list_omap]. rewrite lookup_singleton_eq.
    rewrite !lookup_singleton_ne by done.
    destruct url; reflexivity. }
  destruct (decide (protocol = "socks5")) as [->|H4].
  { rewrite bool_decide_eq_true_2 by listed.
    cbn [omap list_omap]. rewrite lookup_singleton_eq.
    rewrite !lookup_singleton_ne by done.
    destruct url; reflexivity. }
  rewrite bool_decide_eq_false_2 by not_listed.
  cbn [omap list_omap]. rewrite !lookup_singleton_ne by done. reflexivity.
Qed.

Lemma reportFailure_bans (now : Z) (config : ProxyConfig) (url : string) (m : Manager) :
  configToProxyUrl config = Some url ->
  bannedProxies (reportFailure now config m)
  = <[url := now + banTime m * 1000]> (bannedProxies m)
  /\ proxies (reportFailure now config m) = proxies m.
Proof.
  intros Hc. unfold reportFailure. rewrite Hc.
  cbn beta iota zeta. destruct (proxyStats _ !! url); split; reflexivity.
Qed.

End proxy_reports.

(** X20.  A ban lasts [banTime] seconds.  For a proxy whose URL parses
    with one of the protocols [http], [https], [socks] and [socks5], after
    the failure of its configuration is reported at [now], the proxy is
    among those [getProxy] chooses from at [t] exactly when it is listed and
    [t] is later than [now + banTime * 1000]. *)
Theorem ban_lasts_banTime (W : World) (now t : Z) (proxy : string) (url : URL)
    (m : ProxyManager.Manager) :
  new_URL W proxy = Some url ->
  Str.replace ":" "" (protocol url) ∈ ["http"; "https"; "socks"; "socks5"] ->
  proxy <> "" ->
  In proxy
     (ProxyManager.availableProxies
        (ProxyManager.cleanupBannedProxies t
           (ProxyManager.reportFailure now (ProxyManager.proxyToConfig W proxy) m)))
  <-> In proxy (ProxyManager.proxies m) /\ now + ProxyManager.banTime m * 1000 < t.
Proof.
  intros Hurl Hscheme Hne.
  assert (Hc : ProxyManager.configToProxyUrl (ProxyManager.proxyToConfig W proxy)
               = Some proxy).
  { unfold ProxyManager.proxyToConfig. rewrite Hurl, configToProxyUrl_singleton.
    rewrite bool_decide_eq_true_2 by exact Hscheme.
    destruct proxy; [congruence | reflexivity]. }
  destruct (reportFailure_bans now _ proxy m Hc) as [Hb Hp].
  rewrite available_after_cleanup, Hb, Hp, lookup_insert_eq.
  split.
  - intros [Hin H]. split; [exact Hin|]. apply H. reflexivity.
  - intros [Hin H]. split; [exact Hin|]. intros e [= <-]. exact H.
Qed.

(** A ban of 300 s reported at 0: gone at 300001. *)
Lemma ban_lasts_banTime_witness :
  In "http://a.example:8080"
     (ProxyManager.availableProxies
        (ProxyManager.cleanupBannedProxies 300001
           (ProxyManager.reportFailure 0
              (ProxyManager.proxyToConfig (Examples.always Examples.ok)
                 "http://a.example:8080")
              (ProxyManager.new (ProxyManager.OneProxy "http://a.example:8080")
                 None None)))).
Proof.
  apply (ban_lasts_banTime (Examples.always Examples.ok) 0 300001
           "http://a.example:8080"
           {| protocol := "http:"; hostname := "a.example";
              href := "http://a.example:8080" |}).
  - reflexivity.
  - vm_compute. listed.
  - discriminate.
  - split; [left; reflexivity | vm_compute; reflexivity].
Defined.

(** X21.  The ban misses two kinds of proxy.  For a proxy whose URL parses
    with another protocol than the four, both reports leave the manager as
    it is: it is never banned and its counts never move.  For a proxy that
    does not parse as a URL and starts with neither [http://] nor
    [https://] (a bare host and port), the failure is recorded under the
    proxy with [http://] put before it, so the proxy as listed stays
    without ban. *)
Theorem ban_misses (W : World) (now : Z) (proxy : string) (m : ProxyManager.Manager) :
  (forall url,
     new_URL W proxy = Some url ->
     Str.replace ":" "" (protocol url) ∉ ["http"; "https"; "socks"; "socks5"] ->
     ProxyManager.reportFailure now (ProxyManager.proxyToConfig W proxy) m = m
     /\ ProxyManager.reportSuccess (ProxyManager.proxyToConfig W proxy) m = m)
  /\ (new_URL W proxy = None ->
      Str.startsWith "http://" proxy = false ->
      Str.startsWith "https://" proxy = false ->
      ProxyManager.bannedProxies
        (ProxyManager.reportFailure now (ProxyManager.proxyToConfig W proxy) m) !! proxy
      = ProxyManager.bannedProxies m !! proxy).
Proof.
  split.
  - intros url Hurl Hscheme.
    assert (Hc : ProxyManager.configToProxyUrl (ProxyManager.proxyToConfig W proxy)
                 = None).
    { unfold ProxyManager.proxyToConfig. rewrite Hurl, configToProxyUrl_singleton.
      rewrite bool_decide_eq_false_2 by exact Hscheme. reflexivity. }
    unfold ProxyManager.reportFailure, ProxyManager.reportSuccess. rewrite Hc.
    split; reflexivity.
  - intros Hurl Hhttp Hhttps.
    assert (Hc : ProxyManager.configToProxyUrl (ProxyManager.proxyToConfig W proxy)
                 = Some ("http://" +:+ proxy)).
    { unfold ProxyManager.proxyToConfig. rewrite Hurl, Hhttp, Hhttps.
      rewrite configToProxyUrl_singleton.
      rewrite bool_decide_eq_true_2 by listed. reflexivity. }
    destruct (reportFailure_bans now _ _ m Hc) as [Hb _].
    rewrite Hb. apply lookup_insert_ne.
    intros Heq. apply (f_equal String.length) in Heq.
    change (String.length ("http://" +:+ proxy))
      with (7 + String.length proxy)%nat in Heq.
    lia.
Qed.

(** A [socks4] proxy, in a world that parses its URL. *)
Lemma ban_misses_witness :
  let W := {| new_URL := fun s =>
                if String.eqb s "socks4://a.example:1080"
                then Some {| protocol := "socks4:"; hostname := "a.example"; href := s |}
                else None;
              new_URL_base := fun _ _ => None;
              native_evaluate := fun _ _ => Normal "";
              axios := fun _ _ => TFailure (TransportError "ECONNRESET");
              latency := fun _ => 0;
              brotli_decompress := fun _ => None;
              decorate := fun _ _ cfg => cfg;
              user_agent := fun _ => "" |} in
  let m := ProxyManager.new (ProxyManager.OneProxy "socks4://a.example:1080")
             None None in
  ProxyManager.reportFailure 0
    (ProxyManager.proxyToConfig W "socks4://a.example:1080") m = m.
Proof.
  cbv zeta.
  match goal with
  | |- ProxyManager.reportFailure _ (ProxyManager.proxyToConfig ?W _) ?m = _ =>
      destruct (ban_misses W 0 "socks4://a.example:1080" m) as [H _];
      apply (H {| protocol := "socks4:"; hostname := "a.example";
                  href := "socks4://a.example:1080" |})
  end.
  - reflexivity.
  - vm_compute. not_listed.
Defined.

(** * User agents *)

Section user_agent.
Import UserAgent.

Lemma prop_In {A} (object : JSObject A) (key : option string) (value : A) :
  prop object key = Some value -> exists name, In (name, value) object.
Proof.
  unfold prop. destruct (List.find _ object) as [[name v]|] eqn:Hfind; [|discriminate].
  intros [= <-]. apply find_some in Hfind. exists name. apply Hfind.
Qed.

Lemma browserListing_listed (data : BrowsersData) (userAgent browserType : string) :
  browserListing (default [] (browsers data)) userAgent = Some browserType ->
  listed data userAgent.
Proof.
  unfold browserListing.
  destruct (List.find _ _) as [[b platforms]|] eqn:Hfind; [|discriminate].
  intros _. apply find_some in Hfind. destruct Hfind as [Hin Hex]. simpl in Hex.
  apply existsb_exists in Hex. destruct Hex as ([p uas] & Hp & Hex). simpl in Hex.
  apply existsb_exists in Hex. destruct Hex as (ua & Hua & Heq).
  apply String.eqb_eq in Heq. subst ua.
  exists b, platforms, p, uas. auto.
Qed.

Lemma listed_browserListing (data : BrowsersData) (userAgent : string) :
  browserListing (default [] (browsers data)) userAgent = None ->
  ~ listed data userAgent.
Proof.
  unfold browserListing.
  destruct (List.find _ _) as [entry|] eqn:Hfind; [discriminate|].
  intros _ (b & platforms & p & uas & Hb & Hp & Hua).
  apply (find_none _ _ Hfind) in Hb. simpl in Hb.
  assert (Hex : existsb (fun platformEntry : string * list string =>
                           existsb (String.eqb userAgent) (snd platformEntry))
                        platforms = true).
  { apply existsb_exists. exists (p, uas). split; [exact Hp|]. simpl.
    apply existsb_exists. exists userAgent. split; [exact Hua|].
    apply String.eqb_refl. }
  congruence.
Qed.

Lemma getRandomItem_In {A} (draw : nat -> nat -> nat) (k : nat) (items : list A)
    (item : A) (k' : nat) :
  getRandomItem draw k items = (Some item, k') -> In item items /\ k' = S k.
Proof.
  unfold getRandomItem. intros [= Hn <-]. split; [|reflexivity].
  eapply nth_error_In; eassumption.
Qed.

Lemma getRandomItem_valid {A} (draw : nat -> nat -> nat) (k : nat) (items : list A) :
  (forall k n, (0 < n)%nat -> (draw k n < n)%nat) ->
  (0 < length items)%nat ->
  exists item, getRandomItem draw k items = (Some item, S k).
Proof.
  intros Hdraw Hlen. unfold getRandomItem.
  destruct (nth_error items _) as [item|] eqn:Hn; [eauto|].
  apply nth_error_None in Hn. specialize (Hdraw k _ Hlen). lia.
Qed.

End user_agent.

(** X22.  A custom user agent always wins: when the browser options carry
    a non-empty [custom] string, the constructor returns, whatever the data
    file holds and also when there is none, without a use of [Math.random],
    an instance whose user agent is that string; and when the data does not
    list the string, its cipher suite is the default one. *)
Theorem custom_user_agent_wins (brotli : option bool) (o : UserAgent.BrowserOptions)
    (isMobile : bool) (file : option UserAgent.BrowsersData)
    (draw : nat -> nat -> nat) (k : nat) (userAgent : string) :
  UserAgent.o_custom o = Some userAgent ->
  userAgent <> "" ->
  exists this,
    UserAgent.new (UserAgent.Options brotli (UserAgent.BrowserObject o)) isMobile file
      draw k = Normal (this, k)
    /\ UserAgent.getUserAgent this = Some userAgent
    /\ (~ UserAgent.listed (UserAgent.readBrowserData file) userAgent ->
        UserAgent.getCipherSuite this = UserAgent.getDefaultCipherSuite).
Proof.
  intros Hcustom Hne. unfold UserAgent.new, UserAgent.loadUserAgent.
  cbn [UserAgent.custom UserAgent.browsersData]. rewrite Hcustom.
  destruct userAgent as [|a rest]; [congruence|]. cbn [UserAgent.nonempty default].
  destruct (UserAgent.browserListing _ _) as [browserType|] eqn:Hlisting.
  - eexists. split; [reflexivity|]. split; [reflexivity|].
    intros Hnot. exfalso. apply Hnot.
    eapply browserListing_listed. exact Hlisting.
  - eexists. split; [reflexivity|]. split; reflexivity.
Qed.

Lemma custom_user_agent_wins_witness :
  exists this,
    UserAgent.new
      (UserAgent.Options None
         (UserAgent.BrowserObject
            {| UserAgent.o_browser := None; UserAgent.o_platform := None;
               UserAgent.o_mobile := None; UserAgent.o_desktop := None;
               UserAgent.o_custom := Some "curl/8.0" |}))
      false None (fun _ _ => 0%nat) 0
    = Normal (this, 0%nat)
    /\ UserAgent.getUserAgent this = Some "curl/8.0"
    /\ (~ UserAgent.listed (UserAgent.readBrowserData None) "curl/8.0" ->
        UserAgent.getCipherSuite this = UserAgent.getDefaultCipherSuite).
Proof.
  apply custom_user_agent_wins; [reflexivity | discriminate].
Defined.

(** X23.  Without data there is no instance.  The constructor throws
    exactly when no non-empty custom user agent is given and the data read
    has no [browsers] entry, as when no data file is found: then the
    lookup of the browser in the missing entry is a [TypeError], whatever
    [Math.random] gives, and the fallback user agent is not reached. *)
Theorem constructor_needs_data (options : UserAgent.Argument) (isMobile : bool)
    (file : option UserAgent.BrowsersData) (draw : nat -> nat -> nat) (k : nat) :
  let custom :=
    match options with
    | UserAgent.Options _ (UserAgent.BrowserObject o) => UserAgent.o_custom o
    | _ => None
    end in
  (exists e, UserAgent.new options isMobile file draw k = Abrupt e)
  <-> UserAgent.nonempty custom = false
      /\ UserAgent.browsers (UserAgent.readBrowserData file) = None.
Proof.
  cbv zeta.
  assert (Hload : forall this : UserAgent.Instance,
            (exists e, UserAgent.loadUserAgent draw k this = Abrupt e)
            <-> UserAgent.nonempty (UserAgent.custom this) = false
                /\ UserAgent.browsers (UserAgent.browsersData this) = None).
  { intros this. unfold UserAgent.loadUserAgent.
    destruct (UserAgent.nonempty (UserAgent.custom this)).
    - destruct (UserAgent.browserListing _ _);
        (split; [intros [e He]; discriminate | intros [? _]; discriminate]).
    - destruct (UserAgent.browsers (UserAgent.browsersData this)) as [bs|].
      + repeat (destruct_scrutinee; cbn beta iota);
          (split; [intros [e He]; discriminate | intros [_ ?]; discriminate]).
      + repeat (destruct_scrutinee; cbn beta iota);
          (split; [auto | intros _; eexists; reflexivity]). }
  unfold UserAgent.new.
  destruct options as [name | brotli [name | o |]]; rewrite Hload; reflexivity.
Qed.

(** X24.  With data that has a [browsers] entry and no custom user agent,
    [loadUserAgent] returns, for every course of [Math.random], and the
    user agent it sets is one the data lists or one of the three fallback
    user agents; it uses [Math.random] at most four times. *)
Theorem user_agent_listed_or_fallback (draw : nat -> nat -> nat) (k : nat)
    (this : UserAgent.Instance)
    (browserTypes : UserAgent.JSObject (UserAgent.JSObject (list string))) :
  (forall k n, (0 < n)%nat -> (draw k n < n)%nat) ->
  UserAgent.nonempty (UserAgent.custom this) = false ->
  UserAgent.browsers (UserAgent.browsersData this) = Some browserTypes ->
  exists this' k' userAgent,
    UserAgent.loadUserAgent draw k this = Normal (this', k')
    /\ UserAgent.getUserAgent this' = Some userAgent
    /\ (UserAgent.listed (UserAgent.browsersData this) userAgent
        \/ In userAgent UserAgent.fallbackUserAgents)
    /\ (k <= k' <= k + 4)%nat.
Proof.
  intros Hdraw Hcustom Hdata. unfold UserAgent.loadUserAgent.
  rewrite Hcustom, Hdata. cbn [default].
  destruct (if UserAgent.nonempty (UserAgent.browser this) && _ then _ else _)
    as [browserType k1] eqn:Hb.
  assert (Hk1 : (k <= k1 <= k + 1)%nat).
  { destruct (UserAgent.nonempty (UserAgent.browser this) && _);
      injection Hb as _ <-; lia. }
  clear Hb.
  destruct (if UserAgent.nonempty (UserAgent.platform this) && _ then _ else _)
    as [platformType k2] eqn:Hp.
  assert (Hk2 : (k1 <= k2 <= k1 + 1)%nat).
  { destruct (UserAgent.nonempty (UserAgent.platform this) && _);
      injection Hp as _ <-; lia. }
  clear Hp.
  destruct (if negb (UserAgent.nonempty platformType) && _ then _ else _)
    as [platformType' k3] eqn:Hp'.
  assert (Hk3 : (k2 <= k3 <= k2 + 1)%nat).
  { destruct (negb (UserAgent.nonempty platformType) && _);
      injection Hp' as _ <-; lia. }
  clear Hp'.
  destruct (0 <? length _)%nat eqn:Hlen.
  - apply Nat.ltb_lt in Hlen.
    destruct (getRandomItem_valid draw k3 _ Hdraw Hlen) as (userAgent & Hitem).
    rewrite Hitem. eexists; eexists; exists userAgent.
    split; [reflexivity|]. split; [reflexivity|]. split; [|lia].
    left. apply getRandomItem_In in Hitem. destruct Hitem as [Hin _].
    destruct (UserAgent.prop browserTypes browserType) as [platforms|] eqn:Hplatforms;
      [|destruct Hin].
    destruct (UserAgent.prop platforms platformType') as [userAgents|] eqn:Huas;
      [|destruct Hin].
    simpl in Hin.
    apply prop_In in Hplatforms. destruct Hplatforms as (b & Hb).
    apply prop_In in Huas. destruct Huas as (p & Hp).
    exists b, platforms, p, userAgents. rewrite Hdata. auto.
  - unfold UserAgent.getFallbackUserAgent.
    destruct (getRandomItem_valid draw k3 UserAgent.fallbackUserAgents Hdraw)
      as (userAgent & Hitem); [simpl; lia|].
    rewrite Hitem. eexists; eexists; exists userAgent.
    split; [reflexivity|]. split; [reflexivity|]. split; [|lia].
    right. apply getRandomItem_In in Hitem. apply Hitem.
Qed.

(** No data file, no custom user agent: [new UserAgent()] throws. *)
Lemma constructor_needs_data_witness :
  exists e,
    UserAgent.new (UserAgent.Options None UserAgent.NoBrowser) false None
      (fun _ _ => 0%nat) 0 = Abrupt e.
Proof.
  apply (constructor_needs_data (UserAgent.Options None UserAgent.NoBrowser) false None
           (fun _ _ => 0%nat) 0).
  split; reflexivity.
Defined.

(** Data with one browser on two platforms, and the first item at every
    draw. *)
Lemma user_agent_listed_or_fallback_witness :
  let data :=
    {| UserAgent.browsers :=
         Some [("chrome",
                [("windows", ["Mozilla/5.0 (Windows NT 10.0; Win64; x64) Chrome/90.0"]);
                 ("android", ["Mozilla/5.0 (Linux; Android 10) Chrome/90.0 Mobile"])])];
       UserAgent.cipherSuiteOf := None |} in
  let this :=
    {| UserAgent.userAgentHeader := Some ""; UserAgent.cipherSuite := [];
       UserAgent.browser := Some "chrome"; UserAgent.platform := None;
       UserAgent.mobile := false; UserAgent.desktop := true;
       UserAgent.custom := None; UserAgent.allowBrotli := false;
       UserAgent.browsersData := data |} in
  exists this' k' userAgent,
    UserAgent.loadUserAgent (fun _ _ => 0%nat) 0 this = Normal (this', k')
    /\ UserAgent.getUserAgent this' = Some userAgent
    /\ (UserAgent.listed data userAgent \/ In userAgent UserAgent.fallbackUserAgents)
    /\ (0 <= k' <= 0 + 4)%nat.
Proof.
  cbv zeta.
  eapply user_agent_listed_or_fallback.
  - intros k n Hn. exact Hn.
  - reflexivity.
  - reflexivity.
Defined.

(** * TLS cipher rotation *)

(** X25.  A rotation over more than one cipher counts one up and selects
    a window of the cipher suite of the user agent that never runs off its
    end: [min 8 n] ciphers in a row.  With at most eight ciphers the window
    is the whole suite, so that rotating from what the constructor leaves
    changes nothing and builds no agent.  Over at most one cipher nothing
    happens at all. *)
Theorem cipher_rotation_window (availableCiphers : list string)
    (this : CipherRotation.Tls) :
  let n := length availableCiphers in
  let this' := CipherRotation._rotateTlsCipherSuite availableCiphers this in
  ((n <= 1)%nat -> this' = this)
  /\ ((1 < n)%nat ->
      CipherRotation._cipherRotationCount this'
      = S (CipherRotation._cipherRotationCount this)
      /\ exists start selected,
           (start + Nat.min 8 n <= n)%nat
           /\ selected = firstn (Nat.min 8 n) (skipn start availableCiphers)
           /\ length selected = Nat.min 8 n
           /\ CipherRotation.cipherSuite this' = Some (Str.join ":" selected)
           /\ ((n <= 8)%nat -> selected = availableCiphers))
  /\ ((1 < n <= 8)%nat ->
      CipherRotation.agents
        (CipherRotation._rotateTlsCipherSuite availableCiphers
           (CipherRotation.initial availableCiphers)) = 1%nat).
Proof.
  cbv zeta. unfold CipherRotation._rotateTlsCipherSuite.
  set (n := length availableCiphers).
  assert (Hwindow :
            forall count,
              (1 < n)%nat ->
              let start := ((count mod n) mod (n - Nat.min 8 n + 1))%nat in
              (start + Nat.min 8 n <= n)%nat
              /\ CipherRotation.slice start (start + Nat.min 8 n) availableCiphers
                 = firstn (Nat.min 8 n) (skipn start availableCiphers)
              /\ ((n <= 8)%nat ->
                  firstn (Nat.min 8 n) (skipn start availableCiphers)
                  = availableCiphers)).
  { intros count Hn. cbv zeta.
    assert (Hstart : ((count mod n) mod (n - Nat.min 8 n + 1) < n - Nat.min 8 n + 1)%nat)
      by (apply Nat.mod_upper_bound; lia).
    split; [lia|]. split.
    - unfold CipherRotation.slice. f_equal. lia.
    - intros Hle.
      replace (n - Nat.min 8 n + 1)%nat with 1%nat in * by lia.
      rewrite Nat.mod_1_r. simpl skipn.
      replace (Nat.min 8 n) with n by lia. apply firstn_all. }
  split; [|split].
  - intros Hn. destruct (1 <? n)%nat eqn:H1; [apply Nat.ltb_lt in H1; lia|].
    reflexivity.
  - intros Hn.
    replace (1 <? n)%nat with true by (symmetry; apply Nat.ltb_lt; exact Hn).
    destruct (Hwindow (S (CipherRotation._cipherRotationCount this)) Hn)
      as (Hfit & Hslice & Hall).
    rewrite Hslice.
    assert (Hlen : length (firstn (Nat.min 8 n)
                             (skipn (S (CipherRotation._cipherRotationCount this) mod n
                                     mod (n - Nat.min 8 n + 1)) availableCiphers))
                   = Nat.min 8 n).
    { rewrite length_firstn, length_skipn. fold n. lia. }
    destruct (bool_decide _) eqn:Hsame.
    + apply bool_decide_eq_true in Hsame. split; [reflexivity|].
      eexists; eexists. split; [exact Hfit|]. split; [reflexivity|].
      split; [exact Hlen|]. split; [symmetry; exact Hsame | exact Hall].
    + split; [reflexivity|].
      eexists; eexists. split; [exact Hfit|]. split; [reflexivity|].
      split; [exact Hlen|]. split; [reflexivity | exact Hall].
  - intros [Hn H8].
    replace (1 <? n)%nat with true by (symmetry; apply Nat.ltb_lt; exact Hn).
    destruct (Hwindow (S (CipherRotation._cipherRotationCount
                            (CipherRotation.initial availableCiphers))) Hn)
      as (_ & Hslice & Hall).
    rewrite Hslice, (Hall H8). simpl.
    rewrite bool_decide_eq_true_2 by reflexivity. reflexivity.
Qed.

(** The five ciphers of a browser entry, rotated once from the start. *)
Lemma cipher_rotation_window_witness :
  let ciphers := ["TLS_AES_128_GCM_SHA256"; "TLS_AES_256_GCM_SHA384";
                  "TLS_CHACHA20_POLY1305_SHA256"; "ECDHE-ECDSA-AES128-GCM-SHA256";
                  "ECDHE-RSA-AES128-GCM-SHA256"] in
  CipherRotation.agents
    (CipherRotation._rotateTlsCipherSuite ciphers (CipherRotation.initial ciphers))
  = 1%nat.
Proof.
  cbv zeta.
  match goal with
  | |- CipherRotation.agents (CipherRotation._rotateTlsCipherSuite ?c ?t) = _ =>
      destruct (cipher_rotation_window c t) as (_ & _ & H); apply H
  end.
  simpl. lia.
Defined.

(** * The native interpreter *)

Section native.
Import Regex NativeInterpreter.

Lemma lit_i_prefix (p : string) :
  forall s c k x,
    run (lit_i p) s c k = Some x ->
    Str.startsWith (Str.toLowerCase p) (Str.toLowerCase s) = true.
Proof.
  induction p as [|a p IH]; intros s c k x Hrun; [reflexivity|].
  simpl in Hrun. destruct s as [|b s]; [discriminate|].
  destruct (Ascii.eqb (Str.lower_ascii a) (Str.lower_ascii b)) eqn:Hab;
    [|discriminate].
  cbn [Str.toLowerCase]. rewrite startsWith_cons, Hab. eapply IH. exact Hrun.
Qed.

Lemma search_lit_i (p : string) (r : regex) (s : string) :
  forall i m,
    search (Cat (lit_i p) r) s i = Some m ->
    Str.includes (Str.toLowerCase p) (Str.toLowerCase s) = true.
Proof.
  induction s as [|b s IH]; intros i m Hs.
  - simpl in Hs.
    destruct (run (lit_i p) "" [] _) as [[rest c]|] eqn:Hrun; [|discriminate].
    apply lit_i_prefix in Hrun. simpl. simpl in Hrun. rewrite Hrun. reflexivity.
  - cbn [search] in Hs.
    destruct (run (Cat (lit_i p) r) (String b s) [] _) as [[rest c]|] eqn:Hrun.
    + simpl in Hrun. apply lit_i_prefix in Hrun.
      cbn [Str.toLowerCase Str.includes] in *. rewrite Hrun. reflexivity.
    + apply IH in Hs. cbn [Str.toLowerCase Str.includes].
      rewrite Hs. destruct (Str.startsWith _ _); reflexivity.
Qed.

Lemma extractChallenge_needs_marker (body : string) :
  Str.includes "settimeout(function(){" (Str.toLowerCase body) = false ->
  extractChallenge body = None.
Proof.
  intros Hno. unfold extractChallenge, exec.
  destruct (search re_challenge body 0) as [m|] eqn:Hs; [|reflexivity].
  apply search_lit_i in Hs.
  change (Str.toLowerCase "setTimeout(function(){") with "settimeout(function(){" in Hs.
  congruence.
Qed.

End native.

(** X26.  On a page that does not hold [setTimeout(function(){], in any
    letter case, the native interpreter does not get to evaluate anything:
    its [solveChallenge] rejects with the message that the challenge could
    not be extracted, and so does the interpreter the factory gives for
    [native] and for any name it does not know; and the resolver, when it
    finds the challenge form of such a page, throws a [CloudflareIUAMError]
    that carries that message. *)
Theorem native_needs_script (evaluate : string -> Completion (option string))
    (W : World) (body domain : string) :
  Str.includes "settimeout(function(){" (Str.toLowerCase body) = false ->
  NativeInterpreter.solveChallenge evaluate body domain
  = Abrupt (GenericError
              "Failed to solve challenge: Could not extract challenge from page")
  /\ (forall name,
        ~ In (Str.toLowerCase name) ["js2py"; "nodejs"; "v8"; "chakracore"] ->
        Interpreters.settled
          (Interpreters.solveChallenge (NativeInterpreter.world_of evaluate W)
             (Interpreters.createInterpreter name) body domain)
        = NativeInterpreter.solveChallenge evaluate body domain)
  /\ (forall url formMatch parsedUrl,
        Regex.exec Cloudflare.re_form body = Some formMatch ->
        new_URL W url = Some parsedUrl ->
        Cloudflare.iuamChallengeResponse (NativeInterpreter.world_of evaluate W)
          body url "native"
        = Abrupt (CloudflareIUAMError
                    "Unable to parse Cloudflare anti-bots page: Failed to solve challenge: Could not extract challenge from page")).
Proof.
  intros Hno.
  assert (Hsolve : NativeInterpreter.solveChallenge evaluate body domain
                   = Abrupt (GenericError
                       "Failed to solve challenge: Could not extract challenge from page")).
  { unfold NativeInterpreter.solveChallenge, NativeInterpreter.attempt.
    rewrite (extractChallenge_needs_marker body Hno). reflexivity. }
  split; [exact Hsolve|]. split.
  - intros name Hname. unfold Interpreters.createInterpreter.
    destruct (String.eqb (Str.toLowerCase name) "js2py") eqn:H1;
      [apply String.eqb_eq in H1; exfalso; apply Hname; rewrite H1; simpl; tauto|].
    destruct (String.eqb (Str.toLowerCase name) "nodejs") eqn:H2;
      [apply String.eqb_eq in H2; exfalso; apply Hname; rewrite H2; simpl; tauto|].
    destruct (String.eqb (Str.toLowerCase name) "v8") eqn:H3;
      [apply String.eqb_eq in H3; exfalso; apply Hname; rewrite H3; simpl; tauto|].
    destruct (String.eqb (Str.toLowerCase name) "chakracore") eqn:H4;
      [apply String.eqb_eq in H4; exfalso; apply Hname; rewrite H4; simpl; tauto|].
    reflexivity.
  - intros url formMatch parsedUrl Hform Hurl.
    unfold Cloudflare.iuamChallengeResponse. rewrite Hform.
    destruct (exec_captures Cloudflare.re_form body formMatch 1 Hform) as [form Hf];
      [simpl; tauto|].
    destruct (exec_captures Cloudflare.re_form body formMatch 2 Hform) as [uuid Hu];
      [simpl; tauto|].
    rewrite Hf, Hu. unfold Cloudflare.parse_URL.
    cbn [NativeInterpreter.world_of new_URL]. rewrite Hurl.
    cbn [Cloudflare.defined mbind mret Completion_bind Completion_ret].
    change (Interpreters.settled
              (Interpreters.solveChallenge (NativeInterpreter.world_of evaluate W)
                 (Interpreters.createInterpreter "native") body (hostname parsedUrl)))
      with (NativeInterpreter.solveChallenge evaluate body (hostname parsedUrl)).
    unfold NativeInterpreter.solveChallenge, NativeInterpreter.attempt.
    rewrite (extractChallenge_needs_marker body Hno). reflexivity.
Qed.

(** The example challenge page holds no script. *)
Lemma native_needs_script_witness :
  Cloudflare.iuamChallengeResponse
    (NativeInterpreter.world_of (fun _ => Normal None) (Examples.always Examples.ok))
    Examples.iuam_page Examples.page_url "native"
  = Abrupt (CloudflareIUAMError
              "Unable to parse Cloudflare anti-bots page: Failed to solve challenge: Could not extract challenge from page").
Proof.
  destruct (Regex.exec Cloudflare.re_form Examples.iuam_page) as [formMatch|] eqn:Hform;
    [|vm_compute in Hform; discriminate].
  destruct (native_needs_script (fun _ => Normal None) (Examples.always Examples.ok)
              Examples.iuam_page "example.com") as (_ & _ & H).
  - vm_compute. reflexivity.
  - apply (H Examples.page_url formMatch
             {| protocol := "https:"; hostname := "example.com";
                href := Examples.page_url |} Hform).
    reflexivity.
Defined.

(** * Stealth mode *)

(** From a name outside a list of literals to its being outside a part of
    that list. *)
Ltac among H :=
  let Hin := fresh "Hin" in
  intros Hin; apply H;
  repeat (apply elem_of_cons in Hin; destruct Hin as [->|Hin]; [listed|]);
  inversion Hin.

Section stealth.
Import StealthMode.
Context (R : Random) (origin : string -> option (string * string)).

(** A header that a step does not write is as it was. *)
Ltac kept H :=
  repeat destruct_scrutinee; cbn [fst];
  unfold Cloudflare.set_header; repeat destruct_scrutinee;
  rewrite ?lookup_insert_ne, ?lookup_delete_ne
    by (let E := fresh in intros E; apply H; rewrite <- E; listed);
  reflexivity.

Lemma randomReferer_keeps (protocol host name : string) (h : gmap string string)
    (k : nat) :
  name ∉ ["Referer"] ->
  (randomReferer R protocol host h k).1 !! name = h !! name.
Proof. intros H. unfold randomReferer. kept H. Qed.

Lemma randomReferer_keeps_given (protocol host referer : string)
    (h : gmap string string) (k : nat) :
  h !! "Referer" = Some referer -> referer <> "" ->
  (randomReferer R protocol host h k).1 = h.
Proof.
  intros Hr Hne. unfold randomReferer. rewrite Hr.
  destruct referer; [congruence|]. destruct (less_than R k 30); reflexivity.
Qed.

Lemma randomAccept_keeps (name : string) (h : gmap string string) (k : nat) :
  name ∉ ["Accept"] -> (randomAccept R h k).1 !! name = h !! name.
Proof. intros H. unfold randomAccept. kept H. Qed.

Lemma randomLanguage_keeps (name : string) (h : gmap string string) (k : nat) :
  name ∉ ["Accept-Language"] -> (randomLanguage R h k).1 !! name = h !! name.
Proof. intros H. unfold randomLanguage. kept H. Qed.

Lemma randomDNT_keeps (name : string) (h : gmap string string) (k : nat) :
  name ∉ ["DNT"] -> (randomDNT R h k).1 !! name = h !! name.
Proof. intros H. unfold randomDNT. kept H. Qed.

Lemma randomSecFetch_keeps (method name : string) (h : gmap string string) (k : nat) :
  name ∉ ["Sec-Fetch-Dest"; "Sec-Fetch-Mode"; "Sec-Fetch-Site"; "Sec-Fetch-User"] ->
  (randomSecFetch R method h k).1 !! name = h !! name.
Proof. intros H. unfold randomSecFetch. kept H. Qed.

Lemma applyBrowserQuirks_keeps (name : string) (h : gmap string string) (k : nat) :
  name ∉ ["Accept"; "X-Client-Data"] ->
  (applyBrowserQuirks R h k).1 !! name = h !! name.
Proof.
  intros H. unfold applyBrowserQuirks, generateRandomChromiumClientData. kept H.
Qed.

Lemma applyRandomizedHeaders_keeps (this : Instance) (url method : string)
    (h h' : gmap string string) (k k' : nat) :
  applyRandomizedHeaders R origin this url method h k = Normal (h', k') ->
  (forall name,
     name ∉ ["Referer"; "Accept"; "Accept-Language"; "DNT"; "Sec-Fetch-Dest";
             "Sec-Fetch-Mode"; "Sec-Fetch-Site"; "Sec-Fetch-User"] ->
     h' !! name = h !! name)
  /\ (forall referer,
        h !! "Referer" = Some referer -> referer <> "" ->
        h' !! "Referer" = Some referer).
Proof.
  unfold applyRandomizedHeaders.
  destruct (origin url) as [[protocol host]|].
  - destruct (randomReferer R protocol host h k) as [h1 k1] eqn:E1.
    destruct (randomAccept R h1 k1) as [h2 k2] eqn:E2.
    destruct (randomLanguage R h2 k2) as [h3 k3] eqn:E3.
    destruct (randomDNT R h3 k3) as [h4 k4] eqn:E4.
    destruct (randomSecFetch R method h4 k4) as [h5 k5] eqn:E5.
    intros [= <- <-].
    assert (H1 := fun name => randomReferer_keeps protocol host name h k).
    assert (H1' := fun referer => randomReferer_keeps_given protocol host referer h k).
    assert (H2 := fun name => randomAccept_keeps name h1 k1).
    assert (H3 := fun name => randomLanguage_keeps name h2 k2).
    assert (H4 := fun name => randomDNT_keeps name h3 k3).
    assert (H5 := fun name => randomSecFetch_keeps method name h4 k4).
    rewrite E1 in H1, H1'. rewrite E2 in H2. rewrite E3 in H3. rewrite E4 in H4.
    rewrite E5 in H5. cbn [fst] in *.
    split.
    + intros name Hname.
      rewrite H5 by among Hname. rewrite H4 by among Hname.
      rewrite H3 by among Hname. rewrite H2 by among Hname.
      apply H1. among Hname.
    + intros referer Hr Hne.
      rewrite H5 by not_listed. rewrite H4 by not_listed.
      rewrite H3 by not_listed. rewrite H2 by not_listed.
      rewrite (H1' referer Hr Hne). exact Hr.
  - unfold debug. destruct (scraper this); [|discriminate].
    intros [= <- <-]. split; [reflexivity | auto].
Qed.

End stealth.

(** X27.  With a scraper behind it, [applyStealthTechniques] returns for
    every request and every course of [Math.random], and it changes
    nothing of the request configuration but headers out of a fixed set of
    nine: a header outside that set (a cookie, an authorization, the user
    agent) is what the caller gave, and so are method, URL, data, redirect
    limit, status validation and proxy.  A non-empty [Referer] that the
    caller gave is kept too. *)
Theorem stealth_writes_only_its_headers (R : StealthMode.Random)
    (origin : string -> option (string * string)) (this : StealthMode.Instance)
    (method url : string) (config : ReqConfig) (k : nat) (debug : bool) :
  StealthMode.scraper this = Some debug ->
  exists config' k',
    StealthMode.applyStealthTechniques R origin this method url config k
    = Normal (config', k')
    /\ config' = Cloudflare.with_headers (c_headers config') config
    /\ (forall name,
          name ∉ StealthMode.written ->
          c_headers config' !! name = c_headers config !! name)
    /\ (forall referer,
          c_headers config !! "Referer" = Some referer -> referer <> "" ->
          c_headers config' !! "Referer" = Some referer).
Proof.
  intros Hscraper. unfold StealthMode.applyStealthTechniques.
  unfold StealthMode.applyHumanLikeDelay, StealthMode.debug. rewrite Hscraper.
  set (k1 := if StealthMode.humanLikeDelays this then S k else k).
  assert (Hk1 : (if StealthMode.humanLikeDelays this
                 then _ ← Normal debug; mret (S k) else mret k) = Normal k1)
    by (unfold k1; destruct (StealthMode.humanLikeDelays this); reflexivity).
  rewrite Hk1. cbn [mbind Completion_bind].
  assert (Hheaders :
            exists h1 k2,
              (if StealthMode.randomizeHeaders this
               then StealthMode.applyRandomizedHeaders R origin this url method
                      (c_headers config) k1
               else mret (c_headers config, k1)) = Normal (h1, k2)
              /\ (forall name,
                    name ∉ StealthMode.written ->
                    h1 !! name = c_headers config !! name)
              /\ (forall referer,
                    c_headers config !! "Referer" = Some referer -> referer <> "" ->
                    h1 !! "Referer" = Some referer)).
  { destruct (StealthMode.randomizeHeaders this).
    - destruct (StealthMode.applyRandomizedHeaders R origin this url method
                  (c_headers config) k1) as [[h1 k2]|e] eqn:E.
      + exists h1, k2. split; [reflexivity|].
        apply applyRandomizedHeaders_keeps in E. destruct E as [E E'].
        split; [|exact E'].
        intros name Hname. apply E. unfold StealthMode.written in Hname. among Hname.
      + exfalso. revert E.
        unfold StealthMode.applyRandomizedHeaders, StealthMode.debug.
        rewrite Hscraper. repeat destruct_scrutinee; discriminate.
    - exists (c_headers config), k1. split; [reflexivity | auto]. }
  destruct Hheaders as (h1 & k2 & -> & Hkept & Hreferer). cbn [mbind Completion_bind].
  destruct (if StealthMode.browserQuirks this then _ else _) as [h2 k3] eqn:Hq.
  eexists; eexists. split; [reflexivity|]. split; [reflexivity|].
  cbn [Cloudflare.with_headers c_headers].
  destruct (StealthMode.browserQuirks this).
  - assert (H2 := fun name => applyBrowserQuirks_keeps R name h1 k2).
    rewrite Hq in H2. cbn [fst] in H2. split.
    + intros name Hname. rewrite H2; [apply Hkept; exact Hname|].
      unfold StealthMode.written in Hname. among Hname.
    + intros referer Hr Hne. rewrite H2 by not_listed. apply Hreferer; assumption.
  - injection Hq as <- _. split; assumption.
Qed.

(** A request with a cookie, through the stealth mode of a scraper, with
    every draw of [Math.random] below its threshold. *)
Lemma stealth_writes_only_its_headers_witness :
  exists config' k',
    StealthMode.applyStealthTechniques
      {| StealthMode.less_than := fun _ _ => true;
         StealthMode.floor_times := fun _ _ => 0%nat |}
      (fun _ => Some ("https:", "example.com"))
      (StealthMode.new (StealthMode.Scraper false)) "GET" Examples.page_url
      (Cloudflare.with_headers {[ "Cookie" := "session=1" ]} empty_config) 0
    = Normal (config', k')
    /\ c_headers config' !! "Cookie" = Some "session=1".
Proof.
  destruct (stealth_writes_only_its_headers
              {| StealthMode.less_than := fun _ _ => true;
                 StealthMode.floor_times := fun _ _ => 0%nat |}
              (fun _ => Some ("https:", "example.com"))
              (StealthMode.new (StealthMode.Scraper false)) "GET" Examples.page_url
              (Cloudflare.with_headers {[ "Cookie" := "session=1" ]} empty_config) 0
              false eq_refl)
    as (config' & k' & Heq & _ & Hkept & _).
  exists config', k'. split; [exact Heq|].
  rewrite Hkept; [reflexivity|]. unfold StealthMode.written. not_listed.
Defined.

(** X28.  A stealth mode built without a scraper (from nothing, or from
    an options object that has one of its properties) cannot apply its
    techniques: the instance is created with human-like delays on, and the
    delay step reads the [debug] flag of the scraper that is not there, so
    [applyStealthTechniques] throws a [TypeError] for every request. *)
Theorem stealth_without_scraper_throws (R : StealthMode.Random)
    (origin : string -> option (string * string))
    (scraperOrOptions : StealthMode.Argument) (method url : string)
    (config : ReqConfig) (k : nat) :
  match scraperOrOptions with
  | StealthMode.Nothing => True
  | StealthMode.Options delays userAgent fingerprint =>
      is_Some delays \/ is_Some userAgent \/ is_Some fingerprint
  | StealthMode.Scraper _ => False
  end ->
  StealthMode.applyStealthTechniques R origin (StealthMode.new scraperOrOptions)
    method url config k
  = Abrupt (TypeError "Cannot read properties of undefined (reading 'debug')").
Proof.
  destruct scraperOrOptions as [|[delays|] [userAgent|] [fingerprint|]|debug];
    intros H; try reflexivity; try contradiction.
  destruct H as [[? H]|[[? H]|[? H]]]; discriminate.
Qed.

Lemma stealth_without_scraper_throws_witness :
  StealthMode.applyStealthTechniques
    {| StealthMode.less_than := fun _ _ => false;
       StealthMode.floor_times := fun _ _ => 0%nat |}
    (fun _ => None)
    (StealthMode.new (StealthMode.Options None (Some true) None))
    "GET" Examples.page_url empty_config 0
  = Abrupt (TypeError "Cannot read properties of undefined (reading 'debug')").
Proof.
  apply stealth_without_scraper_throws. right. left. eexists. reflexivity.
Defined.

(** * A challenge, solved *)

(** A timer set from a falsy number of seconds takes the minimum of one
    millisecond. *)
Lemma falsy_delay_timer (x : float) :
  JSNumber.falsy x = true -> Timers.duration (x * 1000)%float = 1.
Proof.
  unfold JSNumber.falsy, is_nan. intros H.
  assert (Hx : x = 0%float \/ x = (-0)%float \/ x = nan).
  { rewrite <- (SF2Prim_Prim2SF x). rewrite !FloatAxioms.eqb_spec in H.
    destruct (Prim2SF x) as [[|] | [|] | | sign m e] eqn:E;
      try (vm_compute in H; discriminate H); auto.
    exfalso. revert H.
    change (Prim2SF 0) with (S754_zero false).
    unfold SFeqb, SFcompare.
    rewrite Z.compare_refl, Pos.compare_cont_refl.
    destruct sign; discriminate. }
  destruct Hx as [-> | [-> | ->]]; vm_compute; reflexivity.
Qed.

(** X29.  The wait before the answer is submitted.  On the JavaScript
    branch of [challengeResponse], with a body from which the answer is
    built: a delay the instance holds (configured, or kept from an earlier
    challenge) that is neither zero nor [NaN] sets the timer, whatever the
    page says; with no such delay, the number the page gives after
    [submit();], divided by 1000, sets the timer and is kept in the
    instance, so that later challenges wait the same time; and with
    neither, the timer is set for nothing and takes its minimum of 1 ms.
    The timer is set for the seconds times 1000, a product in binary64 that
    the timer truncates, and takes 1 ms when that is below 1 or above
    2147483647. *)
Theorem challenge_delay (W : World) (O : Options) request
    (resp : Response) (config : ReqConfig) (s : State)
    (body : string) (submitUrl : Cloudflare.ChallengeResponse) (parsedUrl : URL) :
  (exists v, Cloudflare.isCaptchaChallenge resp = Normal v /\ truthy v = false) ->
  data_text (data resp) = Normal body ->
  Cloudflare.iuamChallengeResponse W body
    (Cloudflare.or_default (c_url (resp_config resp)) "") (interpreter O)
  = Normal submitUrl ->
  new_URL W (Cloudflare.or_default (c_url (resp_config resp)) "") = Some parsedUrl ->
  let submit s1 :=
    (challengeResponse ←
       request (Some "POST") (Cloudflare.cr_url submitUrl)
               (Cloudflare.challengeConfig resp config parsedUrl submitUrl);
     Cloudflare.after_submit W request resp config submitUrl challengeResponse) s1 in
  let timer (seconds : float) (s1 : State) :=
    let ms := Timers.duration (seconds * 1000)%float in
    advance ms (EvSleep ms) s1 in
  (forall held,
     delay s = Some held -> JSNumber.falsy held = false ->
     Cloudflare.challengeResponse W O request resp config s
     = submit (timer held s))
  /\ (forall delayMatch digits,
        Cloudflare.no_delay (delay s) = true ->
        Regex.exec Cloudflare.re_delay body = Some delayMatch ->
        Regex.group 1 delayMatch = Some digits -> digits <> "" ->
        let seconds := (Cloudflare.parseFloat digits / 1000)%float in
        is_nan seconds = false ->
        Cloudflare.challengeResponse W O request resp config s
        = submit (timer seconds (set_delay (Some seconds) s)))
  /\ (Cloudflare.no_delay (delay s) = true ->
      Regex.exec Cloudflare.re_delay body = None ->
      Cloudflare.challengeResponse W O request resp config s
      = submit (advance 1 (EvSleep 1) s)).
Proof.
  intros (v & Hcap & Hv) Hbody Hsubmit Hurl. cbv zeta.
  assert (Hbranch : Cloudflare.challengeResponse W O request resp config s
                    = Cloudflare.iuamResponse W O request resp config s).
  { unfold Cloudflare.challengeResponse. rewrite Hcap.
    unfold mbind at 1, M_bind, lift, mret, M_ret. rewrite Hv. reflexivity. }
  rewrite Hbranch. clear Hbranch.
  unfold Cloudflare.iuamResponse, Cloudflare.parse_URL. unfold_m.
  rewrite Hbody, Hsubmit, Hurl. cbn beta iota.
  split; [|split].
  - intros held Hheld Hne. rewrite Hheld.
    unfold Cloudflare.no_delay. rewrite Hne. cbn beta iota. rewrite Hheld.
    reflexivity.
  - intros delayMatch digits Hnone Hmatch Hgroup Hne Hnan.
    rewrite Hnone, Hmatch, Hgroup.
    destruct digits as [|a digits]; [congruence|].
    cbn [Cloudflare.first_truthy]. cbn beta iota zeta. rewrite Hnan. reflexivity.
  - intros Hnone Hmatch. rewrite Hnone, Hmatch. cbn beta iota.
    assert (Htimer : Timers.duration (Cloudflare.seconds (delay s) * 1000)%float = 1).
    { unfold Cloudflare.no_delay in Hnone. unfold Cloudflare.seconds.
      destruct (delay s) as [x|]; [apply falsy_delay_timer, Hnone|].
      vm_compute. reflexivity. }
    rewrite Htimer. reflexivity.
Qed.

(** The example challenge page, on an instance that holds a delay of 5 s. *)
Lemma challenge_delay_witness :
  let resp := Examples.answers Examples.js_challenge
                (CloudScraper.with_request (Some "GET") Examples.page_url empty_config) in
  let submitUrl :=
    {| Cloudflare.cr_url := "https://example.com/?__cf_chl_f_tk=abc&x=1";
       Cloudflare.cr_data :=
         <["jschl_answer" := "0"]>
           (<["pass" := "pw"]> (<["jschl_vc" := "vc"]> {[ "r" := "rv" ]})) |} in
  let parsedUrl := {| protocol := "https:"; hostname := "example.com";
                      href := Examples.page_url |} in
  let s := CloudScraper.new_state 2000 (Some 5%float) in
  Cloudflare.challengeResponse (Examples.always Examples.js_challenge)
    CloudScraper.default_options Examples.redirecting resp empty_config s
  = (challengeResponse ←
       Examples.redirecting (Some "POST") (Cloudflare.cr_url submitUrl)
         (Cloudflare.challengeConfig resp empty_config parsedUrl submitUrl);
     Cloudflare.after_submit (Examples.always Examples.js_challenge)
       Examples.redirecting resp empty_config submitUrl challengeResponse)
      (advance 5000 (EvSleep 5000) s).
Proof.
  cbv zeta.
  match goal with
  | |- Cloudflare.challengeResponse ?W ?O ?request ?resp ?config ?s = _ =>
      destruct (challenge_delay W O request resp config s Examples.iuam_page
                  {| Cloudflare.cr_url := "https://example.com/?__cf_chl_f_tk=abc&x=1";
                     Cloudflare.cr_data :=
                       <["jschl_answer" := "0"]>
                         (<["pass" := "pw"]> (<["jschl_vc" := "vc"]> {[ "r" := "rv" ]})) |}
                  {| protocol := "https:"; hostname := "example.com";
                     href := Examples.page_url |}) as (H & _ & _)
  end.
  - exists (VBool false). split; vm_compute; reflexivity.
  - reflexivity.
  - vm_compute. reflexivity.
  - reflexivity.
  - apply (H 5%float); reflexivity.
Defined.

(** A page that asks for 1001 ms, on an instance without a delay: the
    delay kept is the number nearest to 1.001, and the timer, set for that
    times 1000, takes 1000 ms. *)
Lemma page_delay_example :
  let resp := Examples.answers Examples.delayed_challenge
                (CloudScraper.with_request (Some "GET") Examples.page_url empty_config) in
  let submitUrl :=
    {| Cloudflare.cr_url := "https://example.com/?__cf_chl_f_tk=abc&x=1";
       Cloudflare.cr_data :=
         <["jschl_answer" := "0"]>
           (<["pass" := "pw"]> (<["jschl_vc" := "vc"]> {[ "r" := "rv" ]})) |} in
  let parsedUrl := {| protocol := "https:"; hostname := "example.com";
                      href := Examples.page_url |} in
  Cloudflare.challengeResponse (Examples.always Examples.delayed_challenge)
    CloudScraper.default_options Examples.redirecting resp empty_config Examples.fresh
  = (challengeResponse ←
       Examples.redirecting (Some "POST") (Cloudflare.cr_url submitUrl)
         (Cloudflare.challengeConfig resp empty_config parsedUrl submitUrl);
     Cloudflare.after_submit (Examples.always Examples.delayed_challenge)
       Examples.redirecting resp empty_config submitUrl challengeResponse)
      (advance 1000 (EvSleep 1000)
         (set_delay (Some (Cloudflare.parseFloat "1001" / 1000)%float) Examples.fresh)).
Proof. vm_compute. reflexivity. Qed.

(** * A solved challenge, end to end *)

(** X30.  The way through.  When the transport answers the requested URL
    with a legacy JS challenge the resolver can answer, and the URL the
    answer is submitted to with a status 200 that is no challenge and
    carries no [location], then with no hook installed, version 1 handling
    on, two free slots and two resolutions to go, [request] waits, submits
    the answer and returns that 200, with the depth counter back at 0.  The
    slot of the outer request is not given back: the counter of requests
    in flight ends one above where it started. *)
Theorem solved_challenge_returns (W : World) (O : Options) (fuel : nat)
    method url config (s : State) (submitUrl : Cloudflare.ChallengeResponse) :
  requestPreHook O = None -> requestPostHook O = None ->
  disableCloudflareV1 O = false ->
  (forall n method config,
     exists r, axios W n (CloudScraper.with_request method url config) = TResponse r
               /\ Spec.Solvable W O (CloudScraper.decodeBrotli W O r) submitUrl) ->
  (forall n method config,
     exists r,
       axios W n (CloudScraper.with_request method (Cloudflare.cr_url submitUrl) config)
       = TResponse r
       /\ Cloudflare.isChallengeRequest (CloudScraper.decodeBrotli W O r) = Normal false
       /\ status r = 200
       /\ headers r !! "location" = None) ->
  0 <= solveDepthCnt s -> solveDepthCnt s + 1 < solveDepth O ->
  0 <= currentConcurrentRequests s ->
  currentConcurrentRequests s + 1 < maxConcurrentRequests O ->
  exists r s',
    CloudScraper.request W O (S (S fuel)) method url config s = Return r s'
    /\ status r = 200
    /\ solveDepthCnt s' = 0
    /\ currentConcurrentRequests s' = currentConcurrentRequests s + 1.
Proof.
  intros Hpre Hpost Hv1 Hpage Hsubmitted Hdepth0 Hdepth Hslots0 Hslots.
  change (CloudScraper.request W O (S (S fuel)) method url config s)
    with (CloudScraper.request_body W O (CloudScraper.request W O (S fuel))
            method url config s).
  destruct (request_body_dispatches W O Hpre Hpost (fun u => u = url)
              (fun resp => Spec.Solvable W O resp submitUrl)
              (fun n m u c Hu =>
                 eq_ind_r
                   (fun u0 =>
                      exists r,
                        axios W n (CloudScraper.with_request m u0 c) = TResponse r
                        /\ Spec.Solvable W O (CloudScraper.decodeBrotli W O r) submitUrl)
                   (Hpage n m c) Hu)
              (CloudScraper.request W O (S fuel))
              method url config s eq_refl)
    as (resp & s1 & Hsolvable & Hd1 & Hc1 & Heq); [lia|].
  rewrite Heq. clear Heq.
  unfold CloudScraper.handleCloudflareChallenges at 1. unfold_m. cbn beta iota.
  replace (solveDepth O <=? solveDepthCnt s1) with false
    by (symmetry; apply Z.leb_gt; lia).
  cbn beta iota. rewrite Hv1.
  destruct Hsolvable
    as (Hclass & (v & Hcap & Hv) & body & parsedUrl & Hbody & Hsub & Hparse).
  rewrite Hclass. cbn beta iota.
  unfold Cloudflare.challengeResponse. rewrite Hcap.
  unfold mbind at 1, M_bind, lift, mret, M_ret. rewrite Hv.
  destruct (iuamResponse_reaches_submit W O
              (CloudScraper.request W O (S fuel)) resp
              (decorate W method url config)
              (set_solveDepthCnt (solveDepthCnt s1 + 1) s1)
              body submitUrl parsedUrl Hbody Hsub Hparse)
    as (s3 & Hreach & Hd3 & Hc3 & _).
  rewrite Hreach. clear Hreach. simpl in Hd3, Hc3.
  destruct (request_body_dispatches W O Hpre Hpost
              (fun u => u = Cloudflare.cr_url submitUrl)
              (fun resp2 =>
                 Cloudflare.isChallengeRequest resp2 = Normal false
                 /\ status resp2 = 200 /\ headers resp2 !! "location" = None)
              (fun n m u c Hu =>
                 eq_ind_r
                   (fun u0 =>
                      exists r,
                        axios W n (CloudScraper.with_request m u0 c) = TResponse r
                        /\ Cloudflare.isChallengeRequest (CloudScraper.decodeBrotli W O r)
                           = Normal false
                        /\ status (CloudScraper.decodeBrotli W O r) = 200
                        /\ headers (CloudScraper.decodeBrotli W O r) !! "location" = None)
                   match Hsubmitted n m c with
                   | ex_intro _ r (conj Hax (conj Hcl (conj Hst Hloc))) =>
                       ex_intro _ r
                         (conj Hax
                            (conj Hcl
                               (conj
                                  (eq_trans (status_decodeBrotli W O r) Hst)
                                  (eq_trans
                                     (f_equal (fun h => h !! "location")
                                        (headers_decodeBrotli W O r))
                                     Hloc))))
                   end Hu)
              (CloudScraper.request W O fuel)
              (Some "POST") (Cloudflare.cr_url submitUrl)
              (Cloudflare.challengeConfig resp (decorate W method url config)
                 parsedUrl submitUrl) s3 eq_refl)
    as (resp2 & s4 & (Hclass2 & Hst2 & Hloc2) & Hd4 & Hc4 & Heq2); [lia|].
  unfold mbind, M_bind.
  change (CloudScraper.request W O (S fuel) (Some "POST") (Cloudflare.cr_url submitUrl)
            (Cloudflare.challengeConfig resp (decorate W method url config)
               parsedUrl submitUrl) s3)
    with (CloudScraper.request_body W O (CloudScraper.request W O fuel) (Some "POST")
            (Cloudflare.cr_url submitUrl)
            (Cloudflare.challengeConfig resp (decorate W method url config)
               parsedUrl submitUrl) s3).
  rewrite Heq2. clear Heq2.
  unfold CloudScraper.handleCloudflareChallenges. unfold_m. cbn beta iota.
  replace (solveDepth O <=? solveDepthCnt s4) with false
    by (symmetry; apply Z.leb_gt; lia).
  cbn beta iota. rewrite Hv1, Hclass2. cbn beta iota.
  unfold CloudScraper.no_location, Cloudflare.after_submit.
  assert (Hfree : forall s0,
            currentConcurrentRequests s0 = currentConcurrentRequests s4 ->
            currentConcurrentRequests (CloudScraper.release_slot s0)
            = currentConcurrentRequests s + 1).
  { intros s0 H0. unfold CloudScraper.release_slot. rewrite H0.
    replace (0 <? currentConcurrentRequests s4) with true
      by (symmetry; apply Z.ltb_lt; lia).
    simpl. lia. }
  destruct (_in403RetryFlag s4) eqn:Hflag;
    eexists; eexists; rewrite !Hloc2, !Hst2; simpl; rewrite ?Hflag; simpl;
    rewrite ?Hst2, ?Hloc2; simpl;
    (split; [reflexivity|]); (split; [first [exact Hst2 | reflexivity]|]);
    (split; [|apply Hfree; reflexivity]);
    unfold CloudScraper.release_slot; destruct_scrutinee; reflexivity.
Qed.

(** The example challenge page in front of a page that answers 200, with
    two slots. *)
Lemma solved_challenge_returns_witness :
  exists r s',
    CloudScraper.request Scenario.challenge_then_ok
      (Examples.with_concurrency 2 CloudScraper.default_options)
      2 (Some "GET") Examples.page_url empty_config Examples.fresh = Return r s'
    /\ status r = 200
    /\ solveDepthCnt s' = 0
    /\ currentConcurrentRequests s' = 1.
Proof.
  apply (solved_challenge_returns Scenario.challenge_then_ok
           (Examples.with_concurrency 2 CloudScraper.default_options)
           0 (Some "GET") Examples.page_url empty_config Examples.fresh
           {| Cloudflare.cr_url := "https://example.com/?__cf_chl_f_tk=abc&x=1";
              Cloudflare.cr_data :=
                <["jschl_answer" := "0"]>
                  (<["pass" := "pw"]> (<["jschl_vc" := "vc"]> {[ "r" := "rv" ]})) |});
    try reflexivity; try (simpl; lia).
  - intros n method config.
    exists (Examples.answers Examples.js_challenge
              (CloudScraper.with_request method Examples.page_url config)).
    split; [reflexivity|].
    split; [vm_compute; reflexivity|].
    split; [exists (VBool false); split; vm_compute; reflexivity|].
    exists Examples.iuam_page.
    exists {| protocol := "https:"; hostname := "example.com";
              href := Examples.page_url |}.
    split; [reflexivity|]. split; [vm_compute; reflexivity | reflexivity].
  - intros n method config.
    exists (Examples.answers Examples.ok
              (CloudScraper.with_request method
                 "https://example.com/?__cf_chl_f_tk=abc&x=1" config)).
    split; [reflexivity|].
    split; [vm_compute; reflexivity|]. split; reflexivity.
Defined.
